(** * nbstripout: the stripping engine of [_utils.py]

    A shallow embedding of [pop_recursive], [get_size],
    [determine_keep_output], [_cells] and [strip_output], and the
    properties of the specification that concern them.

    Notebook documents are the trees that [nbformat] builds from JSON:
    [NotebookNode] (a [dict] with attribute access), [list], [str], [int],
    [bool] and [None].  JSON numbers with a fraction or an exponent are
    outside the model: measuring one needs Python's float printing.  A
    Python [str] is a Rocq [string] whose characters are read as the code
    points below 256, so that [len] is [String.length]. *)

From Stdlib Require Import String Ascii List ZArith Bool Lia DecimalString DecimalPos.
Import ListNotations.
Local Open Scope string_scope.
Local Open Scope Z_scope.

(** ** Values *)

#[warnings="-register-all"]
Inductive value : Type :=
| VNone
| VBool (b : bool)
| VInt (n : Z)
| VStr (s : string)
| VList (l : list value)
| VDict (d : list (string * value)).

(** A mapping keeps its keys in insertion order.  A well-formed one has no
    repeated key; reading takes the first binding of a key and [pop] deletes
    every binding of it, which is what Python's [dict] does on well-formed
    mappings. *)
Abbreviation dict := (list (string * value)).

Section ValueInduction.
Variable P : value -> Prop.
Hypothesis HNone : P VNone.
Hypothesis HBool : forall b, P (VBool b).
Hypothesis HInt : forall n, P (VInt n).
Hypothesis HStr : forall s, P (VStr s).
Hypothesis HList : forall l, Forall P l -> P (VList l).
Hypothesis HDict : forall d, Forall (fun kv => P (snd kv)) d -> P (VDict d).

Fixpoint value_nested_ind (v : value) : P v :=
  match v with
  | VNone => HNone
  | VBool b => HBool b
  | VInt n => HInt n
  | VStr s => HStr s
  | VList l =>
      HList l ((fix elems (l : list value) : Forall P l :=
                  match l with
                  | [] => Forall_nil _
                  | x :: r => Forall_cons _ (value_nested_ind x) (elems r)
                  end) l)
  | VDict d =>
      HDict d ((fix binds (d : dict) : Forall (fun kv => P (snd kv)) d :=
                  match d with
                  | [] => Forall_nil _
                  | kv :: r => Forall_cons _ (value_nested_ind (snd kv)) (binds r)
                  end) d)
  end.
End ValueInduction.

(** ** Mappings *)

Fixpoint dict_get (k : string) (d : dict) : option value :=
  match d with
  | [] => None
  | (k', v) :: r => if String.eqb k' k then Some v else dict_get k r
  end.

Definition dict_mem (k : string) (d : dict) : bool :=
  match dict_get k d with Some _ => true | None => false end.

(** [d[k] = v]: an existing key keeps its place, a new one goes last. *)
Fixpoint dict_set (k : string) (v : value) (d : dict) : dict :=
  match d with
  | [] => [(k, v)]
  | (k', v') :: r =>
      if String.eqb k' k then (k', v) :: r else (k', v') :: dict_set k v r
  end.

Definition dict_pop (k : string) (d : dict) : dict :=
  filter (fun kv => negb (String.eqb (fst kv) k)) d.

(** ** Exceptions *)

(** [MetadataError] is the module's own exception.  [GenericError] stands
    for every other exception the code can raise on a document of an
    unexpected shape ([AttributeError], [KeyError], [TypeError]). *)
Inductive exn : Type := MetadataError | GenericError.

Inductive result (A : Type) : Type :=
| Ok (a : A)
| Raise (e : exn).
Arguments Ok {A} a.
Arguments Raise {A} e.

Definition bind {A B : Type} (m : result A) (f : A -> result B) : result B :=
  match m with
  | Ok a => f a
  | Raise e => Raise e
  end.

Notation "x <- m ;; k" := (bind m (fun x => k))
  (at level 61, m at next level, right associativity).

Fixpoint mapM {A B : Type} (f : A -> result B) (l : list A) : result (list B) :=
  match l with
  | [] => Ok []
  | x :: r => y <- f x ;; ys <- mapM f r ;; Ok (y :: ys)
  end.

Fixpoint filterM {A : Type} (f : A -> result bool) (l : list A) : result (list A) :=
  match l with
  | [] => Ok []
  | x :: r => b <- f x ;; ys <- filterM f r ;; Ok (if b then x :: ys else ys)
  end.

(** ** Python primitives on values *)

(** [bool(v)]. *)
Definition truthy (v : value) : bool :=
  match v with
  | VNone => false
  | VBool b => b
  | VInt n => negb (n =? 0)
  | VStr s => negb (String.eqb s "")
  | VList l => match l with [] => false | _ => true end
  | VDict d => match d with [] => false | _ => true end
  end.

(** [str(v)] of a scalar. *)
Definition py_str (v : value) : string :=
  match v with
  | VNone => "None"
  | VBool true => "True"
  | VBool false => "False"
  | VInt n => NilZero.string_of_int (Z.to_int n)
  | _ => ""
  end.

Fixpoint is_prefix (p s : string) : bool :=
  match p, s with
  | EmptyString, _ => true
  | String a p', String b s' => Ascii.eqb a b && is_prefix p' s'
  | String _ _, EmptyString => false
  end.

(** [needle in s] for two strings. *)
Fixpoint is_substring (needle s : string) : bool :=
  is_prefix needle s ||
  match s with
  | EmptyString => false
  | String _ s' => is_substring needle s'
  end.

Definition value_is_str (k : string) (v : value) : bool :=
  match v with VStr s => String.eqb s k | _ => false end.

(** [k in c] for a string [k]: key membership in a mapping, element
    membership in a list, substring test in a string, [TypeError]
    otherwise. *)
Definition py_contains (k : string) (c : value) : result bool :=
  match c with
  | VDict d => Ok (dict_mem k d)
  | VList l => Ok (existsb (value_is_str k) l)
  | VStr s => Ok (is_substring k s)
  | _ => Raise GenericError
  end.

Fixpoint chars (s : string) : list value :=
  match s with
  | EmptyString => []
  | String a s' => VStr (String a EmptyString) :: chars s'
  end.

(** What [for x in c] visits: the elements of a list, the characters of a
    string, the keys of a mapping; [TypeError] otherwise. *)
Definition py_iter (c : value) : result (list value) :=
  match c with
  | VList l => Ok l
  | VStr s => Ok (chars s)
  | VDict d => Ok (map (fun kv => VStr (fst kv)) d)
  | _ => Raise GenericError
  end.

(** [o.name] on a [NotebookNode] reads the key [name]; any other object has
    none of the attributes the code asks for. *)
Definition getattr (o : value) (name : string) : result value :=
  match o with
  | VDict d => match dict_get name d with Some v => Ok v | None => Raise GenericError end
  | _ => Raise GenericError
  end.

(** [o[k]] for a string [k]. *)
Definition getitem (o : value) (k : string) : result value :=
  match o with
  | VDict d => match dict_get k d with Some v => Ok v | None => Raise GenericError end
  | _ => Raise GenericError
  end.

(** [o[k] = v] and [o.k = v] for a string [k]. *)
Definition setitem (o : value) (k : string) (v : value) : result value :=
  match o with
  | VDict d => Ok (VDict (dict_set k v d))
  | _ => Raise GenericError
  end.

(** [o.get(k, default)]; only mappings have the method. *)
Definition py_get (o : value) (k : string) (default : value) : result value :=
  match o with
  | VDict d => Ok (match dict_get k d with Some v => v | None => default end)
  | _ => Raise GenericError
  end.

(** ** [pop_recursive] *)

Definition dot : ascii := "."%char.

(** [key.split('.', maxsplit=1)] when ['.' in key]. *)
Fixpoint split_dot (key : string) : option (string * string) :=
  match key with
  | EmptyString => None
  | String a r =>
      if Ascii.eqb a dot then Some (EmptyString, r)
      else match split_dot r with
           | Some (h, t) => Some (String a h, t)
           | None => None
           end
  end.

Section Descend.
Variable step : value -> value * value.
Variable key_head : string.

(** Runs [step] on [d[key_head]], in place: [None] when the key is
    absent. *)
Fixpoint dict_descend (d : dict) : option (value * dict) :=
  match d with
  | [] => None
  | (k, v) :: r =>
      if String.eqb k key_head
      then let (res, v') := step v in Some (res, (k, v') :: r)
      else match dict_descend r with
           | Some (res, r') => Some (res, (k, v) :: r')
           | None => None
           end
  end.
End Descend.

(** Returns the popped value (or [default]) and the mapping as the call
    leaves it. *)
Fixpoint pop_recursive (d : value) (key : string) (default : value) {struct d}
  : value * value :=
  match d with
  | VDict kvs =>
      match dict_get key kvs with
      | Some v => (v, VDict (dict_pop key kvs))
      | None =>
          match split_dot key with
          | None => (default, d)
          | Some (key_head, key_tail) =>
              match dict_descend (fun sub => pop_recursive sub key_tail default)
                                 key_head kvs with
              | Some (res, kvs') => (res, VDict kvs')
              | None => (default, d)
              end
          end
      end
  | _ => (default, d)
  end.

(** ** [get_size] *)

Definition zsum (l : list Z) : Z := fold_right Z.add 0 l.

Fixpoint get_size (item : value) : Z :=
  match item with
  | VStr s => Z.of_nat (String.length s)
  | VList l => zsum (map get_size l)
  | VDict d => zsum (map (fun kv => get_size (snd kv)) d)
  | _ => Z.of_nat (String.length (py_str item))
  end.


(** ** [determine_keep_output] *)

(** [default] is [None], [True] or [False], and so is the value returned. *)
Definition determine_keep_output (cell : value) (default : option bool)
    (strip_init_cells : bool) : result (option bool) :=
  has_metadata <- py_contains "metadata" cell ;;
  if negb has_metadata then Ok default else
  metadata <- getattr cell "metadata" ;;
  has_init_cell <- py_contains "init_cell" metadata ;;
  if has_init_cell then
    init_cell <- getattr metadata "init_cell" ;;
    Ok (Some (truthy init_cell && negb strip_init_cells))
  else
  has_keep_output_metadata <- py_contains "keep_output" metadata ;;
  keep_output_value <- py_get metadata "keep_output" (VBool false) ;;
  let keep_output_metadata := truthy keep_output_value in
  tags <- py_get metadata "tags" (VList []) ;;
  has_keep_output_tag <- py_contains "keep_output" tags ;;
  if has_keep_output_metadata && has_keep_output_tag && negb keep_output_metadata
  then Raise MetadataError
  else if has_keep_output_metadata || has_keep_output_tag
  then Ok (Some (keep_output_metadata || has_keep_output_tag))
  else Ok default.

(** ** The cell filters and [_cells] *)

(** The characters [str.strip()] removes, among the code points below 256. *)
Definition is_space (a : ascii) : bool :=
  let n := nat_of_ascii a in
  ((9 <=? n) && (n <=? 13) || (28 <=? n) && (n <=? 32)
   || (n =? 133) || (n =? 160))%nat.

Fixpoint all_space (s : string) : bool :=
  match s with
  | EmptyString => true
  | String a r => is_space a && all_space r
  end.

(** [any(line.strip() for line in lines)]: stops at the first line with a
    character other than white space; a line that is not a string has no
    [strip] to call. *)
Fixpoint any_strip (lines : list value) : result bool :=
  match lines with
  | [] => Ok false
  | VStr s :: r => if all_space s then any_strip r else Ok true
  | _ :: _ => Raise GenericError
  end.

(** The two lambdas of [strip_output].  The second one reads the variable
    [tag_to_drop] of [strip_output] when it is called, not when it is
    made. *)
Inductive conditional : Type :=
| SourceNotBlank
| TagAbsent.

Definition call_conditional (tag_to_drop : string) (f : conditional) (c : value)
  : result bool :=
  match f with
  | SourceNotBlank =>
      source <- py_get c "source" (VList []) ;;
      lines <- py_iter source ;;
      any_strip lines
  | TagAbsent =>
      metadata <- py_get c "metadata" (VDict []) ;;
      tags <- py_get metadata "tags" (VList []) ;;
      present <- py_contains tag_to_drop tags ;;
      Ok (negb present)
  end.

(** [list(filter(conditional, cells))]. *)
Definition filter_cells (tag_to_drop : string) (f : conditional) (cells : value)
  : result value :=
  items <- py_iter cells ;;
  kept <- filterM (call_conditional tag_to_drop f) items ;;
  Ok (VList kept).

(** [for conditional in conditionals: o.cells = list(filter(conditional, o.cells))] *)
Fixpoint apply_conditionals (tag_to_drop : string) (conditionals : list conditional)
    (o : value) : result value :=
  match conditionals with
  | [] => Ok o
  | f :: r =>
      cells <- getattr o "cells" ;;
      kept <- filter_cells tag_to_drop f cells ;;
      o' <- setitem o "cells" kept ;;
      apply_conditionals tag_to_drop r o'
  end.

(** [nb.nbformat < 4]; a [bool] compares as 0 or 1. *)
Definition nbformat_lt_4 (v : value) : result bool :=
  match v with
  | VInt n => Ok (n <? 4)
  | VBool _ => Ok true
  | _ => Raise GenericError
  end.

Section Cells.
(** [body] is what the consumer of the generator does with each cell it
    is handed; the cell is an object of the document, so what [body] makes
    of it is what the document holds afterwards.  Strings handed out by
    iterating over a string or over the keys of a mapping are not objects
    of the document. *)
Variable body : value -> result value.
Variable tag_to_drop : string.
Variable conditionals : list conditional.

(** [for cell in o.cells: yield cell] *)
Definition yield_cells (o : value) : result value :=
  cells <- getattr o "cells" ;;
  items <- py_iter cells ;;
  items' <- mapM body items ;;
  match cells with
  | VList _ => setitem o "cells" (VList items')
  | _ => Ok o
  end.

Definition filter_and_yield (o : value) : result value :=
  o' <- apply_conditionals tag_to_drop conditionals o ;;
  yield_cells o'.

Definition _cells (nb : value) : result value :=
  nbformat <- getattr nb "nbformat" ;;
  legacy <- nbformat_lt_4 nbformat ;;
  if legacy then
    worksheets <- getattr nb "worksheets" ;;
    wss <- py_iter worksheets ;;
    wss' <- mapM filter_and_yield wss ;;
    match worksheets with
    | VList _ => setitem nb "worksheets" (VList wss')
    | _ => Ok nb
    end
  else filter_and_yield nb.
End Cells.

(** ** [strip_output] *)

Record StripArgs : Type := mkStripArgs {
  keep_output : option bool;
  keep_count : bool;
  extra_keys : list string;
  drop_empty_cells : bool;
  drop_tagged_cells : list string;
  strip_init_cells : bool;
  max_size : Z
}.

(** [not v] for [v] among [None], [True] and [False]. *)
Definition py_not (v : option bool) : bool :=
  match v with
  | Some true => false
  | _ => true
  end.

(** ['.' not in key or key.split('.')[0] not in ['cell', 'metadata']] *)
Definition invalid_extra_key (key : string) : bool :=
  match split_dot key with
  | None => true
  | Some (namespace, _) =>
      negb (String.eqb namespace "cell" || String.eqb namespace "metadata")
  end.

Definition warning (key : string) : string :=
  "Ignoring invalid extra key `" ++ key ++ "`" ++ String (ascii_of_nat 10) "".

(** What the loop over [args.extra_keys] writes to [sys.stderr]. *)
Definition warnings (keys : list string) : list string :=
  map warning (filter invalid_extra_key keys).

(** [keys[namespace]] once the loop over [args.extra_keys] is over. *)
Fixpoint subkeys (namespace : string) (keys : list string) : list string :=
  match keys with
  | [] => []
  | key :: r =>
      if invalid_extra_key key then subkeys namespace r
      else match split_dot key with
           | Some (ns, subkey) =>
               if String.eqb ns namespace then subkey :: subkeys namespace r
               else subkeys namespace r
           | None => subkeys namespace r
           end
  end.

(** [for field in fields: pop_recursive(d, field)] *)
Definition pop_fields (fields : list string) (d : value) : value :=
  fold_left (fun d field => snd (pop_recursive d field VNone)) fields d.

(** [if 'execution_count' in output: output['execution_count'] = None] *)
Definition null_execution_count (output : value) : result value :=
  present <- py_contains "execution_count" output ;;
  if present then setitem output "execution_count" VNone else Ok output.

Section StripCell.
Variable args : StripArgs.
Variable keep_output_default : option bool.
Variable cell_keys : list string.

(** The statements under [if 'outputs' in cell:]. *)
Definition strip_outputs (keep_output_this_cell : option bool) (cell : value)
  : result value :=
  cell1 <- (if py_not keep_output_this_cell then
              outputs <- getitem cell "outputs" ;;
              items <- py_iter outputs ;;
              setitem cell "outputs"
                (VList (filter (fun output => get_size output <=? max_size args) items))
            else Ok cell) ;;
  if negb (keep_count args) then
    outputs <- getitem cell1 "outputs" ;;
    items <- py_iter outputs ;;
    items' <- mapM null_execution_count items ;;
    match outputs with
    | VList _ => setitem cell1 "outputs" (VList items')
    | _ => Ok cell1
    end
  else Ok cell1.

(** [if name in cell and not args.keep_count: cell[name] = None] *)
Definition null_count (name : string) (cell : value) : result value :=
  present <- py_contains name cell ;;
  if present && negb (keep_count args) then setitem cell name VNone else Ok cell.

(** The body of the loop over the cells. *)
Definition strip_cell (cell : value) : result value :=
  keep_output_this_cell <-
    determine_keep_output cell keep_output_default (strip_init_cells args) ;;
  has_outputs <- py_contains "outputs" cell ;;
  cell1 <- (if has_outputs then strip_outputs keep_output_this_cell cell
            else Ok cell) ;;
  cell2 <- null_count "prompt_number" cell1 ;;
  cell3 <- null_count "execution_count" cell2 ;;
  Ok (pop_fields cell_keys cell3).
End StripCell.

(** [keep_output] after the first statements of [strip_output]. *)
Definition effective_keep_output (nb : value) (args : StripArgs)
  : result (option bool) :=
  match keep_output args with
  | None =>
      metadata <- getattr nb "metadata" ;;
      present <- py_contains "keep_output" metadata ;;
      if present then
        v <- getitem metadata "keep_output" ;;
        Ok (Some (truthy v))
      else Ok None
  | Some b => Ok (Some b)
  end.

(** [for field in keys['metadata']: pop_recursive(nb.metadata, field)] *)
Definition strip_metadata (fields : list string) (nb : value) : result value :=
  match fields with
  | [] => Ok nb
  | _ :: _ =>
      metadata <- getattr nb "metadata" ;;
      setitem nb "metadata" (pop_fields fields metadata)
  end.

(** The list [conditionals], and [tag_to_drop] when the loop that fills it
    is over: the last tag.  With no tag the variable is unbound, and no
    lambda reads it. *)
Definition build_conditionals (args : StripArgs) : list conditional :=
  (if drop_empty_cells args then [SourceNotBlank] else [])
  ++ map (fun _ => TagAbsent) (drop_tagged_cells args).

Definition last_tag (args : StripArgs) : string :=
  last (drop_tagged_cells args) "".

(** The document returned, or the exception raised, with what was written
    to [sys.stderr]. *)
Definition strip_output (nb : value) (args : StripArgs) : list string * result value :=
  match effective_keep_output nb args with
  | Raise e => ([], Raise e)
  | Ok keep =>
      (warnings (extra_keys args),
       nb1 <- strip_metadata (subkeys "metadata" (extra_keys args)) nb ;;
       _cells (strip_cell args keep (subkeys "cell" (extra_keys args)))
              (last_tag args) (build_conditionals args) nb1)
  end.

Definition default_args : StripArgs :=
  mkStripArgs (Some false) false [] false [] false 0.




(** The cells [_cells] hands out when nothing is filtered. *)
Definition cells_of (o : value) : result (list value) :=
  cells <- getattr o "cells" ;; py_iter cells.

Definition document_cells (nb : value) : result (list value) :=
  nbformat <- getattr nb "nbformat" ;;
  legacy <- nbformat_lt_4 nbformat ;;
  if legacy then
    worksheets <- getattr nb "worksheets" ;;
    wss <- py_iter worksheets ;;
    css <- mapM cells_of wss ;;
    Ok (concat css)
  else cells_of nb.

(** ** Definitions the statements below use *)

(** The objects whose [cells] the generator filters and walks: the
    notebook, or each of its worksheets when [nbformat] is below 4; none
    when they cannot be read. *)
Definition cell_containers (nb : value) : list value :=
  match (nbformat <- getattr nb "nbformat" ;; nbformat_lt_4 nbformat) with
  | Ok true =>
      match (worksheets <- getattr nb "worksheets" ;; py_iter worksheets) with
      | Ok wss => wss
      | Raise _ => []
      end
  | Ok false => [nb]
  | Raise _ => []
  end.


Section AtHead.
Variable p : value -> bool.
Variable key_head : string.

(** [p] at [d[key_head]]; [false] when the key is absent. *)
Fixpoint holds_at (d : dict) : bool :=
  match d with
  | [] => false
  | (k, v) :: r => if String.eqb k key_head then p v else holds_at r
  end.
End AtHead.

(** The path [key] resolves in [d]: [d] is a mapping, and either it has
    the whole of [key] as one key, or [key] has a dot, its head segment is a
    key of [d] and the rest of the path resolves in the value there. *)
Fixpoint path_resolves (d : value) (key : string) {struct d} : bool :=
  match d with
  | VDict kvs =>
      dict_mem key kvs ||
      match split_dot key with
      | Some (key_head, key_tail) =>
          holds_at (fun sub => path_resolves sub key_tail) key_head kvs
      | None => false
      end
  | _ => false
  end.

Definition is_dict (v : value) : bool :=
  match v with VDict _ => true | _ => false end.

(** The cell has a mapping for metadata, without [init_cell], where
    [keep_output] is a key whose value is false under [bool] while
    ["keep_output"] is in [tags]. *)
Definition contradicts (cell : value) : bool :=
  match cell with
  | VDict c =>
      match dict_get "metadata" c with
      | Some (VDict md) =>
          negb (dict_mem "init_cell" md)
          && match dict_get "keep_output" md with
             | Some v => negb (truthy v)
             | None => false
             end
          && match dict_get "tags" md with
             | Some tags =>
                 match py_contains "keep_output" tags with
                 | Ok present => present
                 | Raise _ => false
                 end
             | None => false
             end
      | _ => false
      end
  | _ => false
  end.

(** [args._replace(extra_keys=keys)] *)
Definition with_extra_keys (args : StripArgs) (keys : list string) : StripArgs :=
  mkStripArgs (keep_output args) (keep_count args) keys (drop_empty_cells args)
              (drop_tagged_cells args) (strip_init_cells args) (max_size args).

Fixpoint has_dot (key : string) : bool :=
  match key with
  | EmptyString => false
  | String a r => Ascii.eqb a dot || has_dot r
  end.

(** [k] is [l] with some elements left out, the others in their order. *)
Inductive subseq {A : Type} : list A -> list A -> Prop :=
| subseq_nil : subseq [] []
| subseq_take x k l : subseq k l -> subseq (x :: k) (x :: l)
| subseq_skip x k l : subseq k l -> subseq k (x :: l).

(** Every conditional of the list lets the cell through. *)
Definition passes (tag_to_drop : string) (conditionals : list conditional)
    (c : value) : Prop :=
  Forall (fun f => call_conditional tag_to_drop f c = Ok true) conditionals.

Definition is_str (v : value) : Prop := exists s, v = VStr s.


(** [get_size(output) <= max_size] *)
Definition small (max : Z) (output : value) : bool := get_size output <=? max.

(** [strip_outputs] as it acts on the value [cell['outputs']]. *)
Definition strip_outputs_value (args : StripArgs) (keep_output_this_cell : option bool)
    (outputs : value) : result value :=
  outputs1 <- (if py_not keep_output_this_cell then
                 items <- py_iter outputs ;;
                 Ok (VList (filter (small (max_size args)) items))
               else Ok outputs) ;;
  if negb (keep_count args) then
    items <- py_iter outputs1 ;;
    items' <- mapM null_execution_count items ;;
    Ok (match outputs1 with VList _ => VList items' | _ => outputs1 end)
  else Ok outputs1.

(** [null_count] as it acts on a mapping. *)
Definition null_count_dict (args : StripArgs) (name : string) (d : dict) : dict :=
  if dict_mem name d && negb (keep_count args) then dict_set name VNone d else d.

(** The extra key [key] names the field [f] of a cell or something below
    it. *)
Definition touches (f key : string) : bool :=
  String.eqb key f
  || match split_dot key with
     | Some (key_head, _) => String.eqb key_head f
     | None => false
     end.




(** The counters of a cell and of its outputs are null where present. *)
Definition counts_null (cell : value) : Prop :=
  (forall v, getitem cell "prompt_number" = Ok v -> v = VNone)
  /\ (forall v, getitem cell "execution_count" = Ok v -> v = VNone)
  /\ (forall outputs items output v,
         getitem cell "outputs" = Ok outputs ->
         py_iter outputs = Ok items ->
         In output items ->
         getitem output "execution_count" = Ok v -> v = VNone).

(** The counters of [cell'] are those of [cell], and its outputs are
    outputs of [cell], as they were and in their order. *)
Definition counts_kept (cell cell' : value) : Prop :=
  getitem cell' "prompt_number" = getitem cell "prompt_number"
  /\ getitem cell' "execution_count" = getitem cell "execution_count"
  /\ (forall outputs' items',
         getitem cell' "outputs" = Ok outputs' ->
         py_iter outputs' = Ok items' ->
         exists outputs items,
           getitem cell "outputs" = Ok outputs
           /\ py_iter outputs = Ok items
           /\ subseq items' items).

(** No extra key names the counters or the outputs of a cell. *)
Definition spares_counts (cell_keys : list string) : bool :=
  forallb (fun key => negb (touches "prompt_number" key
                            || touches "execution_count" key
                            || touches "outputs" key)) cell_keys.

(** A field that survives a [pop_recursive] holds what it held, unless it
    held a mapping, in which case it holds a mapping. *)
Definition same_or_dicts (x y : value) : Prop :=
  y = x \/ is_dict x = true /\ is_dict y = true.

(** A version 4 notebook with empty metadata. *)
Definition notebook (cells : list value) : value :=
  VDict [("nbformat", VInt 4); ("metadata", VDict []); ("cells", VList cells)].

(** The cell of the end-to-end example. *)
Definition executed_cell : value :=
  VDict [("source", VList [VStr "1+1"]);
         ("outputs", VList [VDict [("execution_count", VInt 3);
                                   ("data", VDict [("text/plain", VStr "2")])]]);
         ("execution_count", VInt 3)].

(** The number of entries of the mappings of a value, at every depth. *)
Fixpoint bindings (v : value) : nat :=
  match v with
  | VList l => list_sum (map bindings l)
  | VDict d => list_sum (map (fun kv => S (bindings (snd kv))) d)
  | _ => 0%nat
  end.

(** A value with no scalar in it and no string other than the empty one. *)
Fixpoint hollow (v : value) : bool :=
  match v with
  | VStr s => String.eqb s ""
  | VList l => forallb hollow l
  | VDict d => forallb (fun kv => hollow (snd kv)) d
  | _ => false
  end.

(** The entries of a mapping, each counted with the measure [m] of its
    value. *)
Definition entry_sum (m : value -> nat) (d : dict) : nat :=
  list_sum (map (fun kv => S (m (snd kv))) d).

(** The value that [tags] has for [determine_keep_output]. *)
Definition tags_of (md : dict) : value :=
  match dict_get "tags" md with Some tags => tags | None => VList [] end.

(** A cell of the documented shape: a mapping whose [metadata], when
    present, is a mapping with a list for [tags], when present, and whose
    [outputs], when present, are a list of mappings. *)
Definition well_shaped_cell (cell : value) : bool :=
  match cell with
  | VDict c =>
      match dict_get "metadata" c with
      | None => true
      | Some (VDict md) =>
          match dict_get "tags" md with
          | None | Some (VList _) => true
          | _ => false
          end
      | _ => false
      end
      && match dict_get "outputs" c with
         | None => true
         | Some (VList outs) => forallb is_dict outs
         | _ => false
         end
  | _ => false
  end.

(** The outputs of [cell'], when they are a list, are outputs of [cell] in
    their order, each as it was or with its [execution_count] set to
    null. *)
Definition outputs_from (cell cell' : value) : Prop :=
  forall items',
    getitem cell' "outputs" = Ok (VList items') ->
    exists outputs items kept,
      getitem cell "outputs" = Ok outputs
      /\ py_iter outputs = Ok items
      /\ subseq kept items
      /\ Forall2 (fun o o' => o' = o \/ null_execution_count o = Ok o') kept items'.

(** Every conditional of the list returns [True] on the cell. *)
Definition accepts (tag_to_drop : string) (conditionals : list conditional)
    (c : value) : bool :=
  forallb (fun f => match call_conditional tag_to_drop f c with
                    | Ok true => true
                    | _ => false
                    end) conditionals.

(** [args._replace(drop_tagged_cells=tags)] *)
Definition with_tags (args : StripArgs) (tags : list string) : StripArgs :=
  mkStripArgs (keep_output args) (keep_count args) (extra_keys args)
              (drop_empty_cells args) tags (strip_init_cells args) (max_size args).

(** The decision for the cell is to keep its outputs. *)
Definition keeps_cell (default : option bool) (strip_init_cells : bool)
    (cell : value) : bool :=
  match determine_keep_output cell default strip_init_cells with
  | Ok decision => negb (py_not decision)
  | Raise _ => false
  end.








(** ** [strip_zeppelin_output] *)

(** [if 'results' in cell: cell['results'] = {}] *)
Definition clear_results (cell : value) : result value :=
  present <- py_contains "results" cell ;;
  if present then setitem cell "results" (VDict []) else Ok cell.

(** The loop runs over [nb['paragraphs']], which [_zeppelin_cells] hands
    out one by one. *)
Definition strip_zeppelin_output (nb : value) : result value :=
  paragraphs <- getitem nb "paragraphs" ;;
  items <- py_iter paragraphs ;;
  items' <- mapM clear_results items ;;
  match paragraphs with
  | VList _ => setitem nb "paragraphs" (VList items')
  | _ => Ok nb
  end.

(** What [clear_results] makes of a paragraph: [results] is the empty
    mapping when it was there, and nothing else has changed. *)
Definition results_cleared (p p' : value) : Prop :=
  (forall k, k <> "results" -> getitem p' k = getitem p k)
  /\ (py_contains "results" p = Ok true -> getitem p' "results" = Ok (VDict []))
  /\ (py_contains "results" p = Ok false -> p' = p).

(** * Properties *)

(** ** Mappings *)

Lemma dict_get_set_same k v d : dict_get k (dict_set k v d) = Some v.
Proof.
  induction d as [|[k' v'] r IH]; simpl.
  - now rewrite String.eqb_refl.
  - destruct (String.eqb k' k) eqn:E; simpl; rewrite E; auto.
Qed.

Lemma dict_get_set_other k k' v d :
  k <> k' -> dict_get k (dict_set k' v d) = dict_get k d.
Proof.
  intros Hne. induction d as [|[k0 v0] r IH]; simpl.
  - destruct (String.eqb k' k) eqn:E; auto.
    apply String.eqb_eq in E. congruence.
  - destruct (String.eqb k0 k') eqn:E; simpl.
    + apply String.eqb_eq in E. subst k0.
      destruct (String.eqb k' k) eqn:E'; auto.
      apply String.eqb_eq in E'. congruence.
    + now rewrite IH.
Qed.

Lemma dict_set_set k v1 v2 d : dict_set k v2 (dict_set k v1 d) = dict_set k v2 d.
Proof.
  induction d as [|[k' v'] r IH]; simpl.
  - now rewrite String.eqb_refl.
  - destruct (String.eqb k' k) eqn:E; simpl; rewrite E; auto. now rewrite IH.
Qed.

Lemma dict_set_get_id k v d : dict_get k d = Some v -> dict_set k v d = d.
Proof.
  induction d as [|[k' v'] r IH]; simpl; [discriminate|].
  destruct (String.eqb k' k) eqn:E; intros H.
  - now inversion H.
  - now rewrite IH.
Qed.

Lemma dict_get_pop f k d :
  dict_get f (dict_pop k d) = if String.eqb f k then None else dict_get f d.
Proof.
  unfold dict_pop. induction d as [|[k' v'] r IH]; simpl.
  - now destruct (String.eqb f k).
  - destruct (String.eqb k' k) eqn:E; simpl.
    + rewrite IH. apply String.eqb_eq in E. subst k'.
      rewrite (String.eqb_sym k f). now destruct (String.eqb f k).
    + rewrite IH. destruct (String.eqb k' f) eqn:E'; auto.
      apply String.eqb_eq in E'. subst k'. now rewrite E.
Qed.

Lemma dict_mem_get k d : dict_mem k d = true <-> exists v, dict_get k d = Some v.
Proof.
  unfold dict_mem. destruct (dict_get k d); split; eauto; try discriminate.
  now intros [v H].
Qed.

Lemma dict_descend_get step h d :
  dict_descend step h d =
  match dict_get h d with
  | Some sub => Some (fst (step sub), dict_set h (snd (step sub)) d)
  | None => None
  end.
Proof.
  induction d as [|[k v] r IH]; simpl; auto.
  destruct (String.eqb k h) eqn:E.
  - now destruct (step v).
  - rewrite IH. now destruct (dict_get h r).
Qed.

(** ** [pop_recursive] *)

Lemma pop_recursive_not_dict d key default :
  (forall kvs, d <> VDict kvs) -> pop_recursive d key default = (default, d).
Proof. destruct d; simpl; auto. intros H. now destruct (H d). Qed.

(** One step of [pop_recursive] on a mapping, by its cases. *)
Lemma pop_recursive_dict kvs key default :
  pop_recursive (VDict kvs) key default =
  match dict_get key kvs with
  | Some v => (v, VDict (dict_pop key kvs))
  | None =>
      match split_dot key with
      | None => (default, VDict kvs)
      | Some (key_head, key_tail) =>
          match dict_get key_head kvs with
          | None => (default, VDict kvs)
          | Some sub =>
              (fst (pop_recursive sub key_tail default),
               VDict (dict_set key_head (snd (pop_recursive sub key_tail default)) kvs))
          end
      end
  end.
Proof.
  simpl. destruct (dict_get key kvs); auto.
  destruct (split_dot key) as [[h t]|]; auto.
  rewrite dict_descend_get. now destruct (dict_get h kvs).
Qed.

Lemma pop_recursive_keeps_dict kvs key default :
  exists kvs', snd (pop_recursive (VDict kvs) key default) = VDict kvs'.
Proof.
  rewrite pop_recursive_dict.
  destruct (dict_get key kvs); [simpl; eauto|].
  destruct (split_dot key) as [[h t]|]; [|simpl; eauto].
  destruct (dict_get h kvs); simpl; eauto.
Qed.

Lemma holds_at_get p h d :
  holds_at p h d = match dict_get h d with Some sub => p sub | None => false end.
Proof.
  induction d as [|[k v] r IH]; simpl; auto.
  now destruct (String.eqb k h).
Qed.

Lemma pop_recursive_unresolved d :
  forall key default,
    path_resolves d key = false -> pop_recursive d key default = (default, d).
Proof.
  induction d as [|b|n|s|l IHl|kvs IH] using value_nested_ind; intros key default H;
    try reflexivity.
  rewrite pop_recursive_dict. simpl in H.
  apply orb_false_iff in H. destruct H as [Hmem Hrest].
  unfold dict_mem in Hmem. destruct (dict_get key kvs); [discriminate|].
  destruct (split_dot key) as [[h t]|]; auto.
  rewrite holds_at_get in Hrest.
  destruct (dict_get h kvs) as [sub|] eqn:Hsub; auto.
  assert (Hin : exists k, In (k, sub) kvs).
  { clear - Hsub. induction kvs as [|[k v] r IHr]; simpl in *; [discriminate|].
    destruct (String.eqb k h).
    - inversion Hsub. eauto.
    - destruct (IHr Hsub) as [k' Hk]. eauto. }
  destruct Hin as [k Hin].
  rewrite Forall_forall in IH. specialize (IH _ Hin t default Hrest). simpl in IH.
  rewrite IH. simpl. now rewrite (dict_set_get_id _ _ _ Hsub).
Qed.

(** ** The first dot of a path *)

Lemma has_dot_In key : has_dot key = true <-> In dot (list_ascii_of_string key).
Proof.
  induction key as [|a r IH]; simpl.
  - split; [discriminate|tauto].
  - rewrite orb_true_iff, IH, Ascii.eqb_eq. tauto.
Qed.

Lemma no_dot_In key : has_dot key = false <-> ~ In dot (list_ascii_of_string key).
Proof.
  rewrite <- has_dot_In. destruct (has_dot key); split; intros H.
  - discriminate.
  - now contradict H.
  - discriminate.
  - reflexivity.
Qed.

Lemma split_dot_none key : split_dot key = None <-> has_dot key = false.
Proof.
  induction key as [|a r IH]; simpl; [tauto|].
  destruct (Ascii.eqb a dot); simpl; [split; discriminate|].
  destruct (split_dot r) as [[h t]|].
  - split; [discriminate|]. intros H. apply IH in H. discriminate.
  - split; auto. intros _. now apply IH.
Qed.

Lemma split_dot_some key h t :
  split_dot key = Some (h, t) <->
  key = h ++ String dot t /\ has_dot h = false.
Proof.
  revert h. induction key as [|a r IH]; intros h; simpl.
  - split; [discriminate|]. intros [H _]. destruct h; discriminate.
  - destruct (Ascii.eqb a dot) eqn:E.
    + apply Ascii.eqb_eq in E. subst a. split.
      * intros H. inversion H. auto.
      * intros [H Hh]. destruct h as [|b h']; simpl in *.
        -- now inversion H.
        -- inversion H. subst b. unfold dot in Hh. simpl in Hh. discriminate.
    + destruct (split_dot r) as [[h0 t0]|] eqn:Hr.
      * split.
        -- intros H. inversion H. subst. destruct (proj1 (IH h0) eq_refl) as [-> Hh].
           simpl. rewrite E. auto.
        -- intros [H Hh]. destruct h as [|b h']; simpl in *.
           ++ inversion H. subst a. now rewrite Ascii.eqb_refl in E.
           ++ inversion H. subst b. rewrite E in Hh. simpl in Hh.
              assert (Hs : Some (h0, t0) = Some (h', t)) by (apply IH; auto).
              now inversion Hs.
      * split; [discriminate|]. intros [H Hh].
        destruct h as [|b h']; simpl in *.
        -- inversion H. subst a. now rewrite Ascii.eqb_refl in E.
        -- inversion H. subst b. rewrite E in Hh. simpl in Hh.
           assert (Hs : None = Some (h', t)) by (apply IH; auto). discriminate.
Qed.

(** A path with a dot is, in one way only, a head segment without a dot,
    the dot, and the rest. *)
Lemma first_dot key :
  In dot (list_ascii_of_string key) ->
  exists key_head key_tail,
    key = key_head ++ String dot key_tail
    /\ ~ In dot (list_ascii_of_string key_head).
Proof.
  intros H. apply has_dot_In in H.
  destruct (split_dot key) as [[h t]|] eqn:Hs.
  - apply split_dot_some in Hs. destruct Hs as [-> Hh].
    exists h, t. split; auto. now apply no_dot_In.
  - apply split_dot_none in Hs. congruence.
Qed.

(** C6.  On a mapping, [pop_recursive] removes and returns the value under
    the whole remaining path whenever that path is a key of the current
    level, before any nested traversal.  Otherwise, a path that reads
    [key_head.key_tail] with no dot in [key_head] (the split at the first
    dot, which every path with a dot has) is resolved in the value at
    [key_head]: what [pop_recursive] returns for [key_tail] there is
    returned, and the value there is left as that call leaves it; the
    default is returned, and nothing is changed, when the value at
    [key_head] is not a mapping, when [key_head] is absent, and when the path
    has no dot.  On [{"a.b": 1, "a": {"b": 2}}] and the path ["a.b"] it
    returns 1 and leaves [{"a": {"b": 2}}]; on [{"a": {"b": 1, "c": 2}}] and
    ["a.c"] it returns 2 and leaves [{"a": {"b": 1}}]; on
    [{"a": {"b.c": 1}, "a.b": {"c": 2}}] and ["a.b.c"] it returns 1, the
    split being at the first dot. *)
Theorem pop_recursive_literal_key_first :
  (forall kvs key default v,
      dict_get key kvs = Some v ->
      pop_recursive (VDict kvs) key default = (v, VDict (dict_pop key kvs)))
  /\ (forall kvs key_head key_tail default sub,
         ~ In dot (list_ascii_of_string key_head) ->
         dict_get (key_head ++ String dot key_tail) kvs = None ->
         dict_get key_head kvs = Some sub ->
         pop_recursive (VDict kvs) (key_head ++ String dot key_tail) default
         = if is_dict sub
           then (fst (pop_recursive sub key_tail default),
                 VDict (dict_set key_head (snd (pop_recursive sub key_tail default)) kvs))
           else (default, VDict kvs))
  /\ (forall kvs key_head key_tail default,
         ~ In dot (list_ascii_of_string key_head) ->
         dict_get (key_head ++ String dot key_tail) kvs = None ->
         dict_get key_head kvs = None ->
         pop_recursive (VDict kvs) (key_head ++ String dot key_tail) default
         = (default, VDict kvs))
  /\ (forall kvs key default,
         ~ In dot (list_ascii_of_string key) ->
         dict_get key kvs = None ->
         pop_recursive (VDict kvs) key default = (default, VDict kvs))
  /\ (forall key,
         In dot (list_ascii_of_string key) ->
         exists key_head key_tail,
           key = key_head ++ String dot key_tail
           /\ ~ In dot (list_ascii_of_string key_head))
  /\ pop_recursive
       (VDict [("a.b", VInt 1); ("a", VDict [("b", VInt 2)])]) "a.b" VNone
     = (VInt 1, VDict [("a", VDict [("b", VInt 2)])])
  /\ pop_recursive
       (VDict [("a", VDict [("b", VInt 1); ("c", VInt 2)])]) "a.c" VNone
     = (VInt 2, VDict [("a", VDict [("b", VInt 1)])])
  /\ pop_recursive
       (VDict [("a", VDict [("b.c", VInt 1)]); ("a.b", VDict [("c", VInt 2)])])
       "a.b.c" VNone
     = (VInt 1, VDict [("a", VDict []); ("a.b", VDict [("c", VInt 2)])]).
Proof.
  split; [|split; [|split; [|split; [|split; [|repeat split]]]]].
  - intros kvs key default v Hkey. now rewrite pop_recursive_dict, Hkey.
  - intros kvs h t default sub Hh Hkey Hsub.
    apply no_dot_In in Hh.
    rewrite pop_recursive_dict, Hkey, (proj2 (split_dot_some _ h t) (conj eq_refl Hh)), Hsub.
    destruct sub; simpl; auto; now rewrite (dict_set_get_id _ _ _ Hsub).
  - intros kvs h t default Hh Hkey Hsub.
    apply no_dot_In in Hh.
    now rewrite pop_recursive_dict, Hkey,
      (proj2 (split_dot_some _ h t) (conj eq_refl Hh)), Hsub.
  - intros kvs key default Hk Hkey.
    apply no_dot_In, split_dot_none in Hk.
    now rewrite pop_recursive_dict, Hkey, Hk.
  - apply first_dot.
Qed.

(** The example of the docstring: ["a.c"] is not a key of
    [{"a": {"b": 1, "c": 2}}], so the path is split and [c] is popped from
    the mapping at [a]. *)
Lemma pop_recursive_literal_key_first_witness :
  pop_recursive (VDict [("a", VDict [("b", VInt 1); ("c", VInt 2)])])
                ("a" ++ String dot "c") VNone
  = (VInt 2, VDict [("a", VDict [("b", VInt 1)])]).
Proof.
  destruct pop_recursive_literal_key_first as (_ & Hnested & _).
  apply (Hnested [("a", VDict [("b", VInt 1); ("c", VInt 2)])] "a" "c" VNone
           (VDict [("b", VInt 1); ("c", VInt 2)])).
  - simpl. intros [H|[]]. discriminate H.
  - reflexivity.
  - reflexivity.
Defined.

(** C10.  [pop_recursive] is a total function of any value and any path
    (the embedding has no exception to raise), and whenever the path does not
    resolve (a segment is absent, an intermediate value is not a mapping, or
    the argument itself is not a mapping) it returns the default and leaves
    the value exactly as it was. *)
Theorem pop_recursive_atomic_on_failure :
  forall d key default,
    path_resolves d key = false ->
    pop_recursive d key default = (default, d).
Proof. intros. now apply pop_recursive_unresolved. Qed.

Lemma pop_recursive_atomic_on_failure_witness :
  path_resolves (VDict [("a", VInt 1); ("b", VDict [("c", VInt 2)])]) "a.c" = false
  /\ pop_recursive (VDict [("a", VInt 1); ("b", VDict [("c", VInt 2)])]) "a.c" (VStr "dflt")
     = (VStr "dflt", VDict [("a", VInt 1); ("b", VDict [("c", VInt 2)])]).
Proof.
  split; [reflexivity|].
  apply (pop_recursive_atomic_on_failure
           (VDict [("a", VInt 1); ("b", VDict [("c", VInt 2)])]) "a.c" (VStr "dflt")).
  reflexivity.
Defined.

(** ** [determine_keep_output] *)

Lemma determine_keep_output_init_cell c md v default strip :
  dict_get "metadata" c = Some (VDict md) ->
  dict_get "init_cell" md = Some v ->
  determine_keep_output (VDict c) default strip
  = Ok (Some (truthy v && negb strip)).
Proof.
  intros Hmd Hinit. unfold determine_keep_output. simpl.
  unfold dict_mem. rewrite Hmd. simpl. unfold dict_mem. now rewrite Hinit.
Qed.

(** C5.  For a cell whose metadata has an [init_cell] key,
    [determine_keep_output] returns [bool(init_cell) and not
    strip_init_cells], whatever [metadata.keep_output], the tags and the
    default are. *)
Theorem init_cell_overrides_keep_output :
  forall c md v default strip,
    dict_get "metadata" c = Some (VDict md) ->
    dict_get "init_cell" md = Some v ->
    determine_keep_output (VDict c) default strip
    = Ok (Some (truthy v && negb strip)).
Proof. exact determine_keep_output_init_cell. Qed.

(** The cell of the claim: [init_cell] true, [keep_output] false,
    [strip_init_cells] unset. *)
Lemma init_cell_overrides_keep_output_witness :
  determine_keep_output
    (VDict [("metadata", VDict [("init_cell", VBool true); ("keep_output", VBool false)])])
    (Some false) false
  = Ok (Some true).
Proof.
  apply (init_cell_overrides_keep_output
           [("metadata", VDict [("init_cell", VBool true); ("keep_output", VBool false)])]
           [("init_cell", VBool true); ("keep_output", VBool false)]
           (VBool true) (Some false) false); reflexivity.
Defined.

(** C9.  For a cell whose metadata has an [init_cell] key,
    [determine_keep_output] does not raise the contradiction error, also
    when [metadata.keep_output] is false and ["keep_output"] is among the
    tags. *)
Theorem init_cell_precedes_contradiction_check :
  forall c md v default strip,
    dict_get "metadata" c = Some (VDict md) ->
    dict_get "init_cell" md = Some v ->
    determine_keep_output (VDict c) default strip <> Raise MetadataError.
Proof.
  intros c md v default strip Hmd Hinit.
  rewrite (determine_keep_output_init_cell _ _ _ _ _ Hmd Hinit). discriminate.
Qed.

Lemma init_cell_precedes_contradiction_check_witness :
  determine_keep_output
    (VDict [("metadata", VDict [("init_cell", VBool false);
                                ("keep_output", VBool false);
                                ("tags", VList [VStr "keep_output"])])])
    None false
  <> Raise MetadataError.
Proof.
  apply (init_cell_precedes_contradiction_check
           [("metadata", VDict [("init_cell", VBool false);
                                ("keep_output", VBool false);
                                ("tags", VList [VStr "keep_output"])])]
           [("init_cell", VBool false); ("keep_output", VBool false);
            ("tags", VList [VStr "keep_output"])]
           (VBool false) None false); reflexivity.
Defined.

Lemma py_contains_raise k c e : py_contains k c = Raise e -> e = GenericError.
Proof. destruct c; simpl; intros H; now inversion H. Qed.

Ltac absurd_iff :=
  split; intros ?H;
  rewrite ?andb_false_r, ?andb_true_r in *; simpl in *;
  (discriminate || reflexivity).

Lemma determine_keep_output_contradiction cell default strip :
  determine_keep_output cell default strip = Raise MetadataError
  <-> contradicts cell = true.
Proof.
  unfold determine_keep_output, contradicts.
  destruct cell as [|b|n|s|l|c]; simpl; try absurd_iff.
  - destruct (is_substring "metadata" s); simpl; absurd_iff.
  - destruct (existsb (value_is_str "metadata") l); simpl; absurd_iff.
  - unfold dict_mem at 1.
    destruct (dict_get "metadata" c) as [m|]; simpl; [|absurd_iff].
    destruct m as [|b|n|s|l|md]; simpl; try absurd_iff.
    + destruct (is_substring "init_cell" s); simpl; absurd_iff.
    + destruct (existsb (value_is_str "init_cell") l); simpl; absurd_iff.
    + unfold dict_mem.
      destruct (dict_get "init_cell" md); simpl; [absurd_iff|].
      destruct (dict_get "tags" md) as [tags|]; simpl.
      * destruct (py_contains "keep_output" tags) as [present|e] eqn:Hc; simpl.
        -- destruct (dict_get "keep_output" md) as [v|]; simpl;
             try destruct (truthy v); destruct present; simpl; absurd_iff.
        -- apply py_contains_raise in Hc. subst e.
           destruct (dict_get "keep_output" md) as [v|]; simpl; absurd_iff.
      * destruct (dict_get "keep_output" md) as [v|]; simpl;
          try destruct (truthy v); simpl; absurd_iff.
Qed.

(** ** Extra keys *)

Lemma subkeys_app ns a b :
  subkeys ns (a ++ b)%list = (subkeys ns a ++ subkeys ns b)%list.
Proof.
  induction a as [|k r IH]; simpl; auto.
  destruct (invalid_extra_key k); auto.
  destruct (split_dot k) as [[h t]|]; auto.
  destruct (String.eqb h ns); simpl; now rewrite IH.
Qed.

Lemma subkeys_skip ns pre key post :
  invalid_extra_key key = true ->
  subkeys ns (pre ++ key :: post)%list = subkeys ns (pre ++ post)%list.
Proof.
  intros H. rewrite !subkeys_app. simpl. now rewrite H.
Qed.

Lemma warnings_skip pre key post :
  invalid_extra_key key = true ->
  warnings (pre ++ key :: post)%list
  = (warnings pre ++ warning key :: warnings post)%list.
Proof.
  intros H. unfold warnings. rewrite filter_app, map_app. simpl. now rewrite H.
Qed.

(** ** Lists under the error monad *)

Lemma subseq_refl {A} (l : list A) : subseq l l.
Proof. induction l; constructor; auto. Qed.

Lemma subseq_trans {A} (a b c : list A) : subseq a b -> subseq b c -> subseq a c.
Proof.
  intros Hab Hbc. revert a Hab. induction Hbc; intros a Hab.
  - auto.
  - inversion Hab; subst; [apply subseq_take|apply subseq_skip]; auto.
  - apply subseq_skip. auto.
Qed.

Lemma subseq_In {A} (k l : list A) x : subseq k l -> In x k -> In x l.
Proof.
  induction 1; simpl; auto.
  intros [->|H']; auto.
Qed.

Lemma subseq_app {A} (a b c d : list A) :
  subseq a b -> subseq c d -> subseq (a ++ c)%list (b ++ d)%list.
Proof. induction 1; simpl; auto; intros; constructor; auto. Qed.

Lemma subseq_filter {A} (p : A -> bool) l : subseq (filter p l) l.
Proof. induction l; simpl; [constructor|]. destruct (p a); constructor; auto. Qed.

Lemma bind_ok {A B} (m : result A) (f : A -> result B) b :
  bind m f = Ok b -> exists a, m = Ok a /\ f a = Ok b.
Proof. destruct m; simpl; [eauto|discriminate]. Qed.

Ltac bind_inv H :=
  let a := fresh "x" in
  let Ha := fresh "E" in
  apply bind_ok in H; destruct H as (a & Ha & H).

Lemma mapM_ok {A B} (f : A -> result B) l l' :
  mapM f l = Ok l' <-> Forall2 (fun x y => f x = Ok y) l l'.
Proof.
  revert l'. induction l as [|x r IH]; intros l'; simpl.
  - split; intros H; inversion H; constructor.
  - split.
    + intros H. bind_inv H. bind_inv H. inversion H. subst.
      constructor; auto. now apply IH.
    + intros H. inversion H as [|? y ? ys Hx Hr]; subst.
      rewrite Hx. simpl. apply IH in Hr. now rewrite Hr.
Qed.

Lemma mapM_app {A B} (f : A -> result B) a b a' b' :
  mapM f a = Ok a' -> mapM f b = Ok b' -> mapM f (a ++ b)%list = Ok (a' ++ b')%list.
Proof.
  rewrite !mapM_ok. apply Forall2_app.
Qed.

Lemma mapM_fixed {A} (f : A -> result A) l :
  Forall (fun x => f x = Ok x) l -> mapM f l = Ok l.
Proof.
  induction 1 as [|x r Hx _ IH]; simpl; auto. now rewrite Hx, IH.
Qed.

Lemma filterM_ok {A} (f : A -> result bool) l k :
  filterM f l = Ok k ->
  subseq k l /\ Forall (fun x => f x = Ok true) k
  /\ Forall (fun x => f x = Ok true \/ f x = Ok false /\ ~ In x k) l.
Proof.
  revert k. induction l as [|x r IH]; intros k H; simpl in H.
  - inversion H. repeat constructor.
  - bind_inv H. bind_inv H. inversion H. subst k. clear H.
    destruct (IH _ E0) as (Hs & Ht & Hall).
    destruct x0.
    + repeat split; constructor; auto.
      eapply Forall_impl; [|exact Hall]. simpl.
      intros y [Hy|[Hy Hn]]; auto. right. split; auto.
      intros [->|Hin]; [congruence|auto].
    + repeat split; try constructor; auto.
      right. split; auto. intros Hin.
      rewrite Forall_forall in Ht. specialize (Ht _ Hin). congruence.
Qed.

Lemma filterM_all {A} (f : A -> result bool) l :
  Forall (fun x => f x = Ok true) l -> filterM f l = Ok l.
Proof.
  induction 1 as [|x r Hx _ IH]; simpl; auto. now rewrite Hx, IH.
Qed.

(** ** Reading and writing keys *)

Lemma getattr_ok o k v :
  getattr o k = Ok v <-> exists d, o = VDict d /\ dict_get k d = Some v.
Proof.
  split.
  - destruct o; simpl; try discriminate.
    destruct (dict_get k d) eqn:E; intros H; inversion H. subst. eauto.
  - intros (d & -> & H). simpl. now rewrite H.
Qed.

Lemma getitem_ok o k v :
  getitem o k = Ok v <-> exists d, o = VDict d /\ dict_get k d = Some v.
Proof. apply getattr_ok. Qed.

Lemma setitem_ok o k v o' :
  setitem o k v = Ok o' <-> exists d, o = VDict d /\ o' = VDict (dict_set k v d).
Proof.
  split.
  - destruct o; simpl; try discriminate. intros H. inversion H. eauto.
  - now intros (d & -> & ->).
Qed.

Lemma chars_are_str s : Forall is_str (chars s).
Proof. induction s; simpl; constructor; auto. now eexists. Qed.

Lemma py_iter_not_list c items :
  py_iter c = Ok items -> (forall l, c <> VList l) -> Forall is_str items.
Proof.
  destruct c; simpl; try discriminate; intros H Hl; inversion H; subst.
  - apply chars_are_str.
  - exfalso. eapply Hl. reflexivity.
  - apply Forall_forall. intros x Hx. apply in_map_iff in Hx.
    destruct Hx as (kv & <- & _). now eexists.
Qed.

(** ** The structure of [_cells] *)

Section CellsFacts.
Variable body : value -> result value.
Variable tag : string.
Hypothesis body_str : forall s v, body (VStr s) = Ok v -> v = VStr s.

Lemma mapM_body_strs items cells' :
  Forall is_str items -> mapM body items = Ok cells' -> cells' = items.
Proof.
  intros Hs H. apply mapM_ok in H. induction H as [|x y r r' Hxy _ IH]; auto.
  inversion Hs as [|? ? [s ->] Hr]; subst.
  apply body_str in Hxy. subst y. f_equal. auto.
Qed.

Lemma apply_conditionals_ok conds :
  forall o o1,
    apply_conditionals tag conds o = Ok o1 ->
    conds <> [] ->
    exists d cells items kept,
      o = VDict d /\ dict_get "cells" d = Some cells /\ py_iter cells = Ok items
      /\ subseq kept items /\ Forall (passes tag conds) kept
      /\ o1 = VDict (dict_set "cells" (VList kept) d).
Proof.
  induction conds as [|f r IH]; intros o o1 H Hne; [congruence|].
  simpl in H. bind_inv H. bind_inv H. bind_inv H.
  apply getattr_ok in E. destruct E as (d & -> & Hcells).
  unfold filter_cells in E0. bind_inv E0. bind_inv E0. inversion E0. subst x0. clear E0.
  apply setitem_ok in E1. destruct E1 as (d0 & Hd0 & ->). inversion Hd0. subst d0. clear Hd0.
  destruct (filterM_ok _ _ _ E2) as (Hsub & Hpass & _).
  destruct r as [|g r'].
  - simpl in H. inversion H. subst o1.
    exists d, x, x2, x3. repeat split; auto.
    eapply Forall_impl; [|exact Hpass]. intros c Hc. now constructor.
  - destruct (IH _ _ H) as (d1 & cells1 & items1 & kept & Hd1 & Hc1 & Hi1 & Hs1 & Hp1 & ->);
      [discriminate|].
    inversion Hd1. subst d1. clear Hd1.
    rewrite dict_get_set_same in Hc1. inversion Hc1. subst cells1. clear Hc1.
    simpl in Hi1. inversion Hi1. subst items1. clear Hi1.
    exists d, x, x2, kept. repeat split; auto.
    + eapply subseq_trans; eauto.
    + apply Forall_forall. intros c Hc. constructor.
      * rewrite Forall_forall in Hpass. apply Hpass. eapply subseq_In; eauto.
      * rewrite Forall_forall in Hp1. now apply Hp1.
    + now rewrite dict_set_set.
Qed.


Variable conds : list conditional.

Lemma filter_and_yield_ok o o' :
  filter_and_yield body tag conds o = Ok o' ->
  exists d items survivors cells',
    o = VDict d /\ cells_of o = Ok items
    /\ subseq survivors items /\ Forall (passes tag conds) survivors
    /\ mapM body survivors = Ok cells'
    /\ cells_of o' = Ok cells'
    /\ (o' = VDict (dict_set "cells" (VList cells') d)
        \/ conds = [] /\ o' = o).
Proof.
  unfold filter_and_yield. intros H. bind_inv H.
  unfold yield_cells in H. bind_inv H. bind_inv H. bind_inv H.
  apply getattr_ok in E0. destruct E0 as (d1 & -> & Hc1).
  assert (Hshape :
    exists d items, o = VDict d /\ cells_of o = Ok items /\ subseq x1 items
                    /\ Forall (passes tag conds) x1
                    /\ (d1 = dict_set "cells" x0 d /\ (exists l, x0 = VList l)
                        \/ conds = [] /\ VDict d1 = o)).
  { destruct conds as [|f r] eqn:Hconds.
    - simpl in E. inversion E. subst o.
      exists d1, x1. repeat split; auto.
      + unfold cells_of. simpl. now rewrite Hc1.
      + apply subseq_refl.
      + apply Forall_forall. intros c _. constructor.
    - destruct (apply_conditionals_ok _ _ _ E) as
          (d & cells & items & kept & -> & Hc & Hi & Hs & Hp & Hd1); [discriminate|].
      inversion Hd1. subst d1. clear Hd1.
      rewrite dict_get_set_same in Hc1. inversion Hc1. subst x0. clear Hc1.
      simpl in E1. inversion E1. subst x1. clear E1.
      exists d, items. repeat split; auto.
      + unfold cells_of. simpl. now rewrite Hc.
      + left. split; eauto. }
  destruct Hshape as (d & items & Ho & Hitems & Hsub & Hpass & Hd1).
  exists d, items.
  destruct x0 as [| | | |l|kd].
  1-3: discriminate.
  - (* the cells are the characters of a string *)
    inversion H. subst o'. clear H.
    assert (x2 = x1) by (eapply mapM_body_strs; eauto;
                         eapply py_iter_not_list; eauto; discriminate).
    subst x2. exists x1, x1. repeat split; auto.
    + unfold cells_of. simpl. now rewrite Hc1.
    + destruct Hd1 as [[_ [l Hl]]|[Hc Hd]]; [discriminate|]. right. auto.
  - (* the cells are a list *)
    apply setitem_ok in H. destruct H as (d2 & Hd2 & ->). inversion Hd2. subst d2. clear Hd2.
    simpl in E1. inversion E1. subst x1. clear E1.
    exists l, x2. repeat split; auto.
    + unfold cells_of. simpl. now rewrite dict_get_set_same.
    + left. destruct Hd1 as [[-> _]|[_ Hd]].
      * now rewrite dict_set_set.
      * rewrite Ho in Hd. now inversion Hd.
  - (* the cells are the keys of a mapping *)
    inversion H. subst o'. clear H.
    assert (x2 = x1) by (eapply mapM_body_strs; eauto;
                         eapply py_iter_not_list; eauto; discriminate).
    subst x2. exists x1, x1. repeat split; auto.
    + unfold cells_of. simpl. now rewrite Hc1.
    + destruct Hd1 as [[_ [l Hl]]|[Hc Hd]]; [discriminate|]. right. auto.
Qed.

End CellsFacts.

Lemma Forall2_Forall_r {A B} (R : A -> B -> Prop) (P : B -> Prop) l l' :
  Forall2 R l l' -> (forall x y, In x l -> R x y -> P y) -> Forall P l'.
Proof.
  induction 1 as [|x y r r' Hxy _ IH]; intros H; constructor.
  - apply (H x y); simpl; auto.
  - apply IH. intros a b Ha. apply H. simpl. auto.
Qed.

Lemma nbformat_kept k v d :
  k <> "nbformat" ->
  getattr (VDict (dict_set k v d)) "nbformat" = getattr (VDict d) "nbformat".
Proof. intros H. simpl. rewrite dict_get_set_other; auto. Qed.

Section CellsDocument.
Variable body : value -> result value.
Variable tag : string.
Variable conds : list conditional.
Hypothesis body_str : forall s v, body (VStr s) = Ok v -> v = VStr s.


Lemma worksheets_ok wss wss' :
  Forall2 (fun ws ws' => filter_and_yield body tag conds ws = Ok ws') wss wss' ->
  exists css survs css',
    mapM cells_of wss = Ok css /\ mapM cells_of wss' = Ok css'
    /\ subseq (concat survs) (concat css)
    /\ Forall (passes tag conds) (concat survs)
    /\ mapM body (concat survs) = Ok (concat css').
Proof.
  induction 1 as [|ws ws' r r' Hws _ IH].
  - exists [], [], []. simpl. repeat split; constructor.
  - destruct IH as (css & survs & css' & H1 & H2 & H3 & H4 & H5).
    destruct (filter_and_yield_ok body tag body_str conds ws ws' Hws) as
        (d & items & survivors & cells' & _ & Hi & Hsub & Hpass & Hmap & Hc' & _).
    exists (items :: css), (survivors :: survs), (cells' :: css'). simpl.
    rewrite Hi, H1, Hc', H2. simpl. repeat split; auto.
    + now apply subseq_app.
    + apply Forall_app. auto.
    + now apply mapM_app.
Qed.


Lemma mapM_strs_fail (f : value -> result value) l l' :
  Forall is_str l -> (forall s, f (VStr s) = Raise GenericError) ->
  mapM f l = Ok l' -> l = [].
Proof.
  intros Hs Hf H. destruct l as [|x r]; auto.
  inversion Hs as [|? ? [s ->] _]. simpl in H. rewrite Hf in H. discriminate.
Qed.

Lemma filter_and_yield_str s : filter_and_yield body tag conds (VStr s) = Raise GenericError.
Proof.
  unfold filter_and_yield. destruct conds; simpl; auto.
Qed.

(** The cells of the document that [_cells] returns are the stripped
    survivors of the cells of the document it was given. *)
Lemma _cells_ok nb nb' :
  _cells body tag conds nb = Ok nb' ->
  exists cells0 survivors cells',
    document_cells nb = Ok cells0
    /\ subseq survivors cells0
    /\ Forall (passes tag conds) survivors
    /\ mapM body survivors = Ok cells'
    /\ document_cells nb' = Ok cells'.
Proof.
  unfold _cells, document_cells. intros H. bind_inv H. bind_inv H.
  rewrite E. simpl. rewrite E0. simpl.
  apply getattr_ok in E. destruct E as (d & -> & Hfmt).
  destruct x0.
  - bind_inv H. bind_inv H. bind_inv H. rewrite E. simpl. rewrite E1. simpl.
    apply getattr_ok in E. destruct E as (d' & Hd' & Hws). inversion Hd'. subst d'. clear Hd'.
    destruct x0 as [| | | |l|kd]; try discriminate.
    + (* iterating over a string: no worksheet can be read *)
      inversion H. subst nb'. clear H.
      assert (x1 = []).
      { eapply (mapM_strs_fail (filter_and_yield body tag conds)); eauto.
        - eapply py_iter_not_list; eauto. discriminate.
        - apply filter_and_yield_str. }
      subst x1. simpl in E2. inversion E2. subst x2.
      exists [], [], []. simpl. rewrite Hfmt. simpl. rewrite E0. simpl. rewrite Hws. simpl.
      simpl in E1. inversion E1 as [Hch]. rewrite Hch. simpl. repeat split; constructor.
    + simpl in E1. inversion E1. subst x1. clear E1.
      apply setitem_ok in H. destruct H as (d' & Hd' & ->). inversion Hd'. subst d'. clear Hd'.
      apply mapM_ok in E2.
      destruct (worksheets_ok _ _ E2) as (css & survs & css' & H1 & H2 & H3 & H4 & H5).
      exists (concat css), (concat survs), (concat css').
      rewrite H1. simpl. repeat split; auto.
      rewrite dict_get_set_other by discriminate. rewrite Hfmt. simpl. rewrite E0. simpl.
      rewrite dict_get_set_same. simpl. rewrite H2. reflexivity.
    + inversion H. subst nb'. clear H.
      assert (x1 = []).
      { eapply (mapM_strs_fail (filter_and_yield body tag conds)); eauto.
        - eapply py_iter_not_list; eauto. discriminate.
        - apply filter_and_yield_str. }
      subst x1. simpl in E2. inversion E2. subst x2.
      exists [], [], []. simpl. rewrite Hfmt. simpl. rewrite E0. simpl. rewrite Hws. simpl.
      simpl in E1. inversion E1 as [Hch]. rewrite Hch. simpl. repeat split; constructor.
  - destruct (filter_and_yield_ok body tag body_str conds _ _ H) as
        (d0 & items & survivors & cells' & Hd0 & Hi & Hsub & Hpass & Hmap & Hc' & Ho').
    inversion Hd0. subst d0. clear Hd0.
    exists items, survivors, cells'. repeat split; auto.
    destruct Ho' as [->|[_ ->]].
    + rewrite nbformat_kept by discriminate. simpl. rewrite Hfmt. simpl. rewrite E0. simpl.
      exact Hc'.
    + simpl. rewrite Hfmt. simpl. rewrite E0. simpl. exact Hc'.
Qed.


End CellsDocument.

(** ** The loop body on one cell *)

Lemma pop_fields_not_dict keys d :
  (forall kvs, d <> VDict kvs) -> pop_fields keys d = d.
Proof.
  intros H. unfold pop_fields. induction keys as [|k r IH]; simpl; auto.
  now rewrite (pop_recursive_not_dict d k VNone H).
Qed.

Lemma strip_outputs_dict args decision c outs :
  dict_get "outputs" c = Some outs ->
  strip_outputs args decision (VDict c)
  = (outs1 <- strip_outputs_value args decision outs ;;
     Ok (VDict (dict_set "outputs" outs1 c))).
Proof.
  intros Hc. unfold strip_outputs, strip_outputs_value. simpl. rewrite Hc. simpl.
  destruct (py_not decision); simpl.
  - destruct (py_iter outs) as [items|e]; simpl; auto.
    destruct (keep_count args); simpl; auto.
    rewrite dict_get_set_same. simpl.
    destruct (mapM null_execution_count _); simpl; auto.
    now rewrite dict_set_set.
  - destruct (keep_count args); simpl.
    + now rewrite (dict_set_get_id _ _ _ Hc).
    + rewrite Hc. simpl.
      destruct (py_iter outs) as [items|e]; simpl; auto.
      destruct (mapM null_execution_count items); simpl; auto.
      destruct outs; simpl; auto; now rewrite (dict_set_get_id _ _ _ Hc).
Qed.

Lemma null_count_on_dict args name d :
  null_count args name (VDict d) = Ok (VDict (null_count_dict args name d)).
Proof.
  unfold null_count, null_count_dict. simpl.
  now destruct (dict_mem name d && negb (keep_count args)).
Qed.

(** The loop body on a cell that is a mapping. *)
Lemma strip_cell_dict args keep keys c :
  strip_cell args keep keys (VDict c)
  = (decision <- determine_keep_output (VDict c) keep (strip_init_cells args) ;;
     c1 <- match dict_get "outputs" c with
           | Some outs =>
               outs1 <- strip_outputs_value args decision outs ;;
               Ok (dict_set "outputs" outs1 c)
           | None => Ok c
           end ;;
     Ok (pop_fields keys
           (VDict (null_count_dict args "execution_count"
                     (null_count_dict args "prompt_number" c1))))).
Proof.
  unfold strip_cell.
  destruct (determine_keep_output (VDict c) keep (strip_init_cells args)) as [decision|e];
    simpl; auto.
  unfold dict_mem. destruct (dict_get "outputs" c) as [outs|] eqn:Hc.
  - rewrite (strip_outputs_dict _ _ _ _ Hc).
    destruct (strip_outputs_value args decision outs); [|reflexivity].
    cbv beta iota delta [bind]. rewrite !null_count_on_dict.
    cbv beta iota delta [bind]. rewrite ?null_count_on_dict. reflexivity.
  - cbv beta iota delta [bind]. rewrite !null_count_on_dict.
    cbv beta iota delta [bind]. rewrite ?null_count_on_dict. reflexivity.
Qed.

(** A cell that is not a mapping comes out of the loop body as it went in. *)
Lemma strip_cell_not_dict args keep keys cell cell' :
  (forall c, cell <> VDict c) ->
  strip_cell args keep keys cell = Ok cell' -> cell' = cell.
Proof.
  intros Hnd H. unfold strip_cell in H.
  bind_inv H. bind_inv H. bind_inv H. bind_inv H. bind_inv H.
  inversion H. subst cell'. clear H.
  assert (Hset : forall o k v o', (forall c, o <> VDict c) -> setitem o k v <> Ok o').
  { intros o k v o' Ho Hs. apply setitem_ok in Hs. destruct Hs as (d & -> & _).
    now apply (Ho d). }
  assert (Hget : forall o k v, (forall c, o <> VDict c) -> getitem o k <> Ok v).
  { intros o k v Ho Hs. apply getitem_ok in Hs. destruct Hs as (d & -> & _).
    now apply (Ho d). }
  assert (H1 : x1 = cell).
  { destruct x0; [|now inversion E1].
    unfold strip_outputs in E1.
    apply bind_ok in E1. destruct E1 as (cella & Ha & E1).
    assert (cella = cell).
    { destruct (py_not x); [|now inversion Ha].
      apply bind_ok in Ha. destruct Ha as (outs & Ho & _). now apply Hget in Ho. }
    subst cella. destruct (negb (keep_count args)); [|now inversion E1].
    apply bind_ok in E1. destruct E1 as (outs & Ho & _). now apply Hget in Ho. }
  subst x1.
  assert (Hnull : forall name y, null_count args name cell = Ok y -> y = cell).
  { intros name y Hy. unfold null_count in Hy.
    apply bind_ok in Hy. destruct Hy as (present & _ & Hy).
    destruct (present && negb (keep_count args)); [|now inversion Hy].
    now apply Hset in Hy. }
  apply Hnull in E2. subst x2. apply Hnull in E3. subst x3.
  now apply pop_fields_not_dict.
Qed.

Lemma strip_cell_str args keep keys s v :
  strip_cell args keep keys (VStr s) = Ok v -> v = VStr s.
Proof. apply strip_cell_not_dict. discriminate. Qed.

(** ** What the extra keys leave of a field *)

Lemma pop_recursive_other_field f key d default :
  touches f key = false ->
  exists kvs', snd (pop_recursive (VDict d) key default) = VDict kvs'
               /\ dict_get f kvs' = dict_get f d.
Proof.
  intros Ht. unfold touches in Ht. apply orb_false_iff in Ht. destruct Ht as [Hk Hh].
  rewrite pop_recursive_dict.
  destruct (dict_get key d) as [v|].
  - simpl. eexists. split; [reflexivity|]. rewrite dict_get_pop.
    now rewrite String.eqb_sym, Hk.
  - destruct (split_dot key) as [[h t]|]; [|simpl; eauto].
    destruct (dict_get h d) as [sub|]; simpl; [|eauto].
    eexists. split; [reflexivity|]. apply dict_get_set_other.
    apply String.eqb_neq. now rewrite String.eqb_sym.
Qed.

Lemma pop_fields_cons k r d :
  pop_fields (k :: r) d = pop_fields r (snd (pop_recursive d k VNone)).
Proof. reflexivity. Qed.

Lemma pop_fields_other_field f keys :
  forall d,
    forallb (fun key => negb (touches f key)) keys = true ->
    exists kvs', pop_fields keys (VDict d) = VDict kvs'
                 /\ dict_get f kvs' = dict_get f d.
Proof.
  induction keys as [|k r IH]; intros d H.
  - exists d. auto.
  - simpl in H. apply andb_true_iff in H. destruct H as [Hk Hr].
    apply negb_true_iff in Hk. rewrite pop_fields_cons.
    destruct (pop_recursive_other_field f k d VNone Hk) as (d1 & -> & H1).
    destruct (IH d1 Hr) as (d2 & -> & H2). exists d2. split; congruence.
Qed.

Lemma pop_recursive_field f key d default :
  exists kvs', snd (pop_recursive (VDict d) key default) = VDict kvs'
               /\ forall y, dict_get f kvs' = Some y ->
                            exists x, dict_get f d = Some x /\ same_or_dicts x y.
Proof.
  unfold same_or_dicts. rewrite pop_recursive_dict.
  assert (Hsame : exists kvs', VDict d = VDict kvs'
            /\ forall y, dict_get f kvs' = Some y ->
                 exists x, dict_get f d = Some x
                           /\ (y = x \/ is_dict x = true /\ is_dict y = true)).
  { exists d. split; auto. intros y Hy. exists y. auto. }
  destruct (dict_get key d) as [v|].
  - simpl. eexists. split; [reflexivity|]. intros y. rewrite dict_get_pop.
    destruct (String.eqb f key); [discriminate|]. eauto.
  - destruct (split_dot key) as [[h t]|]; [|exact Hsame].
    destruct (dict_get h d) as [sub|] eqn:Hsub; simpl; [|exact Hsame].
    eexists. split; [reflexivity|]. intros y.
    destruct (String.eqb f h) eqn:E.
    + apply String.eqb_eq in E. subst h. rewrite dict_get_set_same.
      intros Hy. inversion Hy. exists sub. split; auto.
      destruct sub as [| | | | |kd]; simpl; auto.
      right. split; auto.
      destruct (pop_recursive_keeps_dict kd t default) as (kd' & Hkd).
      simpl in Hkd. now rewrite Hkd.
    + apply String.eqb_neq in E. rewrite dict_get_set_other by auto. eauto.
Qed.

Lemma same_or_dicts_trans x y z :
  same_or_dicts x y -> same_or_dicts y z -> same_or_dicts x z.
Proof.
  unfold same_or_dicts. intros [->|[Hx Hy]] [->|[Hy' Hz]]; auto.
Qed.

Lemma pop_fields_field f keys :
  forall d,
    exists kvs', pop_fields keys (VDict d) = VDict kvs'
                 /\ forall y, dict_get f kvs' = Some y ->
                              exists x, dict_get f d = Some x /\ same_or_dicts x y.
Proof.
  induction keys as [|k r IH]; intros d.
  - exists d. split; auto. intros y Hy. exists y. split; auto. now left.
  - rewrite pop_fields_cons.
    destruct (pop_recursive_field f k d VNone) as (d1 & -> & H1).
    destruct (IH d1) as (d2 & -> & H2). exists d2. split; auto.
    intros z Hz. destruct (H2 z Hz) as (y & Hy & Hyz).
    destruct (H1 y Hy) as (x & Hx & Hxy). exists x. split; auto.
    eapply same_or_dicts_trans; eauto.
Qed.

(** A field whose value is not a mapping is removed by the extra key of
    its name and by no other. *)
Lemma pop_fields_plain_field f x keys :
  forall d,
    dict_get f d = Some x -> is_dict x = false ->
    exists kvs', pop_fields keys (VDict d) = VDict kvs'
                 /\ dict_get f kvs'
                    = if existsb (String.eqb f) keys then None else Some x.
Proof.
  induction keys as [|k r IH]; intros d Hx Hnd.
  - exists d. auto.
  - rewrite pop_fields_cons. cbn [existsb].
    destruct (String.eqb f k) eqn:E.
    + apply String.eqb_eq in E. subst k. cbn [orb].
      rewrite pop_recursive_dict, Hx. cbn [snd].
      destruct (pop_fields_field f r (dict_pop f d)) as (d2 & Hd2 & H2).
      rewrite Hd2. exists d2. split; auto.
      destruct (dict_get f d2) as [y|] eqn:Hy; auto.
      destruct (H2 y eq_refl) as (x' & Hx' & _).
      rewrite dict_get_pop, String.eqb_refl in Hx'. discriminate.
    + cbn [orb].
      assert (H1 : exists d1, snd (pop_recursive (VDict d) k VNone) = VDict d1
                              /\ dict_get f d1 = Some x).
      { rewrite pop_recursive_dict.
        destruct (dict_get k d) as [v|].
        - simpl. eexists. split; [reflexivity|]. now rewrite dict_get_pop, E.
        - destruct (split_dot k) as [[h t]|]; [|simpl; eauto].
          destruct (dict_get h d) as [sub|] eqn:Hsub; simpl; [|eauto].
          eexists. split; [reflexivity|].
          destruct (String.eqb f h) eqn:E'.
          + apply String.eqb_eq in E'. subst h. rewrite dict_get_set_same.
            rewrite Hx in Hsub. inversion Hsub. subst sub.
            now rewrite (pop_recursive_not_dict x t VNone)
              by (intros kvs ->; discriminate).
          + apply String.eqb_neq in E'. now rewrite dict_get_set_other. }
      destruct H1 as (d1 & -> & H1). apply (IH d1 H1 Hnd).
Qed.

(** ** Nulling the counters *)

Lemma Forall2_In_r {A B} (R : A -> B -> Prop) l l' y :
  Forall2 R l l' -> In y l' -> exists x, In x l /\ R x y.
Proof.
  induction 1 as [|a b r r' Hab _ IH]; simpl; [tauto|].
  intros [<-|Hy]; [eauto|]. destruct (IH Hy) as (x & Hx & HR). eauto.
Qed.

Lemma Forall2_In_l {A B} (R : A -> B -> Prop) l l' x :
  Forall2 R l l' -> In x l -> exists y, In y l' /\ R x y.
Proof.
  induction 1 as [|a b r r' Hab _ IH]; simpl; [tauto|].
  intros [<-|Hx]; [eauto|]. destruct (IH Hx) as (y & Hy & HR). eauto.
Qed.

Lemma getitem_str_fails items o k v :
  Forall is_str items -> In o items -> getitem o k = Ok v -> False.
Proof.
  intros Hs Ho. rewrite Forall_forall in Hs. destruct (Hs _ Ho) as [s ->]. discriminate.
Qed.

Lemma null_execution_count_nulled o o' v :
  null_execution_count o = Ok o' ->
  getitem o' "execution_count" = Ok v -> v = VNone.
Proof.
  unfold null_execution_count. intros H Hv. bind_inv H.
  apply getitem_ok in Hv. destruct Hv as (d' & -> & Hv).
  destruct x.
  - apply setitem_ok in H. destruct H as (d & -> & Hd). inversion Hd. subst d'.
    rewrite dict_get_set_same in Hv. now inversion Hv.
  - inversion H. subst o. simpl in E. unfold dict_mem in E. rewrite Hv in E. discriminate.
Qed.



Lemma py_iter_dict_strs y items :
  is_dict y = true -> py_iter y = Ok items -> Forall is_str items.
Proof.
  intros Hd H. eapply py_iter_not_list; eauto. intros l ->. discriminate.
Qed.

Lemma strip_outputs_value_nulled args decision outs outs1 :
  keep_count args = false ->
  strip_outputs_value args decision outs = Ok outs1 ->
  forall y, same_or_dicts outs1 y ->
  forall items o v,
    py_iter y = Ok items -> In o items ->
    getitem o "execution_count" = Ok v -> v = VNone.
Proof.
  intros Hk H y Hy items o v Hi Ho Hv.
  unfold strip_outputs_value in H. rewrite Hk in H. simpl in H.
  apply bind_ok in H. destruct H as (outs_a & _ & H).
  apply bind_ok in H. destruct H as (items_a & Hia & H).
  apply bind_ok in H. destruct H as (items' & Hm & H). inversion H. subst outs1. clear H.
  destruct outs_a as [| | |s|l|kd]; try discriminate.
  - destruct Hy as [->|[Hd _]]; [|discriminate].
    exfalso. apply (getitem_str_fails items o "execution_count" v); auto.
    eapply py_iter_not_list; eauto. discriminate.
  - destruct Hy as [->|[Hd _]]; [|discriminate].
    simpl in Hi. inversion Hi. subst items.
    apply mapM_ok in Hm. destruct (Forall2_In_r _ _ _ _ Hm Ho) as (o0 & _ & Hnull).
    eapply null_execution_count_nulled; eauto.
  - exfalso. apply (getitem_str_fails items o "execution_count" v); auto.
    apply (py_iter_dict_strs y); auto.
    destruct Hy as [->|[_ Hd]]; auto.
Qed.

Lemma null_count_dict_get args name f d :
  dict_get f (null_count_dict args name d)
  = if String.eqb f name && dict_mem name d && negb (keep_count args)
    then Some VNone else dict_get f d.
Proof.
  unfold null_count_dict.
  destruct (String.eqb f name) eqn:E; simpl.
  - apply String.eqb_eq in E. subst f.
    destruct (dict_mem name d && negb (keep_count args)); auto.
    apply dict_get_set_same.
  - destruct (dict_mem name d && negb (keep_count args)); auto.
    apply dict_get_set_other. now apply String.eqb_neq.
Qed.

(** With [keep_count] false the loop body leaves no counter other than
    null, on the cell and on its outputs. *)
Lemma strip_cell_counts_null args keep keys cell cell' :
  keep_count args = false ->
  strip_cell args keep keys cell = Ok cell' ->
  counts_null cell'.
Proof.
  intros Hk H.
  destruct cell as [| | | | |c].
  1-5: apply strip_cell_not_dict in H; [subst cell'|discriminate];
       repeat split; intros; discriminate.
  rewrite strip_cell_dict in H.
  apply bind_ok in H. destruct H as (decision & _ & H).
  apply bind_ok in H. destruct H as (c1 & Hc1 & H). inversion H. subst cell'. clear H.
  set (c3 := null_count_dict args "execution_count"
               (null_count_dict args "prompt_number" c1)).
  assert (Hplain : forall f,
             (f = "prompt_number" \/ f = "execution_count") ->
             forall x, dict_get f c3 = Some x -> x = VNone).
  { intros f Hf x. unfold c3. rewrite !null_count_dict_get, Hk.
    unfold dict_mem. rewrite null_count_dict_get, Hk. unfold dict_mem.
    destruct Hf as [-> | ->]; simpl;
      destruct (dict_get "prompt_number" c1), (dict_get "execution_count" c1);
      simpl; congruence. }
  assert (Hfield : forall f,
             (f = "prompt_number" \/ f = "execution_count") ->
             forall v, getitem (pop_fields keys (VDict c3)) f = Ok v -> v = VNone).
  { intros f Hf v Hv.
    destruct (pop_fields_field f keys c3) as (kvs' & Hkvs & Hy).
    rewrite Hkvs in Hv. apply getitem_ok in Hv. destruct Hv as (d & Hd & Hv).
    inversion Hd. subst d. destruct (Hy _ Hv) as (x & Hx & Hxv).
    apply (Hplain f Hf) in Hx. subst x.
    destruct Hxv as [->|[Hd' _]]; [auto|discriminate]. }
  split; [|split].
  - apply Hfield. auto.
  - apply Hfield. auto.
  - intros outputs items o v Hout Hi Ho Hv.
    destruct (pop_fields_field "outputs" keys c3) as (kvs' & Hkvs & Hy).
    rewrite Hkvs in Hout. apply getitem_ok in Hout. destruct Hout as (d & Hd & Hout).
    inversion Hd. subst d. destruct (Hy _ Hout) as (x & Hx & Hxy).
    unfold c3 in Hx. rewrite !null_count_dict_get in Hx. simpl in Hx.
    destruct (dict_get "outputs" c) as [outs|] eqn:Hc.
    + apply bind_ok in Hc1. destruct Hc1 as (outs1 & Hs & Hc1). inversion Hc1. subst c1.
      rewrite dict_get_set_same in Hx. inversion Hx. subst x.
      eapply strip_outputs_value_nulled; eauto.
    + inversion Hc1. subst c1. congruence.
Qed.

Lemma spares_counts_each keys :
  spares_counts keys = true ->
  forallb (fun key => negb (touches "prompt_number" key)) keys = true
  /\ forallb (fun key => negb (touches "execution_count" key)) keys = true
  /\ forallb (fun key => negb (touches "outputs" key)) keys = true.
Proof.
  unfold spares_counts. induction keys as [|k r IH]; simpl; auto.
  intros H. apply andb_true_iff in H. destruct H as [Hk Hr].
  apply negb_true_iff in Hk. apply orb_false_iff in Hk. destruct Hk as [Hk H3].
  apply orb_false_iff in Hk. destruct Hk as [H1 H2].
  destruct (IH Hr) as (I1 & I2 & I3).
  rewrite H1, H2, H3, I1, I2, I3. auto.
Qed.

Lemma null_count_dict_keep args name d :
  keep_count args = true -> null_count_dict args name d = d.
Proof.
  intros H. unfold null_count_dict. rewrite H. simpl. now rewrite andb_false_r.
Qed.

(** With [keep_count] true, and no extra key naming them, the loop body
    leaves the counters of the cell as they are and keeps outputs as they
    are. *)
Lemma strip_cell_counts_kept args keep keys cell cell' :
  keep_count args = true ->
  spares_counts keys = true ->
  strip_cell args keep keys cell = Ok cell' ->
  counts_kept cell cell'.
Proof.
  intros Hk Hsp H.
  assert (Hrefl : counts_kept cell cell).
  { repeat split; auto. intros outputs' items' H1 H2.
    exists outputs', items'. repeat split; auto. apply subseq_refl. }
  destruct cell as [| | | | |c].
  1-5: apply strip_cell_not_dict in H; [now subst cell'|discriminate].
  clear Hrefl. rewrite strip_cell_dict in H.
  apply bind_ok in H. destruct H as (decision & _ & H).
  apply bind_ok in H. destruct H as (c1 & Hc1 & H). inversion H. subst cell'. clear H.
  rewrite !(null_count_dict_keep _ _ _ Hk).
  destruct (spares_counts_each _ Hsp) as (S1 & S2 & S3).
  destruct (pop_fields_other_field "prompt_number" keys c1 S1) as (k1 & Hk1 & G1).
  destruct (pop_fields_other_field "execution_count" keys c1 S2) as (k2 & Hk2 & G2).
  destruct (pop_fields_other_field "outputs" keys c1 S3) as (k3 & Hk3 & G3).
  rewrite Hk1 in Hk2, Hk3. inversion Hk2. inversion Hk3. subst k2 k3. rewrite Hk1.
  assert (Hother : forall f, f <> "outputs" -> dict_get f c1 = dict_get f c).
  { intros f Hf. destruct (dict_get "outputs" c) as [outs|].
    - apply bind_ok in Hc1. destruct Hc1 as (outs1 & _ & Hc1). inversion Hc1.
      now apply dict_get_set_other.
    - now inversion Hc1. }
  split; [|split].
  - simpl. rewrite G1, Hother by discriminate. reflexivity.
  - simpl. rewrite G2, Hother by discriminate. reflexivity.
  - intros outputs' items' Hout Hi. simpl in Hout. rewrite G3 in Hout.
    destruct (dict_get "outputs" c) as [outs|] eqn:Hc.
    + apply bind_ok in Hc1. destruct Hc1 as (outs1 & Hs & Hc1). inversion Hc1. subst c1.
      rewrite dict_get_set_same in Hout. inversion Hout. subst outputs'. clear Hout.
      unfold strip_outputs_value in Hs. rewrite Hk in Hs. simpl in Hs.
      destruct (py_not decision).
      * apply bind_ok in Hs. destruct Hs as (x & Hx & Hs).
        apply bind_ok in Hx. destruct Hx as (items & Hitems & Hx).
        inversion Hx. subst x. inversion Hs. subst outs1.
        simpl in Hi. inversion Hi. subst items'.
        exists outs, items. simpl. rewrite Hc. repeat split; auto.
        apply subseq_filter.
      * simpl in Hs. inversion Hs. subst outs1.
        exists outs, items'. simpl. rewrite Hc. repeat split; auto.
        apply subseq_refl.
    + inversion Hc1. subst c1. rewrite Hc in Hout. discriminate.
Qed.

(** ** The size filter *)

Lemma zsum_nonneg l : Forall (fun z => 0 <= z) l -> 0 <= zsum l.
Proof. induction 1; simpl; lia. Qed.

Lemma get_size_nonneg item : 0 <= get_size item.
Proof.
  induction item as [|b|n|s|l IH|d IH] using value_nested_ind; simpl; try lia.
  - apply zsum_nonneg. apply Forall_forall. intros z Hz.
    apply in_map_iff in Hz. destruct Hz as (x & <- & Hx).
    rewrite Forall_forall in IH. auto.
  - apply zsum_nonneg. apply Forall_forall. intros z Hz.
    apply in_map_iff in Hz. destruct Hz as (x & <- & Hx).
    rewrite Forall_forall in IH. now apply IH.
Qed.

(** ** The document that [strip_output] returns *)

Section OtherKeys.
Variable body : value -> result value.
Variable tag : string.
Variable conds : list conditional.
Hypothesis body_str : forall s v, body (VStr s) = Ok v -> v = VStr s.

(** [_cells] writes the keys [cells] and [worksheets] and no other. *)
Lemma _cells_other_key nb nb' k :
  k <> "cells" -> k <> "worksheets" ->
  _cells body tag conds nb = Ok nb' ->
  getattr nb' k = getattr nb k.
Proof.
  intros Hc Hw H. unfold _cells in H. bind_inv H. bind_inv H.
  destruct x0.
  - bind_inv H. bind_inv H. bind_inv H.
    destruct x0; try (now inversion H).
    apply setitem_ok in H. destruct H as (d & -> & ->). simpl.
    now rewrite dict_get_set_other.
  - destruct (filter_and_yield_ok body tag body_str conds _ _ H) as
        (d & items & survivors & cells' & -> & _ & _ & _ & _ & _ & Ho').
    destruct Ho' as [->|[_ ->]]; auto. simpl. now rewrite dict_get_set_other.
Qed.
End OtherKeys.

Lemma strip_metadata_cells fields nb nb1 :
  strip_metadata fields nb = Ok nb1 -> document_cells nb1 = document_cells nb.
Proof.
  unfold strip_metadata. destruct fields as [|f r]; intros H.
  - now inversion H.
  - bind_inv H. apply setitem_ok in H. destruct H as (d & -> & ->).
    unfold document_cells, cells_of. simpl.
    rewrite !dict_get_set_other by discriminate. reflexivity.
Qed.

(** The cells of the returned document are the survivors of the filters,
    each put through the loop body. *)
Lemma strip_output_ok nb args nb' :
  snd (strip_output nb args) = Ok nb' ->
  exists keep cells survivors cells',
    effective_keep_output nb args = Ok keep
    /\ document_cells nb = Ok cells
    /\ subseq survivors cells
    /\ Forall (passes (last_tag args) (build_conditionals args)) survivors
    /\ mapM (strip_cell args keep (subkeys "cell" (extra_keys args))) survivors
       = Ok cells'
    /\ document_cells nb' = Ok cells'.
Proof.
  unfold strip_output. intros H.
  destruct (effective_keep_output nb args) as [keep|e]; [|discriminate].
  simpl in H. bind_inv H.
  destruct (_cells_ok _ _ _ (strip_cell_str args keep _) _ _ H)
    as (cells & survivors & cells' & H1 & H2 & H3 & H4 & H5).
  rewrite (strip_metadata_cells _ _ _ E) in H1.
  exists keep, cells, survivors, cells'. auto 10.
Qed.

Lemma Forall2_impl {A B} (R S : A -> B -> Prop) l l' :
  (forall x y, R x y -> S x y) -> Forall2 R l l' -> Forall2 S l l'.
Proof. intros H. induction 1; constructor; auto. Qed.

(** C7, as amended.  After a successful [strip_output] with [keep_count]
    false, every cell's [prompt_number] and [execution_count] and every
    retained output's [execution_count] are null where present.  With
    [keep_count] true they are the values of the original document, and the
    retained outputs are original outputs as they were, provided no extra
    key names the cell fields [prompt_number], [execution_count] or
    [outputs] or a path below them. *)
Theorem counts_nulled_or_kept :
  forall nb args nb',
    snd (strip_output nb args) = Ok nb' ->
    exists cells survivors cells',
      document_cells nb = Ok cells
      /\ subseq survivors cells
      /\ document_cells nb' = Ok cells'
      /\ (keep_count args = false -> Forall counts_null cells')
      /\ (keep_count args = true ->
          spares_counts (subkeys "cell" (extra_keys args)) = true ->
          Forall2 counts_kept survivors cells').
Proof.
  intros nb args nb' H.
  destruct (strip_output_ok _ _ _ H)
    as (keep & cells & survivors & cells' & _ & H1 & H2 & _ & H4 & H5).
  exists cells, survivors, cells'. repeat split; auto.
  - intros Hk. apply mapM_ok in H4.
    eapply Forall2_Forall_r; [exact H4|]. intros c c' _ Hc.
    exact (strip_cell_counts_null _ _ _ _ _ Hk Hc).
  - intros Hk Hsp. apply mapM_ok in H4.
    eapply Forall2_impl; [|exact H4]. intros c c' Hc.
    exact (strip_cell_counts_kept _ _ _ _ _ Hk Hsp Hc).
Qed.

Lemma counts_nulled_or_kept_witness :
  exists cells survivors cells',
    document_cells (notebook [executed_cell]) = Ok cells
    /\ subseq survivors cells
    /\ document_cells
         (notebook [VDict [("source", VList [VStr "1+1"]);
                           ("outputs", VList []);
                           ("execution_count", VNone)]]) = Ok cells'
    /\ (keep_count default_args = false -> Forall counts_null cells')
    /\ (keep_count default_args = true ->
        spares_counts (subkeys "cell" (extra_keys default_args)) = true ->
        Forall2 counts_kept survivors cells').
Proof.
  apply (counts_nulled_or_kept
           (notebook [executed_cell]) default_args
           (notebook [VDict [("source", VList [VStr "1+1"]);
                             ("outputs", VList []);
                             ("execution_count", VNone)]])).
  reflexivity.
Defined.

(** With [keep_count] true the extra key [cell.execution_count] removes
    the counter of the cell: the value 3 is not preserved. *)
Lemma extra_key_removes_kept_count :
  keep_count (mkStripArgs (Some false) true ["cell.execution_count"] false [] false 0)
  = true
  /\ snd (strip_output
            (notebook [VDict [("source", VList [VStr "1+1"]);
                              ("execution_count", VInt 3)]])
            (mkStripArgs (Some false) true ["cell.execution_count"] false [] false 0))
     = Ok (notebook [VDict [("source", VList [VStr "1+1"])]]).
Proof. split; reflexivity. Qed.

(** X21.  The size of a value is the length of a string, the sum over
    the elements of a sequence, the sum over the values of a mapping (keys
    not counted) and the length of the text of any other scalar.  When the
    decision for a cell is to strip, its [outputs] field holds, in their
    order, exactly the outputs whose size is at most [max_size] (their
    [execution_count] nulled when [keep_count] is false), unless the extra
    key [cell.outputs] deletes the field: the test is [<=], so that with
    [max_size] 0 the outputs of size 0 are among them. *)
Theorem outputs_retained_by_size :
  (forall s, get_size (VStr s) = Z.of_nat (String.length s))
  /\ (forall l, get_size (VList l) = zsum (map get_size l))
  /\ (forall d, get_size (VDict d) = zsum (map get_size (map snd d)))
  /\ get_size VNone = 4 /\ get_size (VBool true) = 4 /\ get_size (VBool false) = 5
  /\ (forall n, get_size (VInt n) = Z.of_nat (String.length (py_str (VInt n))))
  /\ forall args keep keys c decision outs items cell',
      determine_keep_output (VDict c) keep (strip_init_cells args) = Ok decision ->
      py_not decision = true ->
      dict_get "outputs" c = Some outs ->
      py_iter outs = Ok items ->
      strip_cell args keep keys (VDict c) = Ok cell' ->
      exists c' outs',
        cell' = VDict c'
        /\ (if keep_count args
            then Ok (filter (small (max_size args)) items)
            else mapM null_execution_count (filter (small (max_size args)) items))
           = Ok outs'
        /\ dict_get "outputs" c'
           = (if existsb (String.eqb "outputs") keys then None
              else Some (VList outs'))
        /\ (forall o, In o (filter (small (max_size args)) items)
                      <-> In o items /\ get_size o <= max_size args)
        /\ (max_size args = 0 ->
            forall o, In o (filter (small (max_size args)) items)
                      <-> In o items /\ get_size o = 0).
Proof.
  repeat (split; [reflexivity|]).
  split; [intros d; simpl; now rewrite map_map|].
  repeat (split; [reflexivity|]).
  intros args keep keys c decision outs items cell' Hdec Hnot Hc Hitems H.
  rewrite strip_cell_dict, Hdec, Hc in H. simpl in H.
  apply bind_ok in H. destruct H as (c1 & Hc1 & H). inversion H. subst cell'. clear H.
  apply bind_ok in Hc1. destruct Hc1 as (outs1 & Hs & Hc1). inversion Hc1. subst c1. clear Hc1.
  assert (Houts : exists outs', outs1 = VList outs'
            /\ (if keep_count args
                then Ok (filter (small (max_size args)) items)
                else mapM null_execution_count (filter (small (max_size args)) items))
               = Ok outs').
  { unfold strip_outputs_value in Hs. rewrite Hnot, Hitems in Hs. simpl in Hs.
    destruct (keep_count args); simpl in Hs.
    - inversion Hs. eauto.
    - apply bind_ok in Hs. destruct Hs as (items' & Hm & Hs). inversion Hs. eauto. }
  destruct Houts as (outs' & -> & Houts).
  set (c3 := null_count_dict args "execution_count"
               (null_count_dict args "prompt_number"
                  (dict_set "outputs" (VList outs') c))).
  assert (H3 : dict_get "outputs" c3 = Some (VList outs')).
  { unfold c3. rewrite !null_count_dict_get. simpl. apply dict_get_set_same. }
  destruct (pop_fields_plain_field "outputs" (VList outs') keys c3 H3 eq_refl)
    as (c' & Hc' & Hget).
  exists c', outs'. split; [auto|]. split; [auto|]. split; [auto|]. split.
  - intros o. rewrite filter_In. unfold small. rewrite Z.leb_le. tauto.
  - intros Hmax o. rewrite filter_In. unfold small. rewrite Z.leb_le.
    pose proof (get_size_nonneg o). split; intros [Ho Hsz]; split; auto; lia.
Qed.

(** A cell with an empty output and an output of one character, under
    the default configuration: the empty output is retained. *)
Lemma outputs_retained_by_size_witness :
  exists c' outs',
    VDict [("outputs", VList [VDict [("text", VStr "")]])] = VDict c'
    /\ mapM null_execution_count
         (filter (small 0) [VDict [("text", VStr "")]; VDict [("text", VStr "x")]])
       = Ok outs'
    /\ dict_get "outputs" c' = Some (VList outs')
    /\ (forall o, In o (filter (small 0)
                          [VDict [("text", VStr "")]; VDict [("text", VStr "x")]])
                  <-> In o [VDict [("text", VStr "")]; VDict [("text", VStr "x")]]
                      /\ get_size o <= 0)
    /\ (0 = 0 ->
        forall o, In o (filter (small 0)
                          [VDict [("text", VStr "")]; VDict [("text", VStr "x")]])
                  <-> In o [VDict [("text", VStr "")]; VDict [("text", VStr "x")]]
                      /\ get_size o = 0).
Proof.
  destruct outputs_retained_by_size as (_ & _ & _ & _ & _ & _ & _ & H).
  apply (H default_args (Some false) []
           [("outputs", VList [VDict [("text", VStr "")]; VDict [("text", VStr "x")]])]
           (Some false)
           (VList [VDict [("text", VStr "")]; VDict [("text", VStr "x")]])
           [VDict [("text", VStr "")]; VDict [("text", VStr "x")]]
           (VDict [("outputs", VList [VDict [("text", VStr "")]])]));
    reflexivity.
Defined.

(** C2.  With the default configuration ([keep_output] false, [max_size]
    0) an output survives: of the two outputs of the cell, [{"text": ""}]
    has size 0, passes the test [get_size(output) <= args.max_size] and is
    in the document returned; only [{"text": "x"}] is removed. *)
Theorem size_zero_output_survives :
  keep_output default_args = Some false /\ max_size default_args = 0
  /\ get_size (VDict [("text", VStr "")]) = 0
  /\ snd (strip_output
            (notebook [VDict [("outputs", VList [VDict [("text", VStr "")];
                                                 VDict [("text", VStr "x")]])]])
            default_args)
     = Ok (notebook [VDict [("outputs", VList [VDict [("text", VStr "")]])]]).
Proof. repeat split; reflexivity. Qed.

(** ** A second pass *)






Lemma null_count_dict_idem args name d :
  null_count_dict args name (null_count_dict args name d) = null_count_dict args name d.
Proof.
  unfold null_count_dict.
  destruct (dict_mem name d && negb (keep_count args)) eqn:E; [|now rewrite E].
  unfold dict_mem at 1. rewrite dict_get_set_same.
  apply andb_true_iff in E. destruct E as [_ ->]. simpl. apply dict_set_set.
Qed.


Lemma subkeys_all_invalid ns keys :
  forallb invalid_extra_key keys = true -> subkeys ns keys = [].
Proof.
  induction keys as [|k r IH]; simpl; auto.
  intros H. apply andb_true_iff in H. destruct H as [Hk Hr]. rewrite Hk. auto.
Qed.

















(** An extra key can remove what the first pass decided on: here the
    notebook's own [keep_output], so that the second pass strips the output
    that the first one kept. *)
Lemma extra_key_breaks_second_pass :
  snd (strip_output
         (VDict [("nbformat", VInt 4); ("metadata", VDict [("keep_output", VBool true)]);
                 ("cells", VList [VDict [("outputs", VList [VDict [("text", VStr "x")]])]])])
         (mkStripArgs None true ["metadata.keep_output"] false [] false 0))
  = Ok (VDict [("nbformat", VInt 4); ("metadata", VDict []);
               ("cells", VList [VDict [("outputs", VList [VDict [("text", VStr "x")]])]])])
  /\ snd (strip_output
            (VDict [("nbformat", VInt 4); ("metadata", VDict []);
                    ("cells", VList [VDict [("outputs", VList [VDict [("text", VStr "x")]])]])])
            (mkStripArgs None true ["metadata.keep_output"] false [] false 0))
     = Ok (VDict [("nbformat", VInt 4); ("metadata", VDict []);
                  ("cells", VList [VDict [("outputs", VList [])]])]).
Proof. split; reflexivity. Qed.

(** A key with a dot in its name hides the nested entry of the same path
    from [pop_recursive]: the first pass removes the key [a.b] of the
    notebook metadata, the second one the entry [b] of the mapping at [a]. *)
Lemma literal_key_breaks_second_pass :
  snd (strip_output
         (VDict [("nbformat", VInt 4);
                 ("metadata", VDict [("a.b", VInt 1); ("a", VDict [("b", VInt 2)])]);
                 ("cells", VList [])])
         (mkStripArgs (Some false) false ["metadata.a.b"] false [] false 0))
  = Ok (VDict [("nbformat", VInt 4);
               ("metadata", VDict [("a", VDict [("b", VInt 2)])]);
               ("cells", VList [])])
  /\ snd (strip_output
            (VDict [("nbformat", VInt 4);
                    ("metadata", VDict [("a", VDict [("b", VInt 2)])]);
                    ("cells", VList [])])
            (mkStripArgs (Some false) false ["metadata.a.b"] false [] false 0))
     = Ok (VDict [("nbformat", VInt 4);
                  ("metadata", VDict [("a", VDict [])]);
                  ("cells", VList [])]).
Proof. split; reflexivity. Qed.

(** ** Dropping tagged cells *)

(** C1.  With [drop_tagged_cells = ["a", "b"]] the cell tagged ["a"]
    survives: every filter reads [tag_to_drop] when it is called, after the
    loop that made the filters has left the last tag in it, so only the
    cell tagged ["b"] is removed. *)
Theorem drop_tagged_cells_tests_last_tag_only :
  snd (strip_output
         (notebook [VDict [("source", VList [VStr "x"]);
                           ("metadata", VDict [("tags", VList [VStr "a"])])];
                    VDict [("source", VList [VStr "y"]);
                           ("metadata", VDict [("tags", VList [VStr "b"])])];
                    VDict [("source", VList [VStr "z"]);
                           ("metadata", VDict [("tags", VList [])])]])
         (mkStripArgs (Some false) false [] false ["a"; "b"] false 0))
  = Ok (notebook [VDict [("source", VList [VStr "x"]);
                         ("metadata", VDict [("tags", VList [VStr "a"])])];
                  VDict [("source", VList [VStr "z"]);
                         ("metadata", VDict [("tags", VList [])])]]).
Proof. reflexivity. Qed.

(** ** The examples of the specification *)

(** The end-to-end example under the default configuration. *)
Example strip_output_end_to_end :
  strip_output (notebook [executed_cell]) default_args
  = ([], Ok (notebook [VDict [("source", VList [VStr "1+1"]);
                              ("outputs", VList []);
                              ("execution_count", VNone)]])).
Proof. reflexivity. Qed.

(** A cell marked [init_cell] keeps its output although its metadata
    says [keep_output] false. *)
Example init_cell_keeps_output :
  snd (strip_output
         (notebook [VDict [("metadata", VDict [("init_cell", VBool true);
                                               ("keep_output", VBool false)]);
                           ("outputs", VList [VDict [("text", VStr "x")]])]])
         default_args)
  = Ok (notebook [VDict [("metadata", VDict [("init_cell", VBool true);
                                             ("keep_output", VBool false)]);
                         ("outputs", VList [VDict [("text", VStr "x")]])]]).
Proof. reflexivity. Qed.

(** The contradiction of one cell fails the whole call. *)
Example contradiction_fails_strip_output :
  snd (strip_output
         (notebook [executed_cell;
                    VDict [("metadata", VDict [("keep_output", VBool false);
                                               ("tags", VList [VStr "keep_output"])])]])
         default_args)
  = Raise MetadataError.
Proof. reflexivity. Qed.

(** One tag to drop: the cell that carries it goes, the others stay in
    their order. *)
Example drop_one_tag :
  snd (strip_output
         (notebook [VDict [("source", VList [VStr "x"])];
                    VDict [("source", VList [VStr "y"]);
                           ("metadata", VDict [("tags", VList [VStr "remove"])])];
                    VDict [("source", VList [VStr "z"])]])
         (mkStripArgs (Some false) false [] false ["remove"] false 0))
  = Ok (notebook [VDict [("source", VList [VStr "x"])];
                  VDict [("source", VList [VStr "z"])]]).
Proof. reflexivity. Qed.

(** Blank cells are dropped on request. *)
Example drop_empty_cell :
  snd (strip_output
         (notebook [VDict [("source", VList [VStr ("   " ++ String (ascii_of_nat 10) "");
                                             VStr ""])];
                    VDict [("source", VList [VStr "x"])]])
         (mkStripArgs (Some false) false [] true [] false 0))
  = Ok (notebook [VDict [("source", VList [VStr "x"])]]).
Proof. reflexivity. Qed.

(** * Further properties of the code *)

(** ** [pop_recursive] and the entries of a mapping *)

Lemma dict_get_In h kvs sub :
  dict_get h kvs = Some sub -> exists k, In (k, sub) kvs.
Proof.
  induction kvs as [|[k v] r IH]; simpl; [discriminate|].
  destruct (String.eqb k h).
  - intros H. inversion H. eauto.
  - intros H. destruct (IH H) as [k' Hk]. eauto.
Qed.

Lemma dict_pop_absent key kvs :
  dict_get key kvs = None -> dict_pop key kvs = kvs.
Proof.
  unfold dict_pop. induction kvs as [|[k v] r IH]; simpl; auto.
  destruct (String.eqb k key); simpl; [discriminate|].
  intros H. now rewrite IH.
Qed.

Lemma entry_sum_pop_le m key kvs :
  (entry_sum m (dict_pop key kvs) <= entry_sum m kvs)%nat.
Proof.
  unfold entry_sum, dict_pop. induction kvs as [|[k v] r IH]; simpl; auto.
  destruct (String.eqb k key); simpl; lia.
Qed.

Lemma entry_sum_pop_lt m key kvs v :
  dict_get key kvs = Some v ->
  (entry_sum m (dict_pop key kvs) < entry_sum m kvs)%nat.
Proof.
  induction kvs as [|[k x] r IH]; simpl; [discriminate|].
  unfold entry_sum, dict_pop in *. simpl.
  destruct (String.eqb k key); simpl.
  - intros _. pose proof (entry_sum_pop_le m key r) as Hle.
    unfold entry_sum, dict_pop in Hle. lia.
  - intros H. specialize (IH H). lia.
Qed.

Lemma entry_sum_set m h sub sub' kvs :
  dict_get h kvs = Some sub ->
  (entry_sum m (dict_set h sub' kvs) + m sub = entry_sum m kvs + m sub')%nat.
Proof.
  unfold entry_sum. induction kvs as [|[k x] r IH]; simpl; [discriminate|].
  destruct (String.eqb k h); simpl.
  - intros H. inversion H. subst. lia.
  - intros H. specialize (IH H). lia.
Qed.

Lemma bindings_pop_recursive d :
  forall key default,
    (bindings (snd (pop_recursive d key default)) <= bindings d)%nat
    /\ (path_resolves d key = true ->
        (bindings (snd (pop_recursive d key default)) < bindings d)%nat).
Proof.
  induction d as [|b|n|s|l IHl|kvs IH] using value_nested_ind; intros key default;
    try (simpl; split; [lia|discriminate]).
  rewrite pop_recursive_dict. simpl path_resolves. unfold dict_mem.
  change (bindings (VDict kvs)) with (entry_sum bindings kvs).
  destruct (dict_get key kvs) as [v|] eqn:Hkey.
  - cbn [snd]. change (bindings (VDict (dict_pop key kvs)))
      with (entry_sum bindings (dict_pop key kvs)).
    pose proof (entry_sum_pop_lt bindings key kvs v Hkey). split; [lia|auto].
  - cbn [orb]. destruct (split_dot key) as [[h t]|].
    2: { cbn [snd]. change (bindings (VDict kvs)) with (entry_sum bindings kvs).
         split; [lia|discriminate]. }
    rewrite holds_at_get.
    destruct (dict_get h kvs) as [sub|] eqn:Hsub.
    2: { cbn [snd]. change (bindings (VDict kvs)) with (entry_sum bindings kvs).
         split; [lia|discriminate]. }
    destruct (dict_get_In _ _ _ Hsub) as [k Hin].
    rewrite Forall_forall in IH. destruct (IH _ Hin t default) as [Hle Hlt].
    cbn [snd] in Hle, Hlt |- *.
    change (bindings (VDict (dict_set h (snd (pop_recursive sub t default)) kvs)))
      with (entry_sum bindings (dict_set h (snd (pop_recursive sub t default)) kvs)).
    pose proof (entry_sum_set bindings h sub (snd (pop_recursive sub t default)) kvs Hsub).
    split; [lia|]. intros Hres. specialize (Hlt Hres). lia.
Qed.

(** X1.  [pop_recursive] never adds an entry to the mapping, at any depth,
    and it removes at least one exactly when the path resolves. *)
Theorem pop_recursive_removes_entries :
  forall d key default,
    (bindings (snd (pop_recursive d key default)) <= bindings d)%nat
    /\ (path_resolves d key = true
        <-> (bindings (snd (pop_recursive d key default)) < bindings d)%nat).
Proof.
  intros d key default.
  destruct (bindings_pop_recursive d key default) as [Hle Hlt].
  split; [exact Hle|]. split; [exact Hlt|].
  intros H. destruct (path_resolves d key) eqn:E; auto.
  rewrite (pop_recursive_unresolved d key default E) in H. simpl in H. lia.
Qed.

(** X2.  For a key without a dot [pop_recursive] is [dict.pop(key,
    default)]: it returns the value under the key, or the default, and the
    mapping without the key. *)
Theorem pop_recursive_plain_key :
  forall kvs key default,
    has_dot key = false ->
    pop_recursive (VDict kvs) key default
    = (match dict_get key kvs with Some v => v | None => default end,
       VDict (dict_pop key kvs))
    /\ dict_get key (dict_pop key kvs) = None.
Proof.
  intros kvs key default Hdot. split.
  - rewrite pop_recursive_dict.
    destruct (dict_get key kvs) eqn:Hk; auto.
    apply split_dot_none in Hdot. rewrite Hdot.
    now rewrite (dict_pop_absent _ _ Hk).
  - rewrite dict_get_pop. now rewrite String.eqb_refl.
Qed.

Lemma pop_recursive_plain_key_witness :
  pop_recursive (VDict [("a", VInt 1); ("b", VInt 2)]) "b" VNone
  = (VInt 2, VDict [("a", VInt 1)])
  /\ dict_get "b" (dict_pop "b" [("a", VInt 1); ("b", VInt 2)]) = None.
Proof.
  apply (pop_recursive_plain_key [("a", VInt 1); ("b", VInt 2)] "b" VNone).
  reflexivity.
Defined.


Lemma append_dot_differs h u : (h ++ String dot u)%string <> h.
Proof.
  induction h as [|a h IH]; simpl; [discriminate|].
  intros H. inversion H. auto.
Qed.

(** X3.  After [pop_recursive] the path is not a key of the mapping,
    whether something was removed or not. *)
Theorem pop_recursive_key_absent_after :
  forall kvs key default,
    exists kvs',
      snd (pop_recursive (VDict kvs) key default) = VDict kvs'
      /\ dict_get key kvs' = None.
Proof.
  intros kvs key default. rewrite pop_recursive_dict.
  destruct (dict_get key kvs) as [v|] eqn:Hkey.
  - exists (dict_pop key kvs). split; auto.
    rewrite dict_get_pop. now rewrite String.eqb_refl.
  - destruct (split_dot key) as [[h t]|] eqn:Hs; [|exists kvs; auto].
    destruct (dict_get h kvs) as [sub|]; [|exists kvs; auto].
    eexists. split; [reflexivity|].
    rewrite dict_get_set_other; auto.
    apply split_dot_some in Hs. destruct Hs as [-> _]. apply append_dot_differs.
Qed.

(** ** [get_size] *)

Lemma zsum_pop_le key kvs v :
  dict_get key kvs = Some v ->
  zsum (map (fun kv => get_size (snd kv)) (dict_pop key kvs)) + get_size v
  <= zsum (map (fun kv => get_size (snd kv)) kvs).
Proof.
  assert (Hle : forall r,
             zsum (map (fun kv => get_size (snd kv)) (dict_pop key r))
             <= zsum (map (fun kv => get_size (snd kv)) r)).
  { intros r. unfold dict_pop. induction r as [|[k x] r IH]; simpl; [lia|].
    pose proof (get_size_nonneg x). destruct (String.eqb k key); simpl; lia. }
  induction kvs as [|[k x] r IH]; simpl; [discriminate|].
  unfold dict_pop in *. simpl.
  destruct (String.eqb k key); simpl.
  - intros H. inversion H. subst. specialize (Hle r). lia.
  - intros H. specialize (IH H). lia.
Qed.

Lemma zsum_set h sub sub' kvs :
  dict_get h kvs = Some sub ->
  zsum (map (fun kv => get_size (snd kv)) (dict_set h sub' kvs)) + get_size sub
  = zsum (map (fun kv => get_size (snd kv)) kvs) + get_size sub'.
Proof.
  induction kvs as [|[k x] r IH]; simpl; [discriminate|].
  destruct (String.eqb k h); simpl.
  - intros H. inversion H. subst. lia.
  - intros H. specialize (IH H). lia.
Qed.

Lemma get_size_pop_recursive d :
  forall key default,
    get_size (snd (pop_recursive d key default)) <= get_size d
    /\ (path_resolves d key = true ->
        get_size (snd (pop_recursive d key default))
        + get_size (fst (pop_recursive d key default)) <= get_size d).
Proof.
  induction d as [|b|n|s|l IHl|kvs IH] using value_nested_ind; intros key default;
    try (simpl; split; [lia|discriminate]).
  rewrite pop_recursive_dict. simpl path_resolves. unfold dict_mem.
  destruct (dict_get key kvs) as [v|] eqn:Hkey.
  - cbn [fst snd get_size]. pose proof (zsum_pop_le key kvs v Hkey).
    pose proof (get_size_nonneg v). split; [lia|intros _; lia].
  - cbn [orb]. destruct (split_dot key) as [[h t]|].
    2: { cbn [snd]. split; [lia|discriminate]. }
    rewrite holds_at_get.
    destruct (dict_get h kvs) as [sub|] eqn:Hsub.
    2: { cbn [snd]. split; [lia|discriminate]. }
    destruct (dict_get_In _ _ _ Hsub) as [k Hin].
    rewrite Forall_forall in IH. destruct (IH _ Hin t default) as [Hle Hlt].
    cbn [fst snd get_size] in Hle, Hlt |- *.
    pose proof (zsum_set h sub (snd (pop_recursive sub t default)) kvs Hsub).
    split; [lia|]. intros Hres. specialize (Hlt Hres). lia.
Qed.

(** X4.  Removing a path never makes a value larger for [get_size], and
    when the path resolves the sizes of what is left and of what is
    returned add up to no more than the size before. *)
Theorem pop_recursive_shrinks_size :
  forall d key default,
    get_size (snd (pop_recursive d key default)) <= get_size d
    /\ (path_resolves d key = true ->
        get_size (snd (pop_recursive d key default))
        + get_size (fst (pop_recursive d key default)) <= get_size d).
Proof. intros. apply get_size_pop_recursive. Qed.

Lemma zsum_zero l :
  Forall (fun z => 0 <= z) l -> (zsum l = 0 <-> Forall (fun z => z = 0) l).
Proof.
  induction 1 as [|z r Hz Hr IH]; simpl.
  - split; auto.
  - pose proof (zsum_nonneg r Hr) as Hnn. split.
    + intros Hs. constructor; [lia|]. apply IH. lia.
    + intros Hs. inversion Hs as [|? ? Hz0 Hr0]. subst. apply IH in Hr0. lia.
Qed.

Lemma py_str_int_not_empty n : py_str (VInt n) <> "".
Proof.
  unfold py_str. destruct n as [|p|p]; simpl; try discriminate.
  unfold NilZero.string_of_uint.
  pose proof (DecimalPos.Unsigned.to_uint_nonnil p) as Hnil.
  destruct (Pos.to_uint p); try congruence; discriminate.
Qed.

Lemma length_zero s : Z.of_nat (String.length s) = 0 <-> s = "".
Proof. destruct s; simpl; split; intros H; try reflexivity; try discriminate; lia. Qed.

Lemma get_size_zero item : get_size item = 0 <-> hollow item = true.
Proof.
  induction item as [|b|n|s|l IH|d IH] using value_nested_ind.
  - simpl. split; [lia|discriminate].
  - destruct b; simpl; split; (lia || discriminate).
  - change (get_size (VInt n)) with (Z.of_nat (String.length (py_str (VInt n)))).
    rewrite length_zero. simpl hollow. split; [|discriminate].
    intros H. now apply py_str_int_not_empty in H.
  - simpl. rewrite length_zero. split.
    + intros ->. reflexivity.
    + intros H. now apply String.eqb_eq in H.
  - simpl. rewrite zsum_zero.
    + rewrite forallb_forall, Forall_forall. rewrite Forall_forall in IH. split.
      * intros H x Hx. apply IH; auto. apply H. now apply in_map.
      * intros H z Hz. apply in_map_iff in Hz. destruct Hz as (x & <- & Hx).
        apply IH; auto.
    + apply Forall_forall. intros z Hz. apply in_map_iff in Hz.
      destruct Hz as (x & <- & _). apply get_size_nonneg.
  - simpl. rewrite zsum_zero.
    + rewrite forallb_forall, Forall_forall. rewrite Forall_forall in IH. split.
      * intros H x Hx. apply IH; auto. apply H.
        now apply (in_map (fun kv => get_size (snd kv))).
      * intros H z Hz. apply in_map_iff in Hz. destruct Hz as (x & <- & Hx).
        apply IH; auto.
    + apply Forall_forall. intros z Hz. apply in_map_iff in Hz.
      destruct Hz as (x & <- & _). apply get_size_nonneg.
Qed.

(** X5.  [get_size] is never negative, and it is 0 exactly on the values
    with no scalar and no non-empty string in them: these are the outputs
    that the size filter retains under the default [max_size] of 0, and with
    a negative [max_size] it retains none. *)
Theorem get_size_zero_iff_hollow :
  forall item,
    0 <= get_size item
    /\ (get_size item = 0 <-> hollow item = true)
    /\ small 0 item = hollow item
    /\ (forall max, max < 0 -> small max item = false).
Proof.
  intros item. pose proof (get_size_nonneg item) as Hn.
  pose proof (get_size_zero item) as Hz.
  split; [exact Hn|]. split; [exact Hz|]. split.
  - unfold small. destruct (hollow item) eqn:Hh.
    + apply Z.leb_le. destruct Hz as [_ Hz]. rewrite (Hz eq_refl). lia.
    + apply Z.leb_gt. destruct (Z.eq_dec (get_size item) 0) as [E|E]; [|lia].
      destruct Hz as [Hz _]. specialize (Hz E). discriminate.
  - intros max Hmax. unfold small. apply Z.leb_gt. lia.
Qed.

(** ** The decision of [determine_keep_output] *)

Lemma determine_keep_output_no_init c md default strip :
  dict_get "metadata" c = Some (VDict md) ->
  dict_get "init_cell" md = None ->
  determine_keep_output (VDict c) default strip
  = (tag <- py_contains "keep_output" (tags_of md) ;;
     let has := dict_mem "keep_output" md in
     let v := truthy (match dict_get "keep_output" md with
                      | Some v => v | None => VBool false end) in
     if has && tag && negb v then Raise MetadataError
     else if has || tag then Ok (Some (v || tag)) else Ok default).
Proof.
  intros Hmd Hinit. unfold determine_keep_output, tags_of. simpl.
  unfold dict_mem at 1. rewrite Hmd. simpl. unfold dict_mem at 1. rewrite Hinit.
  reflexivity.
Qed.

(** X6.  Without [init_cell], the default is returned only when the cell
    gives no signal: a cell without [metadata], or with neither a
    [keep_output] key nor the tag, gets the default; the tag (with no
    [keep_output] key, or a true one) gives [True] and a [keep_output] key
    without the tag gives its truth value, whatever the default is. *)
Theorem keep_output_default_only_without_signal :
  forall c default strip,
    (dict_get "metadata" c = None ->
     determine_keep_output (VDict c) default strip = Ok default)
    /\ forall md tag,
        dict_get "metadata" c = Some (VDict md) ->
        dict_get "init_cell" md = None ->
        py_contains "keep_output" (tags_of md) = Ok tag ->
        match dict_get "keep_output" md with
        | None =>
            determine_keep_output (VDict c) default strip
            = if tag then Ok (Some true) else Ok default
        | Some v =>
            if tag
            then truthy v = true ->
                 determine_keep_output (VDict c) default strip = Ok (Some true)
            else determine_keep_output (VDict c) default strip = Ok (Some (truthy v))
        end.
Proof.
  intros c default strip. split.
  - intros H. unfold determine_keep_output. simpl. unfold dict_mem. now rewrite H.
  - intros md tag Hmd Hinit Htag.
    rewrite (determine_keep_output_no_init _ _ _ _ Hmd Hinit), Htag. simpl.
    unfold dict_mem. destruct (dict_get "keep_output" md) as [v|]; simpl.
    + destruct tag; simpl.
      * intros ->. reflexivity.
      * now rewrite !orb_false_r.
    + now destruct tag.
Qed.

(** A cell whose metadata says [keep_output] false and has no tag is
    stripped although the default is to keep. *)
Lemma keep_output_default_only_without_signal_witness :
  determine_keep_output
    (VDict [("metadata", VDict [("keep_output", VBool false)])]) (Some true) false
  = Ok (Some false).
Proof.
  destruct (keep_output_default_only_without_signal
              [("metadata", VDict [("keep_output", VBool false)])] (Some true) false)
    as [_ H].
  exact (H [("keep_output", VBool false)] false eq_refl eq_refl eq_refl).
Defined.

(** X7.  [strip_init_cells] bears on the cells that have
    [metadata.init_cell] and on no other cell. *)
Theorem strip_init_cells_only_for_init_cells :
  forall cell default strip strip',
    (forall c md, cell = VDict c -> dict_get "metadata" c = Some (VDict md) ->
                  dict_get "init_cell" md = None) ->
    determine_keep_output cell default strip
    = determine_keep_output cell default strip'.
Proof.
  intros cell default strip strip' H. unfold determine_keep_output.
  destruct (py_contains "metadata" cell) as [[|]|e]; simpl; auto.
  destruct (getattr cell "metadata") as [m|e] eqn:Hm; simpl; auto.
  destruct (py_contains "init_cell" m) as [[|]|e] eqn:Hi; simpl; auto.
  apply getattr_ok in Hm. destruct Hm as (c & -> & Hc).
  destruct m as [| | | s | l | md]; simpl in *; try reflexivity; try discriminate.
  unfold dict_mem in Hi. rewrite (H c md eq_refl Hc) in Hi. discriminate.
Qed.

Lemma strip_init_cells_only_for_init_cells_witness :
  determine_keep_output
    (VDict [("metadata", VDict [("keep_output", VBool true)])]) None true
  = determine_keep_output
    (VDict [("metadata", VDict [("keep_output", VBool true)])]) None false.
Proof.
  apply (strip_init_cells_only_for_init_cells
           (VDict [("metadata", VDict [("keep_output", VBool true)])]) None true false).
  intros c md Hc Hmd. inversion Hc. subst c. simpl in Hmd. inversion Hmd. reflexivity.
Defined.

(** ** What the loop body leaves of a cell *)

(** X8.  The loop body changes no field of a cell other than [outputs],
    [prompt_number], [execution_count] and the fields that an extra key
    names: [source], [metadata] and [cell_type], say, come out as they went
    in. *)
Theorem strip_cell_keeps_other_fields :
  forall args keep keys c cell' f,
    strip_cell args keep keys (VDict c) = Ok cell' ->
    f <> "outputs" -> f <> "prompt_number" -> f <> "execution_count" ->
    forallb (fun key => negb (touches f key)) keys = true ->
    getitem cell' f = getitem (VDict c) f.
Proof.
  intros args keep keys c cell' f H Ho Hp He Hkeys.
  rewrite strip_cell_dict in H.
  apply bind_ok in H. destruct H as (decision & _ & H).
  apply bind_ok in H. destruct H as (c1 & Hc1 & H). inversion H. subst cell'. clear H.
  destruct (pop_fields_other_field f keys
              (null_count_dict args "execution_count"
                 (null_count_dict args "prompt_number" c1)) Hkeys)
    as (kvs' & -> & Hget).
  simpl. rewrite Hget, !null_count_dict_get.
  apply String.eqb_neq in Hp, He. rewrite Hp, He. simpl.
  destruct (dict_get "outputs" c) as [outs|].
  - apply bind_ok in Hc1. destruct Hc1 as (outs1 & _ & Hc1). inversion Hc1.
    now rewrite dict_get_set_other.
  - now inversion Hc1.
Qed.

Lemma strip_cell_keeps_other_fields_witness :
  getitem (VDict [("source", VList [VStr "1+1"]);
                  ("outputs", VList []);
                  ("execution_count", VNone)]) "source"
  = getitem executed_cell "source".
Proof.
  apply (strip_cell_keeps_other_fields default_args (Some false) ["metadata.collapsed"]
           [("source", VList [VStr "1+1"]);
            ("outputs", VList [VDict [("execution_count", VInt 3);
                                      ("data", VDict [("text/plain", VStr "2")])]]);
            ("execution_count", VInt 3)]);
    try reflexivity; discriminate.
Defined.

Lemma pop_recursive_literal_gone kvs key default :
  exists kvs',
    snd (pop_recursive (VDict kvs) key default) = VDict kvs'
    /\ dict_get key kvs' = None.
Proof.
  rewrite pop_recursive_dict.
  destruct (dict_get key kvs) as [v|] eqn:Hkey.
  - exists (dict_pop key kvs). split; auto.
    rewrite dict_get_pop. now rewrite String.eqb_refl.
  - destruct (split_dot key) as [[h t]|] eqn:Hs; [|exists kvs; auto].
    destruct (dict_get h kvs) as [sub|]; [|exists kvs; auto].
    eexists. split; [reflexivity|].
    rewrite dict_get_set_other; auto.
    apply split_dot_some in Hs. destruct Hs as [-> _]. apply append_dot_differs.
Qed.

Lemma pop_fields_keys_absent keys :
  forall d,
    exists kvs', pop_fields keys (VDict d) = VDict kvs'
                 /\ forall k, In k keys -> dict_get k kvs' = None.
Proof.
  induction keys as [|k0 r IH]; intros d.
  - exists d. split; auto. intros k [].
  - rewrite pop_fields_cons.
    destruct (pop_recursive_literal_gone d k0 VNone) as (d1 & -> & H1).
    destruct (IH d1) as (d2 & Hd2 & H2). exists d2. split; auto.
    intros k [<-|Hk]; [|auto].
    destruct (pop_fields_field k0 r d1) as (d2' & Hd2' & Hf).
    rewrite Hd2 in Hd2'. inversion Hd2'. subst d2'.
    destruct (dict_get k0 d2) as [y|] eqn:Hy; auto.
    destruct (Hf y eq_refl) as (x & Hx & _). congruence.
Qed.

Lemma strip_metadata_keys_absent fields nb nb1 :
  strip_metadata fields nb = Ok nb1 ->
  forall md k, getattr nb1 "metadata" = Ok md -> In k fields ->
               getitem md k = Raise GenericError.
Proof.
  unfold strip_metadata. destruct fields as [|f r]; intros H md k Hmd Hk; [destruct Hk|].
  bind_inv H. apply setitem_ok in H. destruct H as (d & -> & ->).
  unfold getattr in Hmd. rewrite dict_get_set_same in Hmd. inversion Hmd. subst md.
  clear Hmd.
  destruct x as [| | | | |m];
    try (rewrite <- pop_fields_cons, pop_fields_not_dict by discriminate; reflexivity).
  rewrite <- pop_fields_cons.
  destruct (pop_fields_keys_absent (f :: r) m) as (kvs' & -> & Habs).
  simpl. now rewrite (Habs k Hk).
Qed.

(** X9.  After a successful [strip_output] no cell has a key that is the
    path of one of the [cell.] extra keys, and the notebook metadata has no
    key that is the path of one of the [metadata.] extra keys: an extra key
    [cell.K] or [metadata.K] with no further dot removes the field [K]. *)
Theorem extra_keys_are_removed :
  forall nb args nb',
    snd (strip_output nb args) = Ok nb' ->
    (exists cells',
        document_cells nb' = Ok cells'
        /\ forall c' k, In c' cells' -> In k (subkeys "cell" (extra_keys args)) ->
                        getitem c' k = Raise GenericError)
    /\ (forall md k, getattr nb' "metadata" = Ok md ->
                     In k (subkeys "metadata" (extra_keys args)) ->
                     getitem md k = Raise GenericError).
Proof.
  intros nb args nb' H. split.
  - destruct (strip_output_ok _ _ _ H)
      as (keep & cells & survivors & cells' & _ & _ & _ & _ & Hmap & Hdoc).
    exists cells'. split; auto. intros c' k Hc' Hk.
    apply mapM_ok in Hmap. destruct (Forall2_In_r _ _ _ _ Hmap Hc') as (c & _ & Hc).
    simpl in Hc. destruct c as [| | | | |d].
    1-5: apply strip_cell_not_dict in Hc; [subst c'; reflexivity|discriminate].
    rewrite strip_cell_dict in Hc.
    apply bind_ok in Hc. destruct Hc as (decision & _ & Hc).
    apply bind_ok in Hc. destruct Hc as (c1 & _ & Hc). inversion Hc.
    destruct (pop_fields_keys_absent (subkeys "cell" (extra_keys args))
                (null_count_dict args "execution_count"
                   (null_count_dict args "prompt_number" c1)))
      as (kvs' & -> & Habs).
    simpl. now rewrite (Habs k Hk).
  - intros md k Hmd Hk. unfold strip_output in H.
    destruct (effective_keep_output nb args) as [keep|e]; [|discriminate].
    simpl in H. bind_inv H.
    pose proof (_cells_other_key _ _ _ (strip_cell_str args keep _) x nb' "metadata"
                  ltac:(discriminate) ltac:(discriminate) H) as Hsame.
    rewrite Hsame in Hmd.
    eapply strip_metadata_keys_absent; eauto.
Qed.

Lemma extra_keys_are_removed_witness :
  (exists cells',
      document_cells
        (VDict [("nbformat", VInt 4); ("metadata", VDict [("kernelspec", VStr "py")]);
                ("cells", VList [VDict [("source", VList [VStr "x"])]])])
      = Ok cells'
      /\ forall c' k,
          In c' cells' ->
          In k (subkeys "cell" ["metadata.signature"; "cell.id"]) ->
          getitem c' k = Raise GenericError)
  /\ (forall md k,
         getattr
           (VDict [("nbformat", VInt 4); ("metadata", VDict [("kernelspec", VStr "py")]);
                   ("cells", VList [VDict [("source", VList [VStr "x"])]])])
           "metadata" = Ok md ->
         In k (subkeys "metadata" ["metadata.signature"; "cell.id"]) ->
         getitem md k = Raise GenericError).
Proof.
  apply (extra_keys_are_removed
           (VDict [("nbformat", VInt 4);
                   ("metadata", VDict [("kernelspec", VStr "py"); ("signature", VStr "s")]);
                   ("cells", VList [VDict [("id", VInt 7); ("source", VList [VStr "x"])]])])
           (mkStripArgs (Some false) false ["metadata.signature"; "cell.id"]
                        false [] false 0)).
  reflexivity.
Defined.

Lemma subseq_length {A} (k l : list A) : subseq k l -> (length k <= length l)%nat.
Proof. induction 1; simpl; lia. Qed.

Lemma Forall2_eq_refl {A} (l : list A) (R : A -> A -> Prop) :
  (forall x, R x x) -> Forall2 R l l.
Proof. intros H. induction l; constructor; auto. Qed.

Lemma strip_outputs_value_from args decision outs outs1 items' :
  strip_outputs_value args decision outs = Ok outs1 ->
  outs1 = VList items' ->
  exists items kept,
    py_iter outs = Ok items
    /\ subseq kept items
    /\ Forall2 (fun o o' => o' = o \/ null_execution_count o = Ok o') kept items'.
Proof.
  intros H ->. unfold strip_outputs_value in H.
  apply bind_ok in H. destruct H as (outs_a & Ha & H).
  destruct (py_not decision).
  - apply bind_ok in Ha. destruct Ha as (items & Hi & Ha). inversion Ha. subst outs_a.
    exists items, (filter (small (max_size args)) items).
    split; auto. split; [apply subseq_filter|].
    destruct (negb (keep_count args)).
    + apply bind_ok in H. destruct H as (its & Hits & H).
      apply bind_ok in H. destruct H as (its' & Hm & H).
      simpl in Hits. inversion Hits. subst its. inversion H. subst its'.
      apply mapM_ok in Hm. eapply Forall2_impl; [|exact Hm]. intros o o' Hn. now right.
    + inversion H. apply Forall2_eq_refl. auto.
  - inversion Ha. subst outs_a. clear Ha.
    destruct (negb (keep_count args)).
    + apply bind_ok in H. destruct H as (its & Hits & H).
      apply bind_ok in H. destruct H as (its' & Hm & H).
      destruct outs as [| | | |l|]; try discriminate.
      simpl in Hits. inversion Hits. subst its. inversion H. subst its'.
      exists l, l. split; auto. split; [apply subseq_refl|].
      apply mapM_ok in Hm. eapply Forall2_impl; [|exact Hm]. intros o o' Hn. now right.
    + inversion H. subst outs.
      exists items', items'. split; auto. split; [apply subseq_refl|].
      apply Forall2_eq_refl. auto.
Qed.

Lemma strip_cell_outputs_from args keep keys cell cell' :
  strip_cell args keep keys cell = Ok cell' -> outputs_from cell cell'.
Proof.
  intros H items' Hout.
  destruct cell as [| | | | |c].
  1-5: apply strip_cell_not_dict in H; [subst cell'; discriminate|discriminate].
  rewrite strip_cell_dict in H.
  apply bind_ok in H. destruct H as (decision & _ & H).
  apply bind_ok in H. destruct H as (c1 & Hc1 & H). inversion H. subst cell'. clear H.
  destruct (pop_fields_field "outputs" keys
              (null_count_dict args "execution_count"
                 (null_count_dict args "prompt_number" c1))) as (kvs' & Hkvs & Hy).
  rewrite Hkvs in Hout. apply getitem_ok in Hout. destruct Hout as (d & Hd & Hout).
  inversion Hd. subst d. destruct (Hy _ Hout) as (x & Hx & Hxy).
  rewrite !null_count_dict_get in Hx. simpl in Hx.
  assert (x = VList items') by (destruct Hxy as [Hxy|[_ Hxy]]; [auto|discriminate]).
  subst x.
  destruct (dict_get "outputs" c) as [outs|] eqn:Hc.
  - apply bind_ok in Hc1. destruct Hc1 as (outs1 & Hs & Hc1). inversion Hc1. subst c1.
    rewrite dict_get_set_same in Hx. inversion Hx. subst outs1.
    destruct (strip_outputs_value_from _ _ _ _ _ Hs eq_refl) as (items & kept & H1 & H2 & H3).
    exists outs, items, kept. simpl. rewrite Hc. auto.
  - inversion Hc1. subst c1. congruence.
Qed.

(** X10.  Stripping never adds cells or outputs: the cells of the result
    are made from a subsequence of the cells of the document, in their
    order, and the outputs of each are a subsequence of the outputs of the
    cell it is made from, each as it was or with its [execution_count]
    nulled. *)
Theorem strip_output_never_adds :
  forall nb args nb',
    snd (strip_output nb args) = Ok nb' ->
    exists cells survivors cells',
      document_cells nb = Ok cells
      /\ document_cells nb' = Ok cells'
      /\ subseq survivors cells
      /\ Forall2 outputs_from survivors cells'
      /\ (length cells' <= length cells)%nat.
Proof.
  intros nb args nb' H.
  destruct (strip_output_ok _ _ _ H)
    as (keep & cells & survivors & cells' & _ & H1 & H2 & _ & H4 & H5).
  exists cells, survivors, cells'. apply mapM_ok in H4.
  repeat split; auto.
  - eapply Forall2_impl; [|exact H4]. intros c c' Hc.
    exact (strip_cell_outputs_from _ _ _ _ _ Hc).
  - rewrite <- (Forall2_length H4). now apply subseq_length.
Qed.

Lemma strip_output_never_adds_witness :
  exists cells survivors cells',
    document_cells (notebook [executed_cell]) = Ok cells
    /\ document_cells
         (notebook [VDict [("source", VList [VStr "1+1"]);
                           ("outputs", VList []);
                           ("execution_count", VNone)]]) = Ok cells'
    /\ subseq survivors cells
    /\ Forall2 outputs_from survivors cells'
    /\ (length cells' <= length cells)%nat.
Proof.
  apply (strip_output_never_adds (notebook [executed_cell]) default_args).
  reflexivity.
Defined.

(** ** Cells of the documented shape *)

Lemma mapM_null_dicts l :
  forallb is_dict l = true -> exists l', mapM null_execution_count l = Ok l'.
Proof.
  induction l as [|o r IH]; simpl; [eauto|].
  intros H. apply andb_true_iff in H. destruct H as [Ho Hr].
  destruct (IH Hr) as (r' & ->). destruct o; try discriminate.
  unfold null_execution_count. simpl.
  destruct (dict_mem "execution_count" d); simpl; eauto.
Qed.

Lemma forallb_filter {A} (p q : A -> bool) l :
  forallb p l = true -> forallb p (filter q l) = true.
Proof.
  induction l as [|x r IH]; simpl; auto.
  intros H. apply andb_true_iff in H. destruct H as [Hx Hr].
  destruct (q x); simpl; auto. now rewrite Hx, IH.
Qed.

Lemma strip_outputs_value_dicts args decision outs :
  forallb is_dict outs = true ->
  exists outs1, strip_outputs_value args decision (VList outs) = Ok outs1.
Proof.
  intros H. unfold strip_outputs_value.
  destruct (py_not decision); simpl.
  - destruct (keep_count args); simpl; [eauto|].
    destruct (mapM_null_dicts _ (forallb_filter _ (small (max_size args)) _ H))
      as (l' & ->). simpl. eauto.
  - destruct (keep_count args); simpl; [eauto|].
    destruct (mapM_null_dicts _ H) as (l' & ->). simpl. eauto.
Qed.

Lemma determine_keep_output_well_shaped cell default strip :
  well_shaped_cell cell = true ->
  determine_keep_output cell default strip <> Raise GenericError.
Proof.
  intros Hw. destruct cell as [| | | | |c]; try discriminate.
  simpl in Hw. apply andb_true_iff in Hw. destruct Hw as [Hmd _].
  destruct (dict_get "metadata" c) as [m|] eqn:Hm.
  - destruct m as [| | | | |md]; try discriminate.
    destruct (dict_get "init_cell" md) as [v|] eqn:Hi.
    + rewrite (determine_keep_output_init_cell _ _ _ _ _ Hm Hi). discriminate.
    + rewrite (determine_keep_output_no_init _ _ _ _ Hm Hi). unfold tags_of.
      destruct (dict_get "tags" md) as [t|]; [destruct t; try discriminate|]; simpl;
        match goal with
        | |- context [if ?b then Raise MetadataError else _] => destruct b
        end; try discriminate;
        match goal with
        | |- context [if ?b then Ok _ else _] => destruct b
        end; discriminate.
  - unfold determine_keep_output. simpl. unfold dict_mem. rewrite Hm. discriminate.
Qed.

(** X11.  On a cell of the documented shape the loop body fails in no
    other way than by the contradiction error: it returns a cell unless the
    cell's [keep_output] contradicts its tags. *)
Theorem strip_cell_total_on_well_shaped :
  forall args keep keys cell,
    well_shaped_cell cell = true ->
    strip_cell args keep keys cell <> Raise GenericError
    /\ (contradicts cell = false ->
        exists cell', strip_cell args keep keys cell = Ok cell').
Proof.
  intros args keep keys cell Hw.
  pose proof (determine_keep_output_well_shaped cell keep (strip_init_cells args) Hw) as Hd.
  pose proof (determine_keep_output_contradiction cell keep (strip_init_cells args)) as Hc.
  destruct cell as [| | | | |c]; try discriminate.
  simpl in Hw. apply andb_true_iff in Hw. destruct Hw as [_ Hout].
  rewrite strip_cell_dict.
  destruct (determine_keep_output (VDict c) keep (strip_init_cells args))
    as [decision|e] eqn:E.
  - assert (Hok : exists cell',
               (c1 <- match dict_get "outputs" c with
                      | Some outs =>
                          outs1 <- strip_outputs_value args decision outs ;;
                          Ok (dict_set "outputs" outs1 c)
                      | None => Ok c
                      end ;;
                Ok (pop_fields keys
                      (VDict (null_count_dict args "execution_count"
                                (null_count_dict args "prompt_number" c1)))))
               = Ok cell').
    { destruct (dict_get "outputs" c) as [outs|]; [|simpl; eauto].
      destruct outs as [| | | |l|]; try discriminate.
      destruct (strip_outputs_value_dicts args decision l Hout) as (outs1 & ->).
      simpl. eauto. }
    destruct Hok as (cell' & Hok). simpl. rewrite Hok. split; [discriminate|eauto].
  - cbn [bind]. destruct e; [|congruence]. split; [discriminate|].
    intros Hn. destruct Hc as [Hc _]. rewrite (Hc eq_refl) in Hn. discriminate.
Qed.

Lemma strip_cell_total_on_well_shaped_witness :
  strip_cell default_args (Some false) ["metadata.collapsed"] executed_cell
  <> Raise GenericError
  /\ (contradicts executed_cell = false ->
      exists cell',
        strip_cell default_args (Some false) ["metadata.collapsed"] executed_cell
        = Ok cell').
Proof.
  apply (strip_cell_total_on_well_shaped default_args (Some false)
           ["metadata.collapsed"] executed_cell).
  reflexivity.
Defined.

(** ** What [strip_output] leaves of the notebook *)

Lemma strip_metadata_other_key fields nb nb1 k :
  k <> "metadata" ->
  strip_metadata fields nb = Ok nb1 -> getattr nb1 k = getattr nb k.
Proof.
  intros Hk. unfold strip_metadata. destruct fields as [|f r]; intros H.
  - now inversion H.
  - bind_inv H. apply setitem_ok in H. destruct H as (d & -> & ->).
    simpl. now rewrite dict_get_set_other.
Qed.

(** X12.  [strip_output] changes no key of the notebook other than
    [cells], [worksheets] and [metadata] ([nbformat], [nbformat_minor] and
    the like are as they were), and it leaves [metadata] alone when no extra
    key starts with [metadata.]. *)
Theorem strip_output_keeps_other_keys :
  forall nb args nb',
    snd (strip_output nb args) = Ok nb' ->
    (forall k, k <> "cells" -> k <> "worksheets" -> k <> "metadata" ->
               getattr nb' k = getattr nb k)
    /\ (subkeys "metadata" (extra_keys args) = [] ->
        getattr nb' "metadata" = getattr nb "metadata").
Proof.
  intros nb args nb' H. unfold strip_output in H.
  destruct (effective_keep_output nb args) as [keep|e]; [|discriminate].
  simpl in H. bind_inv H. split.
  - intros k Hc Hw Hm.
    rewrite (_cells_other_key _ _ _ (strip_cell_str args keep _) x nb' k Hc Hw H).
    now apply (strip_metadata_other_key _ _ _ _ Hm E).
  - intros Hnone. rewrite Hnone in E. simpl in E. inversion E. subst x.
    exact (_cells_other_key _ _ _ (strip_cell_str args keep _) nb nb' "metadata"
             ltac:(discriminate) ltac:(discriminate) H).
Qed.

Lemma strip_output_keeps_other_keys_witness :
  (forall k, k <> "cells" -> k <> "worksheets" -> k <> "metadata" ->
             getattr (notebook [VDict [("source", VList [VStr "1+1"]);
                                       ("outputs", VList []);
                                       ("execution_count", VNone)]]) k
             = getattr (notebook [executed_cell]) k)
  /\ (subkeys "metadata" (extra_keys default_args) = [] ->
      getattr (notebook [VDict [("source", VList [VStr "1+1"]);
                                ("outputs", VList []);
                                ("execution_count", VNone)]]) "metadata"
      = getattr (notebook [executed_cell]) "metadata").
Proof.
  apply (strip_output_keeps_other_keys (notebook [executed_cell]) default_args).
  reflexivity.
Defined.

(** ** The cells that the filters let through *)

Lemma filterM_exact {A} (f : A -> result bool) l k :
  filterM f l = Ok k ->
  k = filter (fun x => match f x with Ok true => true | _ => false end) l.
Proof.
  revert k. induction l as [|x r IH]; intros k H; simpl in H.
  - now inversion H.
  - apply bind_ok in H. destruct H as (b & Hb & H).
    apply bind_ok in H. destruct H as (ys & Hys & H). inversion H. subst k.
    simpl. rewrite Hb. rewrite (IH _ Hys). now destruct b.
Qed.

Lemma filter_filter_and {A} (p q : A -> bool) l :
  filter q (filter p l) = filter (fun x => p x && q x) l.
Proof.
  induction l as [|x r IH]; simpl; auto.
  destruct (p x); simpl; [destruct (q x)|]; now rewrite IH.
Qed.

Lemma filter_true {A} (l : list A) : filter (fun _ => true) l = l.
Proof. induction l; simpl; congruence. Qed.

Lemma filter_concat {A} (p : A -> bool) ls :
  filter p (concat ls) = concat (map (filter p) ls).
Proof.
  induction ls as [|l r IH]; simpl; auto. now rewrite filter_app, IH.
Qed.

Section CellsExact.
Variable body : value -> result value.
Variable tag : string.
Hypothesis body_str : forall s v, body (VStr s) = Ok v -> v = VStr s.

Lemma apply_conditionals_exact conds :
  forall o o1,
    apply_conditionals tag conds o = Ok o1 ->
    conds <> [] ->
    exists d cells items,
      o = VDict d /\ dict_get "cells" d = Some cells /\ py_iter cells = Ok items
      /\ o1 = VDict (dict_set "cells" (VList (filter (accepts tag conds) items)) d).
Proof.
  induction conds as [|f r IH]; intros o o1 H Hne; [congruence|].
  simpl in H.
  apply bind_ok in H. destruct H as (cells & Hcells & H).
  apply bind_ok in H. destruct H as (kept & Hkept & H).
  apply bind_ok in H. destruct H as (o' & Ho' & H).
  apply getattr_ok in Hcells. destruct Hcells as (d & -> & Hcells).
  unfold filter_cells in Hkept.
  apply bind_ok in Hkept. destruct Hkept as (items & Hitems & Hkept).
  apply bind_ok in Hkept. destruct Hkept as (k1 & Hk1 & Hkept).
  inversion Hkept. subst kept. clear Hkept.
  apply setitem_ok in Ho'. destruct Ho' as (d0 & Hd0 & ->). inversion Hd0. subst d0.
  apply filterM_exact in Hk1.
  exists d, cells, items. repeat split; auto.
  destruct r as [|g r'].
  - simpl in H. inversion H. subst k1. do 3 f_equal.
    apply filter_ext. intros c. unfold accepts. simpl. now rewrite andb_true_r.
  - destruct (IH _ _ H) as (d1 & cells1 & items1 & Hd1 & Hc1 & Hi1 & ->); [discriminate|].
    inversion Hd1. subst d1. rewrite dict_get_set_same in Hc1. inversion Hc1. subst cells1.
    simpl in Hi1. inversion Hi1. subst items1 k1.
    rewrite dict_set_set, filter_filter_and. reflexivity.
Qed.

Lemma yield_cells_ok o o' :
  yield_cells body o = Ok o' ->
  exists items cells',
    cells_of o = Ok items /\ mapM body items = Ok cells' /\ cells_of o' = Ok cells'
    /\ (o' = o
        \/ exists d l, o = VDict d /\ dict_get "cells" d = Some (VList l)
                       /\ o' = VDict (dict_set "cells" (VList cells') d)).
Proof.
  unfold yield_cells. intros H.
  apply bind_ok in H. destruct H as (cells & Hcells & H).
  apply bind_ok in H. destruct H as (items & Hitems & H).
  apply bind_ok in H. destruct H as (items' & Hmap & H).
  apply getattr_ok in Hcells. destruct Hcells as (d & -> & Hcells).
  assert (Hof : cells_of (VDict d) = Ok items).
  { unfold cells_of. simpl. now rewrite Hcells. }
  destruct cells as [| | |s|l|kd]; try discriminate.
  - inversion H. subst o'.
    assert (items' = items) by (eapply mapM_body_strs; eauto;
                                eapply py_iter_not_list; eauto; discriminate).
    subst items'. exists items, items. auto.
  - apply setitem_ok in H. destruct H as (d0 & Hd0 & ->). inversion Hd0. subst d0.
    exists items, items'. repeat split; auto.
    + unfold cells_of. simpl. now rewrite dict_get_set_same.
    + right. exists d, l. auto.
  - inversion H. subst o'.
    assert (items' = items) by (eapply mapM_body_strs; eauto;
                                eapply py_iter_not_list; eauto; discriminate).
    subst items'. exists items, items. auto.
Qed.

Variable conds : list conditional.

Lemma filter_and_yield_exact o o' :
  filter_and_yield body tag conds o = Ok o' ->
  exists items cells',
    cells_of o = Ok items
    /\ mapM body (filter (accepts tag conds) items) = Ok cells'
    /\ cells_of o' = Ok cells'.
Proof.
  unfold filter_and_yield. intros H.
  apply bind_ok in H. destruct H as (o1 & Ho1 & H).
  destruct (yield_cells_ok _ _ H) as (items1 & cells' & Hi1 & Hmap & Hc' & _).
  destruct conds as [|f r] eqn:Hconds.
  - simpl in Ho1. inversion Ho1. subst o1.
    exists items1, cells'. repeat split; auto.
    unfold accepts. simpl. now rewrite filter_true.
  - destruct (apply_conditionals_exact _ _ _ Ho1) as (d & cells & items & -> & Hc & Hi & ->);
      [discriminate|].
    unfold cells_of in Hi1. simpl in Hi1. rewrite dict_get_set_same in Hi1.
    simpl in Hi1. inversion Hi1. subst items1.
    exists items, cells'. repeat split; auto.
    unfold cells_of. simpl. now rewrite Hc.
Qed.

Lemma worksheets_exact wss wss' :
  Forall2 (fun ws ws' => filter_and_yield body tag conds ws = Ok ws') wss wss' ->
  exists css css',
    mapM cells_of wss = Ok css /\ mapM cells_of wss' = Ok css'
    /\ mapM body (filter (accepts tag conds) (concat css)) = Ok (concat css').
Proof.
  induction 1 as [|ws ws' r r' Hws _ IH].
  - exists [], []. auto.
  - destruct IH as (css & css' & H1 & H2 & H3).
    destruct (filter_and_yield_exact _ _ Hws) as (items & cells' & Hi & Hmap & Hc').
    exists (items :: css), (cells' :: css'). simpl.
    rewrite Hi, H1, Hc', H2. simpl. repeat split; auto.
    rewrite filter_app. now apply mapM_app.
Qed.

Lemma _cells_exact nb nb' :
  _cells body tag conds nb = Ok nb' ->
  exists cells cells',
    document_cells nb = Ok cells
    /\ mapM body (filter (accepts tag conds) cells) = Ok cells'
    /\ document_cells nb' = Ok cells'.
Proof.
  intros H.
  destruct (_cells_ok body tag conds body_str nb nb' H)
    as (cells0 & survivors0 & cells0' & Hdoc & _ & _ & _ & Hdoc').
  exists cells0, cells0'. split; auto. split; auto.
  pose proof Hdoc as Hdoc0. pose proof Hdoc' as Hdoc0'.
  unfold _cells in H. unfold document_cells in Hdoc, Hdoc'.
  apply bind_ok in H. destruct H as (fmt & Hfmt & H).
  apply bind_ok in H. destruct H as (legacy & Hleg & H).
  rewrite Hfmt in Hdoc. simpl in Hdoc. rewrite Hleg in Hdoc. simpl in Hdoc.
  destruct legacy.
  - apply bind_ok in H. destruct H as (worksheets & Hws & H).
    apply bind_ok in H. destruct H as (wss & Hwss & H).
    apply bind_ok in H. destruct H as (wss' & Hmap & H).
    rewrite Hws in Hdoc. simpl in Hdoc. rewrite Hwss in Hdoc. simpl in Hdoc.
    apply bind_ok in Hdoc. destruct Hdoc as (css & Hcss & Hdoc). inversion Hdoc. subst cells0.
    apply mapM_ok in Hmap.
    destruct (worksheets_exact _ _ Hmap) as (css1 & css1' & H1 & H2 & H3).
    rewrite Hcss in H1. inversion H1. subst css1.
    apply getattr_ok in Hfmt. destruct Hfmt as (d & -> & Hfmt).
    apply getattr_ok in Hws. destruct Hws as (d0 & Hd0 & Hws). inversion Hd0. subst d0.
    destruct worksheets as [| | |s|l|kd]; try discriminate.
    + inversion H. subst nb'.
      assert (wss = []).
      { eapply (mapM_strs_fail (filter_and_yield body tag conds)).
        - eapply py_iter_not_list; eauto. discriminate.
        - apply filter_and_yield_str.
        - apply mapM_ok. exact Hmap. }
      subst wss. inversion Hmap. subst wss'. simpl in Hcss. inversion Hcss. subst css.
      simpl in H2. inversion H2. subst css1'.
      rewrite Hdoc0 in Hdoc0'. inversion Hdoc0'. subst cells0'. exact H3.
    + apply setitem_ok in H. destruct H as (d0 & Hd0' & ->). inversion Hd0'. subst d0.
      simpl in Hwss. inversion Hwss. subst wss.
      simpl in Hdoc'. rewrite dict_get_set_other in Hdoc' by discriminate.
      rewrite Hfmt in Hdoc'. simpl in Hdoc'. rewrite Hleg in Hdoc'. simpl in Hdoc'.
      rewrite dict_get_set_same in Hdoc'. simpl in Hdoc'. rewrite H2 in Hdoc'.
      simpl in Hdoc'. inversion Hdoc'. subst cells0'. exact H3.
    + inversion H. subst nb'.
      assert (wss = []).
      { eapply (mapM_strs_fail (filter_and_yield body tag conds)).
        - eapply py_iter_not_list; eauto. discriminate.
        - apply filter_and_yield_str.
        - apply mapM_ok. exact Hmap. }
      subst wss. inversion Hmap. subst wss'. simpl in Hcss. inversion Hcss. subst css.
      simpl in H2. inversion H2. subst css1'.
      rewrite Hdoc0 in Hdoc0'. inversion Hdoc0'. subst cells0'. exact H3.
  - destruct (filter_and_yield_exact _ _ H) as (items & cells' & Hi & Hmap & Hc').
    rewrite Hi in Hdoc. inversion Hdoc. subst cells0.
    assert (Hfmt' : getattr nb' "nbformat" = getattr nb "nbformat").
    { destruct (filter_and_yield_ok body tag body_str conds _ _ H) as
          (d & its & survs & cs' & -> & _ & _ & _ & _ & _ & Ho').
      destruct Ho' as [->|[_ ->]]; auto. now apply nbformat_kept. }
    rewrite Hfmt', Hfmt in Hdoc'. simpl in Hdoc'. rewrite Hleg in Hdoc'. simpl in Hdoc'.
    rewrite Hc' in Hdoc'. inversion Hdoc'. subst cells0'. exact Hmap.
Qed.

End CellsExact.

(** X13.  The cells of the document that [strip_output] returns are, in
    their order, the cells of the document given on which every filter
    returns [True], each put through the loop body; for [nbformat] below 4
    the worksheets are filtered one by one, which comes to the same cells.
    With no filter configured no cell is dropped. *)
Theorem strip_output_filters_exactly :
  forall nb args nb',
    snd (strip_output nb args) = Ok nb' ->
    exists keep cells cells',
      effective_keep_output nb args = Ok keep
      /\ document_cells nb = Ok cells
      /\ document_cells nb' = Ok cells'
      /\ mapM (strip_cell args keep (subkeys "cell" (extra_keys args)))
              (filter (accepts (last_tag args) (build_conditionals args)) cells)
         = Ok cells'
      /\ (drop_empty_cells args = false -> drop_tagged_cells args = [] ->
          length cells' = length cells).
Proof.
  intros nb args nb' H. unfold strip_output in H.
  destruct (effective_keep_output nb args) as [keep|e] eqn:Hkeep; [|discriminate].
  simpl in H. apply bind_ok in H. destruct H as (nb1 & Hnb1 & H).
  destruct (_cells_exact _ _ (strip_cell_str args keep _) _ _ _ H)
    as (cells & cells' & Hdoc & Hmap & Hdoc').
  rewrite (strip_metadata_cells _ _ _ Hnb1) in Hdoc.
  exists keep, cells, cells'. repeat split; auto.
  intros He Ht. unfold build_conditionals in Hmap. rewrite He, Ht in Hmap.
  simpl in Hmap. unfold accepts in Hmap. simpl in Hmap. rewrite filter_true in Hmap.
  apply mapM_ok in Hmap. symmetry. exact (Forall2_length Hmap).
Qed.

Lemma strip_output_filters_exactly_witness :
  exists keep cells cells',
    effective_keep_output
      (notebook [VDict [("source", VList [VStr " "])]; VDict [("source", VList [VStr "x"])]])
      (mkStripArgs (Some false) false [] true [] false 0) = Ok keep
    /\ document_cells
         (notebook [VDict [("source", VList [VStr " "])];
                    VDict [("source", VList [VStr "x"])]]) = Ok cells
    /\ document_cells (notebook [VDict [("source", VList [VStr "x"])]]) = Ok cells'
    /\ mapM (strip_cell (mkStripArgs (Some false) false [] true [] false 0) keep
               (subkeys "cell" []))
            (filter (accepts (last_tag (mkStripArgs (Some false) false [] true [] false 0))
                             (build_conditionals
                                (mkStripArgs (Some false) false [] true [] false 0)))
                    cells)
       = Ok cells'
    /\ (drop_empty_cells (mkStripArgs (Some false) false [] true [] false 0) = false ->
        drop_tagged_cells (mkStripArgs (Some false) false [] true [] false 0) = [] ->
        length cells' = length cells).
Proof.
  apply (strip_output_filters_exactly
           (notebook [VDict [("source", VList [VStr " "])];
                      VDict [("source", VList [VStr "x"])]])
           (mkStripArgs (Some false) false [] true [] false 0)).
  reflexivity.
Defined.

(** ** Only the last tag is read *)

Lemma mapM_ext {A B} (f g : A -> result B) l :
  (forall x, f x = g x) -> mapM f l = mapM g l.
Proof. intros H. induction l as [|x r IH]; simpl; auto. now rewrite H, IH. Qed.

Lemma apply_conditionals_app tag a b o :
  apply_conditionals tag (a ++ b)%list o
  = (o1 <- apply_conditionals tag a o ;; apply_conditionals tag b o1).
Proof.
  revert o. induction a as [|f r IH]; intros o; simpl; auto.
  destruct (getattr o "cells") as [cells|e]; simpl; auto.
  destruct (filter_cells tag f cells) as [kept|e]; simpl; auto.
  destruct (setitem o "cells" kept) as [o'|e]; simpl; auto.
Qed.

Lemma apply_conditionals_passed tag f r d kept :
  Forall (passes tag [f]) kept ->
  apply_conditionals tag (f :: r) (VDict (dict_set "cells" (VList kept) d))
  = apply_conditionals tag r (VDict (dict_set "cells" (VList kept) d)).
Proof.
  intros Hp. cbn [apply_conditionals]. unfold getattr. rewrite dict_get_set_same.
  cbn [bind]. unfold filter_cells. cbn [py_iter bind].
  rewrite filterM_all.
  - cbn [bind setitem]. now rewrite dict_set_set.
  - eapply Forall_impl; [|exact Hp]. intros c Hc. now inversion Hc.
Qed.

(** A filter applied a second time removes nothing more. *)
Lemma apply_conditionals_twice tag f r o :
  apply_conditionals tag (f :: f :: r) o = apply_conditionals tag (f :: r) o.
Proof.
  pose proof (apply_conditionals_app tag [f] (f :: r) o) as H2.
  pose proof (apply_conditionals_app tag [f] r o) as H1.
  cbn [app] in H1, H2. rewrite H1, H2.
  destruct (apply_conditionals tag [f] o) as [o1|e] eqn:E1; cbn [bind]; [|reflexivity].
  destruct (apply_conditionals_ok tag [f] o o1 E1) as
      (d & cells & items & kept & -> & Hc & Hi & Hs & Hp & ->); [discriminate|].
  now apply apply_conditionals_passed.
Qed.

Lemma apply_conditionals_repeat tag f n o :
  apply_conditionals tag (repeat f (S n)) o = apply_conditionals tag [f] o.
Proof.
  induction n as [|n IH]; auto.
  change (repeat f (S (S n))) with (f :: f :: repeat f n).
  rewrite apply_conditionals_twice. exact IH.
Qed.

Lemma map_const_repeat {A B} (b : B) (l : list A) :
  map (fun _ => b) l = repeat b (length l).
Proof. induction l; simpl; congruence. Qed.

Lemma _cells_conds_ext body tag c1 c2 nb :
  (forall o, apply_conditionals tag c1 o = apply_conditionals tag c2 o) ->
  _cells body tag c1 nb = _cells body tag c2 nb.
Proof.
  intros H. unfold _cells.
  assert (Hfy : forall o, filter_and_yield body tag c1 o = filter_and_yield body tag c2 o).
  { intros o. unfold filter_and_yield. now rewrite H. }
  destruct (getattr nb "nbformat") as [fmt|e]; simpl; auto.
  destruct (nbformat_lt_4 fmt) as [[|]|e]; simpl; auto.
  destruct (getattr nb "worksheets") as [ws|e]; simpl; auto.
  destruct (py_iter ws) as [wss|e]; simpl; auto.
  now rewrite (mapM_ext _ _ wss Hfy).
Qed.

(** X14.  Only the last entry of [drop_tagged_cells] has an effect: the
    call returns what it returns when that tag alone is configured, since
    every filter made for a tag reads the variable [tag_to_drop] after the
    loop has left the last tag in it. *)
Theorem drop_tagged_cells_only_last_counts :
  forall nb args,
    drop_tagged_cells args <> [] ->
    snd (strip_output nb args)
    = snd (strip_output nb (with_tags args [last_tag args])).
Proof.
  intros nb args Hne. unfold strip_output.
  change (effective_keep_output nb (with_tags args [last_tag args]))
    with (effective_keep_output nb args).
  destruct (effective_keep_output nb args) as [keep|e]; simpl; auto.
  destruct (strip_metadata (subkeys "metadata" (extra_keys args)) nb) as [nb1|e];
    simpl; auto.
  change (last_tag (with_tags args [last_tag args])) with (last_tag args).
  apply _cells_conds_ext. intros o. unfold build_conditionals. simpl.
  rewrite !apply_conditionals_app.
  destruct (apply_conditionals (last_tag args)
              (if drop_empty_cells args then [SourceNotBlank] else []) o) as [o1|e];
    simpl; auto.
  rewrite map_const_repeat.
  destruct (drop_tagged_cells args) as [|t r]; [congruence|].
  apply (apply_conditionals_repeat (last_tag args) TagAbsent (length r) o1).
Qed.

Lemma drop_tagged_cells_only_last_counts_witness :
  snd (strip_output
         (notebook [VDict [("source", VList [VStr "x"]);
                           ("metadata", VDict [("tags", VList [VStr "a"])])]])
         (mkStripArgs (Some false) false [] false ["a"; "b"] false 0))
  = snd (strip_output
         (notebook [VDict [("source", VList [VStr "x"]);
                           ("metadata", VDict [("tags", VList [VStr "a"])])]])
         (mkStripArgs (Some false) false [] false ["b"] false 0)).
Proof.
  apply (drop_tagged_cells_only_last_counts
           (notebook [VDict [("source", VList [VStr "x"]);
                             ("metadata", VDict [("tags", VList [VStr "a"])])]])
           (mkStripArgs (Some false) false [] false ["a"; "b"] false 0)).
  discriminate.
Defined.

(** ** Keeping everything *)

Lemma strip_cell_kept args keep cell :
  keep_count args = true ->
  keeps_cell keep (strip_init_cells args) cell = true ->
  strip_cell args keep [] cell = Ok cell.
Proof.
  intros Hk Hkeeps. unfold keeps_cell in Hkeeps.
  destruct (determine_keep_output cell keep (strip_init_cells args))
    as [decision|e] eqn:Hd; [|discriminate].
  apply negb_true_iff in Hkeeps.
  unfold strip_cell. rewrite Hd. cbn [bind].
  assert (Hc : forall k, exists b, py_contains k cell = Ok b).
  { intros k. unfold determine_keep_output in Hd.
    destruct cell; simpl in *; try discriminate; eauto. }
  destruct (Hc "outputs") as (b1 & ->). cbn [bind].
  assert (H1 : (if b1 then strip_outputs args decision cell else Ok cell) = Ok cell).
  { destruct b1; auto. unfold strip_outputs. rewrite Hkeeps, Hk. reflexivity. }
  rewrite H1. cbn [bind].
  assert (Hnull : forall name, null_count args name cell = Ok cell).
  { intros name. unfold null_count. rewrite Hk. destruct (Hc name) as (b & ->).
    cbn [bind negb]. now rewrite andb_false_r. }
  rewrite Hnull. cbn [bind]. rewrite Hnull. reflexivity.
Qed.

Lemma filter_and_yield_fixed body tag o items :
  cells_of o = Ok items ->
  Forall (fun c => body c = Ok c) items ->
  filter_and_yield body tag [] o = Ok o.
Proof.
  intros Hi Hfix. unfold filter_and_yield. simpl. unfold yield_cells.
  unfold cells_of in Hi. apply bind_ok in Hi. destruct Hi as (cells & Hc & Hi).
  rewrite Hc. simpl. rewrite Hi. simpl. rewrite (mapM_fixed _ _ Hfix). simpl.
  destruct cells as [| | | |l|]; auto.
  simpl in Hi. inversion Hi. subst l.
  apply getattr_ok in Hc. destruct Hc as (d & -> & Hc). simpl.
  now rewrite (dict_set_get_id _ _ _ Hc).
Qed.

Lemma _cells_fixed body tag nb cells :
  document_cells nb = Ok cells ->
  Forall (fun c => body c = Ok c) cells ->
  _cells body tag [] nb = Ok nb.
Proof.
  intros Hdoc Hfix. unfold document_cells in Hdoc. unfold _cells.
  apply bind_ok in Hdoc. destruct Hdoc as (fmt & Hfmt & Hdoc).
  apply bind_ok in Hdoc. destruct Hdoc as (legacy & Hleg & Hdoc).
  rewrite Hfmt. simpl. rewrite Hleg. simpl. destruct legacy.
  - apply bind_ok in Hdoc. destruct Hdoc as (worksheets & Hws & Hdoc).
    apply bind_ok in Hdoc. destruct Hdoc as (wss & Hwss & Hdoc).
    apply bind_ok in Hdoc. destruct Hdoc as (css & Hcss & Hdoc).
    inversion Hdoc. subst cells. clear Hdoc.
    rewrite Hws. simpl. rewrite Hwss. simpl.
    assert (Hall : Forall (fun ws => filter_and_yield body tag [] ws = Ok ws) wss).
    { clear Hwss. apply mapM_ok in Hcss. revert Hfix.
      induction Hcss as [|ws items r css' Hi _ IH]; intros Hfix; constructor.
      - simpl in Hfix. apply Forall_app in Hfix. destruct Hfix as [Hf _].
        eapply filter_and_yield_fixed; eauto.
      - apply IH. simpl in Hfix. apply Forall_app in Hfix. tauto. }
    rewrite (mapM_fixed _ _ Hall). simpl.
    destruct worksheets as [| | | |l|]; auto.
    simpl in Hwss. inversion Hwss. subst l.
    apply getattr_ok in Hws. destruct Hws as (d & -> & Hws). simpl.
    now rewrite (dict_set_get_id _ _ _ Hws).
  - eapply filter_and_yield_fixed; eauto.
Qed.

(** X15.  With [keep_count] set, no extra key processed, no filter
    configured and every cell deciding to keep its outputs, [strip_output]
    succeeds and returns the document as it is. *)
Theorem strip_output_keeps_everything :
  forall nb args keep cells,
    keep_count args = true ->
    forallb invalid_extra_key (extra_keys args) = true ->
    drop_empty_cells args = false ->
    drop_tagged_cells args = [] ->
    effective_keep_output nb args = Ok keep ->
    document_cells nb = Ok cells ->
    forallb (keeps_cell keep (strip_init_cells args)) cells = true ->
    snd (strip_output nb args) = Ok nb.
Proof.
  intros nb args keep cells Hk Hkeys He Ht Hkeep Hdoc Hall.
  unfold strip_output. rewrite Hkeep. rewrite !(subkeys_all_invalid _ _ Hkeys).
  unfold build_conditionals. rewrite He, Ht. simpl.
  apply (_cells_fixed _ _ _ cells Hdoc).
  apply Forall_forall. intros c Hc. rewrite forallb_forall in Hall.
  apply strip_cell_kept; auto.
Qed.

Lemma strip_output_keeps_everything_witness :
  snd (strip_output (notebook [executed_cell])
         (mkStripArgs (Some true) true ["bogus"] false [] false 0))
  = Ok (notebook [executed_cell]).
Proof.
  apply (strip_output_keeps_everything
           (notebook [executed_cell])
           (mkStripArgs (Some true) true ["bogus"] false [] false 0)
           (Some true) [executed_cell]); reflexivity.
Defined.

(** ** [strip_zeppelin_output] *)

Lemma clear_results_idem p p' :
  clear_results p = Ok p' -> clear_results p' = Ok p'.
Proof.
  unfold clear_results. intros H. bind_inv H. destruct x.
  - apply setitem_ok in H. destruct H as (d & -> & ->). simpl.
    unfold dict_mem. rewrite dict_get_set_same. simpl. now rewrite dict_set_set.
  - inversion H. subst p'. now rewrite E.
Qed.

Lemma clear_results_cleared p p' :
  clear_results p = Ok p' -> results_cleared p p'.
Proof.
  unfold clear_results, results_cleared. intros H. bind_inv H. destruct x.
  - apply setitem_ok in H. destruct H as (d & -> & ->). repeat split.
    + intros k Hk. simpl. now rewrite dict_get_set_other.
    + intros _. simpl. now rewrite dict_get_set_same.
    + intros Hf. rewrite Hf in E. discriminate.
  - inversion H. subst p'. repeat split; auto.
    intros Ht. rewrite Ht in E. discriminate.
Qed.

Lemma clear_results_str s v : clear_results (VStr s) = Ok v -> v = VStr s.
Proof.
  unfold clear_results. simpl. destruct (is_substring "results" s); simpl.
  - discriminate.
  - intros H. now inversion H.
Qed.

Lemma mapM_clear_strs items items' :
  Forall is_str items -> mapM clear_results items = Ok items' -> items' = items.
Proof.
  intros Hs H. apply mapM_ok in H. induction H as [|x y r r' Hxy _ IH]; auto.
  inversion Hs as [|? ? [s ->] Hr]; subst.
  apply clear_results_str in Hxy. subst y. f_equal. auto.
Qed.

(** X16.  [strip_zeppelin_output] is idempotent: run on the document it
    returned, it returns that document. *)
Theorem strip_zeppelin_output_idempotent :
  forall nb nb',
    strip_zeppelin_output nb = Ok nb' ->
    strip_zeppelin_output nb' = Ok nb'.
Proof.
  intros nb nb' H. pose proof H as H0. unfold strip_zeppelin_output in H.
  apply bind_ok in H. destruct H as (paragraphs & Hp & H).
  apply bind_ok in H. destruct H as (items & Hi & H).
  apply bind_ok in H. destruct H as (items' & Hm & H).
  destruct paragraphs as [| | |s|l|kd]; try discriminate.
  - inversion H. subst nb'. exact H0.
  - apply setitem_ok in H. destruct H as (d & -> & ->).
    unfold strip_zeppelin_output. simpl. rewrite dict_get_set_same. simpl.
    assert (Hfix : Forall (fun p => clear_results p = Ok p) items').
    { apply mapM_ok in Hm. eapply Forall2_Forall_r; [exact Hm|].
      intros p p' _ Hpp. now apply clear_results_idem in Hpp. }
    rewrite (mapM_fixed _ _ Hfix). simpl. now rewrite dict_set_set.
  - inversion H. subst nb'. exact H0.
Qed.

Lemma strip_zeppelin_output_idempotent_witness :
  strip_zeppelin_output
    (VDict [("paragraphs", VList [VDict [("text", VStr "1+1"); ("results", VDict [])]])])
  = Ok (VDict [("paragraphs",
                VList [VDict [("text", VStr "1+1"); ("results", VDict [])]])]).
Proof.
  apply (strip_zeppelin_output_idempotent
           (VDict [("paragraphs",
                    VList [VDict [("text", VStr "1+1");
                                  ("results", VDict [("code", VStr "SUCCESS")])]])])).
  reflexivity.
Defined.

(** X17.  After a successful [strip_zeppelin_output] the document has the
    paragraphs it had, one for one: [results] is the empty mapping where a
    paragraph had the key, every other key of a paragraph is as it was, and
    so is every key of the document other than [paragraphs]. *)
Theorem strip_zeppelin_output_clears_results :
  forall nb nb',
    strip_zeppelin_output nb = Ok nb' ->
    (forall k, k <> "paragraphs" -> getitem nb' k = getitem nb k)
    /\ exists paragraphs paragraphs' items items',
        getitem nb "paragraphs" = Ok paragraphs /\ py_iter paragraphs = Ok items
        /\ getitem nb' "paragraphs" = Ok paragraphs' /\ py_iter paragraphs' = Ok items'
        /\ Forall2 results_cleared items items'.
Proof.
  intros nb nb' H. unfold strip_zeppelin_output in H.
  apply bind_ok in H. destruct H as (paragraphs & Hp & H).
  apply bind_ok in H. destruct H as (items & Hi & H).
  apply bind_ok in H. destruct H as (items' & Hm & H).
  assert (Hrel : Forall2 results_cleared items items').
  { apply mapM_ok in Hm. eapply Forall2_impl; [|exact Hm].
    intros p p' Hpp. now apply clear_results_cleared. }
  destruct paragraphs as [| | |s|l|kd]; try discriminate.
  - inversion H. subst nb'. split; auto.
    assert (items' = items) by (eapply mapM_clear_strs; eauto;
                                eapply py_iter_not_list; eauto; discriminate).
    subst items'. exists (VStr s), (VStr s), items, items. auto.
  - apply setitem_ok in H. destruct H as (d & -> & ->). split.
    + intros k Hk. simpl. now rewrite dict_get_set_other.
    + exists (VList l), (VList items'), items, items'. repeat split; auto.
      simpl. now rewrite dict_get_set_same.
  - inversion H. subst nb'. split; auto.
    assert (items' = items) by (eapply mapM_clear_strs; eauto;
                                eapply py_iter_not_list; eauto; discriminate).
    subst items'. exists (VDict kd), (VDict kd), items, items. auto.
Qed.

Lemma strip_zeppelin_output_clears_results_witness :
  (forall k, k <> "paragraphs" ->
             getitem (VDict [("name", VStr "note");
                             ("paragraphs", VList [VDict [("results", VDict [])]])]) k
             = getitem (VDict [("name", VStr "note");
                               ("paragraphs",
                                VList [VDict [("results",
                                               VDict [("code", VStr "SUCCESS")])]])]) k)
  /\ exists paragraphs paragraphs' items items',
      getitem (VDict [("name", VStr "note");
                      ("paragraphs",
                       VList [VDict [("results", VDict [("code", VStr "SUCCESS")])]])])
              "paragraphs" = Ok paragraphs
      /\ py_iter paragraphs = Ok items
      /\ getitem (VDict [("name", VStr "note");
                         ("paragraphs", VList [VDict [("results", VDict [])]])])
                 "paragraphs" = Ok paragraphs'
      /\ py_iter paragraphs' = Ok items'
      /\ Forall2 results_cleared items items'.
Proof.
  apply (strip_zeppelin_output_clears_results
           (VDict [("name", VStr "note");
                   ("paragraphs",
                    VList [VDict [("results", VDict [("code", VStr "SUCCESS")])]])])).
  reflexivity.
Defined.

(** X18.  [strip_zeppelin_output] succeeds on every document whose
    [paragraphs] are a list of mappings, and fails on a document without the
    key [paragraphs]. *)
Theorem strip_zeppelin_output_total_on_shape :
  forall d,
    (forall ps, dict_get "paragraphs" d = Some (VList ps) ->
                forallb is_dict ps = true ->
                exists nb', strip_zeppelin_output (VDict d) = Ok nb')
    /\ (dict_get "paragraphs" d = None ->
        strip_zeppelin_output (VDict d) = Raise GenericError).
Proof.
  intros d. split.
  - intros ps Hp Hd. unfold strip_zeppelin_output. simpl. rewrite Hp. simpl.
    assert (Hm : exists ps', mapM clear_results ps = Ok ps').
    { clear Hp. induction ps as [|p r IH]; simpl; [eauto|].
      simpl in Hd. apply andb_true_iff in Hd. destruct Hd as [Hp Hr].
      destruct (IH Hr) as (r' & ->). destruct p; try discriminate.
      unfold clear_results. simpl. destruct (dict_mem "results" d0); simpl; eauto. }
    destruct Hm as (ps' & ->). simpl. eauto.
  - intros Hp. unfold strip_zeppelin_output. simpl. now rewrite Hp.
Qed.

Lemma strip_zeppelin_output_total_on_shape_witness :
  (exists nb',
      strip_zeppelin_output
        (VDict [("paragraphs", VList [VDict [("text", VStr "1+1")]])]) = Ok nb')
  /\ strip_zeppelin_output (VDict [("name", VStr "note")]) = Raise GenericError.
Proof.
  split.
  - destruct (strip_zeppelin_output_total_on_shape
                [("paragraphs", VList [VDict [("text", VStr "1+1")]])]) as [H _].
    apply (H [VDict [("text", VStr "1+1")]]); reflexivity.
  - destruct (strip_zeppelin_output_total_on_shape [("name", VStr "note")]) as [_ H].
    apply H. reflexivity.
Defined.

(** ** The extra keys, sorted *)

Lemma valid_extra_key_namespace key :
  invalid_extra_key key = false ->
  exists ns sub, split_dot key = Some (ns, sub) /\ (ns = "cell" \/ ns = "metadata").
Proof.
  unfold invalid_extra_key. destruct (split_dot key) as [[ns sub]|]; [|discriminate].
  intros H. apply negb_false_iff, orb_true_iff in H.
  exists ns, sub. split; auto.
  destruct H as [H|H]; apply String.eqb_eq in H; auto.
Qed.

(** X19.  Every entry of [extra_keys] is either warned about or filed
    under exactly one of the two namespaces; the entries of a namespace keep
    the order they were given in, and an entry [cell.P] or [metadata.P] is
    filed with the whole of [P] as its path, further dots included. *)
Theorem extra_keys_are_partitioned :
  forall keys,
    (length (warnings keys) + length (subkeys "cell" keys)
     + length (subkeys "metadata" keys) = length keys)%nat
    /\ (forall more ns, subkeys ns (keys ++ more)%list
                        = (subkeys ns keys ++ subkeys ns more)%list)
    /\ (forall path, subkeys "cell" (("cell." ++ path)%string :: keys) = path :: subkeys "cell" keys
                     /\ subkeys "metadata" (("cell." ++ path)%string :: keys)
                        = subkeys "metadata" keys)
    /\ (forall path, subkeys "metadata" (("metadata." ++ path)%string :: keys)
                     = path :: subkeys "metadata" keys
                     /\ subkeys "cell" (("metadata." ++ path)%string :: keys) = subkeys "cell" keys).
Proof.
  intros keys. split; [|split; [|split]].
  - unfold warnings. induction keys as [|k r IH]; simpl; auto.
    destruct (invalid_extra_key k) eqn:E; simpl.
    + lia.
    + destruct (valid_extra_key_namespace k E) as (ns & sub & -> & [-> | ->]); simpl; lia.
  - intros more ns. apply subkeys_app.
  - intros path. split; reflexivity.
  - intros path. split; reflexivity.
Qed.

(** ** Metadata that is not a mapping *)

(** X20.  A cell whose [metadata] is there but is not a mapping ([null],
    a list, a string, a number) makes [determine_keep_output] fail: the
    default is not used for it. *)
Theorem determine_keep_output_needs_mapping :
  forall c m default strip,
    dict_get "metadata" c = Some m ->
    is_dict m = false ->
    determine_keep_output (VDict c) default strip = Raise GenericError.
Proof.
  intros c m default strip Hm Hd. unfold determine_keep_output. simpl.
  unfold dict_mem. rewrite Hm. simpl.
  destruct m as [| | |s|l|md]; simpl; try reflexivity; try discriminate.
  - destruct (is_substring "init_cell" s); reflexivity.
  - destruct (existsb (value_is_str "init_cell") l); reflexivity.
Qed.

Lemma determine_keep_output_needs_mapping_witness :
  determine_keep_output (VDict [("metadata", VNone)]) (Some true) false
  = Raise GenericError.
Proof.
  apply (determine_keep_output_needs_mapping [("metadata", VNone)] VNone (Some true) false);
    reflexivity.
Defined.

(** ** Instances *)

(** The nested path of the docstring example resolves, and popping it
    removes one entry. *)
Lemma pop_recursive_removes_entries_witness :
  (bindings (snd (pop_recursive
                    (VDict [("a", VDict [("b", VInt 1); ("c", VInt 2)])]) "a.c" VNone))
   < bindings (VDict [("a", VDict [("b", VInt 1); ("c", VInt 2)])]))%nat.
Proof.
  apply (pop_recursive_removes_entries
           (VDict [("a", VDict [("b", VInt 1); ("c", VInt 2)])]) "a.c" VNone).
  reflexivity.
Defined.

Lemma pop_recursive_shrinks_size_witness :
  get_size (snd (pop_recursive
                   (VDict [("a", VDict [("b", VStr "xy"); ("c", VInt 2)])]) "a.b" VNone))
  + get_size (fst (pop_recursive
                     (VDict [("a", VDict [("b", VStr "xy"); ("c", VInt 2)])]) "a.b" VNone))
  <= get_size (VDict [("a", VDict [("b", VStr "xy"); ("c", VInt 2)])]).
Proof.
  apply (pop_recursive_shrinks_size
           (VDict [("a", VDict [("b", VStr "xy"); ("c", VInt 2)])]) "a.b" VNone).
  reflexivity.
Defined.

Lemma get_size_zero_iff_hollow_witness :
  get_size (VDict [("data", VDict []); ("text", VList [VStr ""])]) = 0
  /\ small (-1) (VDict [("data", VDict []); ("text", VList [VStr ""])]) = false.
Proof.
  destruct (get_size_zero_iff_hollow
              (VDict [("data", VDict []); ("text", VList [VStr ""])]))
    as (_ & Hz & _ & Hneg).
  split.
  - apply Hz. reflexivity.
  - apply Hneg. lia.
Defined.

(** * The call as a whole *)

(** ** Extra keys that are not valid *)

(** The test of the loop over [args.extra_keys], in the words of the
    paths: no dot, or a root segment (what comes before the first dot) other
    than ["cell"] and ["metadata"]. *)
Lemma invalid_extra_key_spec key :
  invalid_extra_key key = true <->
  (~ In dot (list_ascii_of_string key)
   \/ exists root rest,
        key = root ++ String dot rest
        /\ ~ In dot (list_ascii_of_string root)
        /\ root <> "metadata" /\ root <> "cell").
Proof.
  unfold invalid_extra_key. destruct (split_dot key) as [[h t]|] eqn:Hs.
  - split.
    + intros H. right. exists h, t.
      apply negb_true_iff, orb_false_iff in H. destruct H as [Hc Hm].
      apply String.eqb_neq in Hc, Hm.
      apply split_dot_some in Hs. destruct Hs as [-> Hh].
      repeat split; auto. now apply no_dot_In.
    + intros [H|(root & rest & Heq & Hroot & Hm & Hc)].
      * apply no_dot_In, split_dot_none in H. congruence.
      * apply no_dot_In in Hroot.
        rewrite (proj2 (split_dot_some key root rest) (conj Heq Hroot)) in Hs.
        inversion Hs. subst h t.
        apply negb_true_iff, orb_false_iff. split; now apply String.eqb_neq.
  - split; [|reflexivity]. intros _. left. now apply no_dot_In, split_dot_none.
Qed.

Lemma subkeys_filed ns path keys :
  invalid_extra_key (ns ++ String dot path) = false ->
  has_dot ns = false ->
  In (ns ++ String dot path) keys -> In path (subkeys ns keys).
Proof.
  intros Hv Hns Hin. apply in_split in Hin. destruct Hin as (a & b & ->).
  rewrite subkeys_app. apply in_or_app. right. simpl. rewrite Hv.
  rewrite (proj2 (split_dot_some _ ns path) (conj eq_refl Hns)).
  rewrite String.eqb_refl. now left.
Qed.

(** After a successful [strip_output] the paths of the valid extra keys
    are keys of no cell and of no notebook metadata. *)
Lemma strip_output_keys_absent nb args nb' :
  snd (strip_output nb args) = Ok nb' ->
  (exists cells',
      document_cells nb' = Ok cells'
      /\ forall c' k, In c' cells' -> In k (subkeys "cell" (extra_keys args)) ->
                      getitem c' k = Raise GenericError)
  /\ (forall md k, getattr nb' "metadata" = Ok md ->
                   In k (subkeys "metadata" (extra_keys args)) ->
                   getitem md k = Raise GenericError).
Proof.
  intros H. split.
  - destruct (strip_output_ok _ _ _ H)
      as (keep & cells & survivors & cells' & _ & _ & _ & _ & Hmap & Hdoc).
    exists cells'. split; auto. intros c' k Hc' Hk.
    apply mapM_ok in Hmap. destruct (Forall2_In_r _ _ _ _ Hmap Hc') as (c & _ & Hc).
    simpl in Hc. destruct c as [| | | | |d].
    1-5: apply strip_cell_not_dict in Hc; [subst c'; reflexivity|discriminate].
    rewrite strip_cell_dict in Hc.
    apply bind_ok in Hc. destruct Hc as (decision & _ & Hc).
    apply bind_ok in Hc. destruct Hc as (c1 & _ & Hc). inversion Hc.
    destruct (pop_fields_keys_absent (subkeys "cell" (extra_keys args))
                (null_count_dict args "execution_count"
                   (null_count_dict args "prompt_number" c1)))
      as (kvs' & -> & Habs).
    simpl. now rewrite (Habs k Hk).
  - intros md k Hmd Hk. unfold strip_output in H.
    destruct (effective_keep_output nb args) as [keep|e]; [|discriminate].
    simpl in H. apply bind_ok in H. destruct H as (nb1 & Hnb1 & H).
    pose proof (_cells_other_key _ _ _ (strip_cell_str args keep _) nb1 nb' "metadata"
                  ltac:(discriminate) ltac:(discriminate) H) as Hsame.
    rewrite Hsame in Hmd.
    eapply strip_metadata_keys_absent; eauto.
Qed.

(** C8, as amended.  An entry of [extra_keys] with no dot, or whose root
    segment is neither ["metadata"] nor ["cell"], is skipped: it is filed
    under neither namespace, and the call returns what it returns without
    the entry (the same document, or the same failure), so that the entry
    makes nothing fail and removes nothing.  Its warning,
    [Ignoring invalid extra key `key`] and a line feed, is written between
    those of the entries before and after it, once the notebook's
    [keep_output] has been resolved; where that lookup fails the call has
    failed before anything is written.  The other entries are processed as
    ever: an entry [metadata.P] or [cell.P] among them is filed with the path
    [P], and after a successful call [P] is a key of no notebook metadata, or
    of no cell. *)
Theorem invalid_extra_key_skipped :
  forall nb args pre key post,
    extra_keys args = (pre ++ key :: post)%list ->
    (~ In dot (list_ascii_of_string key)
     \/ exists root rest,
          key = root ++ String dot rest
          /\ ~ In dot (list_ascii_of_string root)
          /\ root <> "metadata" /\ root <> "cell") ->
    subkeys "metadata" (extra_keys args) = subkeys "metadata" (pre ++ post)%list
    /\ subkeys "cell" (extra_keys args) = subkeys "cell" (pre ++ post)%list
    /\ snd (strip_output nb args)
       = snd (strip_output nb (with_extra_keys args (pre ++ post)%list))
    /\ fst (strip_output nb args)
       = match effective_keep_output nb args with
         | Ok _ =>
             (warnings pre
              ++ ("Ignoring invalid extra key `" ++ key ++ "`"
                  ++ String (ascii_of_nat 10) "")%string
              :: warnings post)%list
         | Raise _ => []
         end
    /\ (forall path,
           In ("metadata." ++ path)%string (pre ++ post)%list ->
           In path (subkeys "metadata" (extra_keys args)))
    /\ (forall path,
           In ("cell." ++ path)%string (pre ++ post)%list ->
           In path (subkeys "cell" (extra_keys args)))
    /\ (forall nb',
           snd (strip_output nb args) = Ok nb' ->
           (forall path md,
               In ("metadata." ++ path)%string (pre ++ post)%list ->
               getattr nb' "metadata" = Ok md ->
               getitem md path = Raise GenericError)
           /\ exists cells',
               document_cells nb' = Ok cells'
               /\ forall path c',
                   In ("cell." ++ path)%string (pre ++ post)%list ->
                   In c' cells' ->
                   getitem c' path = Raise GenericError).
Proof.
  intros nb args pre key post Hkeys Hspec.
  apply invalid_extra_key_spec in Hspec. rename Hspec into Hinv.
  assert (Hmd : forall path,
             In ("metadata." ++ path)%string (pre ++ post)%list ->
             In path (subkeys "metadata" (extra_keys args))).
  { intros path Hin. rewrite Hkeys, (subkeys_skip _ pre key post Hinv).
    apply (subkeys_filed "metadata" path); [reflexivity|reflexivity|exact Hin]. }
  assert (Hcell : forall path,
             In ("cell." ++ path)%string (pre ++ post)%list ->
             In path (subkeys "cell" (extra_keys args))).
  { intros path Hin. rewrite Hkeys, (subkeys_skip _ pre key post Hinv).
    apply (subkeys_filed "cell" path); [reflexivity|reflexivity|exact Hin]. }
  split; [|split; [|split; [|split; [|split; [|split]]]]]; auto.
  - rewrite Hkeys. now apply subkeys_skip.
  - rewrite Hkeys. now apply subkeys_skip.
  - unfold strip_output.
    change (effective_keep_output nb (with_extra_keys args (pre ++ post)%list))
      with (effective_keep_output nb args).
    destruct (effective_keep_output nb args) as [keep|e]; simpl; auto.
    rewrite Hkeys, !(subkeys_skip _ pre key post Hinv). reflexivity.
  - unfold strip_output.
    destruct (effective_keep_output nb args) as [keep|e]; simpl; auto.
    rewrite Hkeys. now apply warnings_skip.
  - intros nb' H.
    destruct (strip_output_keys_absent nb args nb' H) as ((cells' & Hdoc & Habs) & Hmeta).
    split.
    + intros path md Hin Hget. apply (Hmeta md path); auto.
    + exists cells'. split; auto.
Qed.

(** Three entries, the second one without a dot: the fields [foo] of the
    notebook metadata and of the cell are removed as the other two entries
    ask, and the one warning is for the second entry. *)
Lemma invalid_extra_key_skipped_witness :
  strip_output
    (VDict [("nbformat", VInt 4); ("metadata", VDict [("foo", VInt 1)]);
            ("cells", VList [VDict [("foo", VInt 2)]])])
    (mkStripArgs None false ["metadata.foo"; "foo"; "cell.foo"] false [] false 0)
  = (["Ignoring invalid extra key `foo`" ++ String (ascii_of_nat 10) ""],
     Ok (VDict [("nbformat", VInt 4); ("metadata", VDict []);
                ("cells", VList [VDict []])]))
  /\ snd (strip_output
            (VDict [("nbformat", VInt 4); ("metadata", VDict [("foo", VInt 1)]);
                    ("cells", VList [VDict [("foo", VInt 2)]])])
            (mkStripArgs None false ["metadata.foo"; "foo"; "cell.foo"] false [] false 0))
     = snd (strip_output
              (VDict [("nbformat", VInt 4); ("metadata", VDict [("foo", VInt 1)]);
                      ("cells", VList [VDict [("foo", VInt 2)]])])
              (mkStripArgs None false ["metadata.foo"; "cell.foo"] false [] false 0))
  /\ In "foo" (subkeys "cell" ["metadata.foo"; "foo"; "cell.foo"]).
Proof.
  assert (Hfoo : ~ In dot (list_ascii_of_string "foo")).
  { simpl. intros [H|[H|[H|[]]]]; discriminate H. }
  pose proof (invalid_extra_key_skipped
                (VDict [("nbformat", VInt 4); ("metadata", VDict [("foo", VInt 1)]);
                        ("cells", VList [VDict [("foo", VInt 2)]])])
                (mkStripArgs None false ["metadata.foo"; "foo"; "cell.foo"] false [] false 0)
                ["metadata.foo"] "foo" ["cell.foo"] eq_refl (or_introl Hfoo))
    as (_ & _ & Hdoc & Hwarn & _ & Hcell & _).
  split; [|split].
  - apply injective_projections.
    + exact Hwarn.
    + reflexivity.
  - exact Hdoc.
  - apply (Hcell "foo"). simpl. auto.
Defined.

(** With [keep_output] unset the call reads [nb.metadata] first: on a
    notebook without it the call fails there, and the warning for the entry
    [foo] is not written. *)
Lemma no_warning_before_failure :
  invalid_extra_key "foo" = true
  /\ strip_output (VDict [("nbformat", VInt 4); ("cells", VList [])])
       (mkStripArgs None false ["foo"] false [] false 0)
     = ([], Raise GenericError)
  /\ strip_output (VDict [("nbformat", VInt 4); ("cells", VList [])])
       (mkStripArgs None false [] false [] false 0)
     = ([], Raise GenericError).
Proof. repeat split; reflexivity. Qed.

(** ** The contradiction error *)

Lemma bind_raise {A B} (m : result A) (f : A -> result B) e :
  bind m f = Raise e -> m = Raise e \/ exists a, m = Ok a /\ f a = Raise e.
Proof.
  destruct m as [a|e0]; simpl; intros H.
  - right. eauto.
  - left. now inversion H.
Qed.

Lemma bind_not_metadata {A B} (m : result A) (f : A -> result B) :
  m <> Raise MetadataError ->
  (forall a, m = Ok a -> f a <> Raise MetadataError) ->
  bind m f <> Raise MetadataError.
Proof.
  intros Hm Hf H. apply bind_raise in H. destruct H as [H|(a & Ha & H)]; [auto|].
  now apply (Hf a).
Qed.

Lemma getattr_not_metadata o k : getattr o k <> Raise MetadataError.
Proof. destruct o; simpl; try discriminate. destruct (dict_get k d); discriminate. Qed.

Lemma getitem_not_metadata o k : getitem o k <> Raise MetadataError.
Proof. apply getattr_not_metadata. Qed.

Lemma setitem_not_metadata o k v : setitem o k v <> Raise MetadataError.
Proof. destruct o; discriminate. Qed.

Lemma py_iter_not_metadata c : py_iter c <> Raise MetadataError.
Proof. destruct c; discriminate. Qed.

Lemma py_get_not_metadata o k v : py_get o k v <> Raise MetadataError.
Proof. destruct o; discriminate. Qed.

Lemma py_contains_not_metadata k c : py_contains k c <> Raise MetadataError.
Proof. destruct c; discriminate. Qed.

Lemma any_strip_not_metadata lines : any_strip lines <> Raise MetadataError.
Proof.
  induction lines as [|x r IH]; simpl; [discriminate|].
  destruct x; try discriminate. destruct (all_space s); [auto|discriminate].
Qed.

Lemma mapM_raise {A B} (f : A -> result B) l e :
  mapM f l = Raise e -> exists x, In x l /\ f x = Raise e.
Proof.
  induction l as [|x r IH]; simpl; [discriminate|].
  intros H. apply bind_raise in H. destruct H as [H|(y & _ & H)]; [eauto|].
  apply bind_raise in H. destruct H as [H|(ys & _ & H)]; [|discriminate].
  destruct (IH H) as (z & Hz & Hfz). eauto.
Qed.

Lemma filterM_raise {A} (f : A -> result bool) l e :
  filterM f l = Raise e -> exists x, In x l /\ f x = Raise e.
Proof.
  induction l as [|x r IH]; simpl; [discriminate|].
  intros H. apply bind_raise in H. destruct H as [H|(y & _ & H)]; [eauto|].
  apply bind_raise in H. destruct H as [H|(ys & _ & H)]; [|discriminate].
  destruct (IH H) as (z & Hz & Hfz). eauto.
Qed.

Lemma call_conditional_not_metadata tag f c :
  call_conditional tag f c <> Raise MetadataError.
Proof.
  destruct f; simpl.
  - apply bind_not_metadata; [apply py_get_not_metadata|intros source _].
    apply bind_not_metadata; [apply py_iter_not_metadata|intros lines _].
    apply any_strip_not_metadata.
  - apply bind_not_metadata; [apply py_get_not_metadata|intros metadata _].
    apply bind_not_metadata; [apply py_get_not_metadata|intros tags _].
    apply bind_not_metadata; [apply py_contains_not_metadata|intros present _].
    discriminate.
Qed.

(** The filters raise no contradiction error. *)
Lemma apply_conditionals_not_metadata tag conds :
  forall o, apply_conditionals tag conds o <> Raise MetadataError.
Proof.
  induction conds as [|f r IH]; intros o; simpl; [discriminate|].
  apply bind_not_metadata; [apply getattr_not_metadata|intros cells _].
  apply bind_not_metadata.
  - unfold filter_cells.
    apply bind_not_metadata; [apply py_iter_not_metadata|intros items _].
    apply bind_not_metadata; [|discriminate].
    intros H. apply filterM_raise in H. destruct H as (x & _ & H).
    now apply call_conditional_not_metadata in H.
  - intros kept _.
    apply bind_not_metadata; [apply setitem_not_metadata|intros o' _]. apply IH.
Qed.

Lemma null_execution_count_not_metadata o :
  null_execution_count o <> Raise MetadataError.
Proof.
  unfold null_execution_count.
  apply bind_not_metadata; [apply py_contains_not_metadata|intros present _].
  destruct present; [apply setitem_not_metadata|discriminate].
Qed.

Lemma strip_outputs_not_metadata args decision cell :
  strip_outputs args decision cell <> Raise MetadataError.
Proof.
  unfold strip_outputs. apply bind_not_metadata.
  - destruct (py_not decision); [|discriminate].
    apply bind_not_metadata; [apply getitem_not_metadata|intros outputs _].
    apply bind_not_metadata; [apply py_iter_not_metadata|intros items _].
    apply setitem_not_metadata.
  - intros cell1 _. destruct (negb (keep_count args)); [|discriminate].
    apply bind_not_metadata; [apply getitem_not_metadata|intros outputs _].
    apply bind_not_metadata; [apply py_iter_not_metadata|intros items _].
    apply bind_not_metadata.
    + intros H. apply mapM_raise in H. destruct H as (x & _ & H).
      now apply null_execution_count_not_metadata in H.
    + intros items' _. destruct outputs; try discriminate. apply setitem_not_metadata.
Qed.

Lemma null_count_not_metadata args name cell :
  null_count args name cell <> Raise MetadataError.
Proof.
  unfold null_count.
  apply bind_not_metadata; [apply py_contains_not_metadata|intros present _].
  destruct (present && negb (keep_count args)); [apply setitem_not_metadata|discriminate].
Qed.

(** The loop body raises the contradiction error on the cells that
    contradict themselves and on no other. *)
Lemma strip_cell_contradiction args keep keys cell :
  strip_cell args keep keys cell = Raise MetadataError <-> contradicts cell = true.
Proof.
  rewrite <- (determine_keep_output_contradiction cell keep (strip_init_cells args)).
  unfold strip_cell.
  destruct (determine_keep_output cell keep (strip_init_cells args)) as [decision|e];
    [|simpl; split; intros H; now inversion H].
  split; [|discriminate]. intros H. exfalso. revert H.
  apply bind_not_metadata; [discriminate|intros decision' _].
  apply bind_not_metadata; [apply py_contains_not_metadata|intros has_outputs _].
  apply bind_not_metadata.
  - destruct has_outputs; [apply strip_outputs_not_metadata|discriminate].
  - intros cell1 _.
    apply bind_not_metadata; [apply null_count_not_metadata|intros cell2 _].
    apply bind_not_metadata; [apply null_count_not_metadata|intros cell3 _].
    discriminate.
Qed.

Lemma effective_keep_output_not_metadata nb args :
  effective_keep_output nb args <> Raise MetadataError.
Proof.
  unfold effective_keep_output. destruct (keep_output args); [discriminate|].
  apply bind_not_metadata; [apply getattr_not_metadata|intros metadata _].
  apply bind_not_metadata; [apply py_contains_not_metadata|intros present _].
  destruct present; [|discriminate].
  apply bind_not_metadata; [apply getitem_not_metadata|discriminate].
Qed.

Lemma strip_metadata_not_metadata fields nb :
  strip_metadata fields nb <> Raise MetadataError.
Proof.
  unfold strip_metadata. destruct fields; [discriminate|].
  apply bind_not_metadata; [apply getattr_not_metadata|intros metadata _].
  apply setitem_not_metadata.
Qed.

Section Contradiction.
Variable body : value -> result value.
Variable tag : string.
Variable conds : list conditional.

(** A contradiction error out of [_cells] comes from the loop body, on a
    cell that the filters of its container have let through. *)
Lemma filter_and_yield_metadata_error o :
  filter_and_yield body tag conds o = Raise MetadataError ->
  exists items c,
    cells_of o = Ok items /\ In c items /\ accepts tag conds c = true
    /\ body c = Raise MetadataError.
Proof.
  unfold filter_and_yield. intros H.
  apply bind_raise in H. destruct H as [H|(o1 & Ho1 & H)];
    [now apply apply_conditionals_not_metadata in H|].
  unfold yield_cells in H.
  apply bind_raise in H. destruct H as [H|(cells1 & Hcells1 & H)];
    [now apply getattr_not_metadata in H|].
  apply bind_raise in H. destruct H as [H|(items1 & Hitems1 & H)];
    [now apply py_iter_not_metadata in H|].
  apply bind_raise in H. destruct H as [H|(items' & _ & H)].
  - apply mapM_raise in H. destruct H as (c & Hc & Hbody).
    destruct conds as [|f r] eqn:Hconds.
    + simpl in Ho1. inversion Ho1. subst o1.
      exists items1, c. repeat split; auto.
      unfold cells_of. now rewrite Hcells1.
    + destruct (apply_conditionals_exact tag (f :: r) o o1 Ho1)
        as (d & cells & items & -> & Hcells & Hitems & ->); [discriminate|].
      simpl in Hcells1. rewrite dict_get_set_same in Hcells1.
      inversion Hcells1. subst cells1. simpl in Hitems1. inversion Hitems1. subst items1.
      apply filter_In in Hc. destruct Hc as [Hc Hacc].
      exists items, c. repeat split; auto.
      unfold cells_of. simpl. now rewrite Hcells.
  - destruct cells1; try discriminate. now apply setitem_not_metadata in H.
Qed.

Lemma _cells_metadata_error nb :
  _cells body tag conds nb = Raise MetadataError ->
  exists o items c,
    In o (cell_containers nb) /\ cells_of o = Ok items /\ In c items
    /\ accepts tag conds c = true /\ body c = Raise MetadataError.
Proof.
  unfold _cells, cell_containers. intros H.
  apply bind_raise in H. destruct H as [H|(fmt & Hfmt & H)];
    [now apply getattr_not_metadata in H|].
  apply bind_raise in H. destruct H as [H|(legacy & Hleg & H)];
    [destruct fmt; discriminate|].
  rewrite Hfmt. cbn [bind]. rewrite Hleg.
  destruct legacy.
  - apply bind_raise in H. destruct H as [H|(worksheets & Hws & H)];
      [now apply getattr_not_metadata in H|].
    apply bind_raise in H. destruct H as [H|(wss & Hwss & H)];
      [now apply py_iter_not_metadata in H|].
    rewrite Hws. cbn [bind]. rewrite Hwss.
    apply bind_raise in H. destruct H as [H|(wss' & _ & H)].
    + apply mapM_raise in H. destruct H as (ws & Hin & H).
      destruct (filter_and_yield_metadata_error ws H) as (items & c & H1 & H2 & H3 & H4).
      exists ws, items, c. auto.
    + destruct worksheets; try discriminate. now apply setitem_not_metadata in H.
  - destruct (filter_and_yield_metadata_error nb H) as (items & c & H1 & H2 & H3 & H4).
    exists nb, items, c. simpl. auto 6.
Qed.

End Contradiction.

(** Removing keys of the notebook metadata leaves the containers of the
    cells with their cells. *)
Lemma strip_metadata_containers fields nb nb1 o items :
  strip_metadata fields nb = Ok nb1 ->
  In o (cell_containers nb1) -> cells_of o = Ok items ->
  exists o0, In o0 (cell_containers nb) /\ cells_of o0 = Ok items.
Proof.
  unfold strip_metadata. destruct fields as [|f r]; intros H Ho Hitems.
  - inversion H. subst nb1. eauto.
  - apply bind_ok in H. destruct H as (md & _ & H).
    apply setitem_ok in H. destruct H as (d & -> & ->).
    unfold cell_containers in Ho |- *. simpl in Ho |- *.
    rewrite dict_get_set_other in Ho by discriminate.
    destruct (dict_get "nbformat" d) as [fmt|]; simpl in Ho |- *; [|destruct Ho].
    destruct (nbformat_lt_4 fmt) as [[|]|e]; simpl in Ho |- *; [| |destruct Ho].
    + rewrite dict_get_set_other in Ho by discriminate. eauto.
    + destruct Ho as [<-|[]]. exists (VDict d). split; auto.
      unfold cells_of in Hitems |- *. simpl in Hitems |- *.
      now rewrite dict_get_set_other in Hitems by discriminate.
Qed.

(** The cells of the containers are the cells of the document. *)
Lemma containers_document nb cells o items c :
  document_cells nb = Ok cells ->
  In o (cell_containers nb) -> cells_of o = Ok items -> In c items ->
  In c cells.
Proof.
  unfold document_cells, cell_containers. intros Hdoc Ho Hitems Hc.
  apply bind_ok in Hdoc. destruct Hdoc as (fmt & Hfmt & Hdoc).
  apply bind_ok in Hdoc. destruct Hdoc as (legacy & Hleg & Hdoc).
  rewrite Hfmt in Ho. cbn [bind] in Ho. rewrite Hleg in Ho.
  destruct legacy.
  - apply bind_ok in Hdoc. destruct Hdoc as (worksheets & Hws & Hdoc).
    apply bind_ok in Hdoc. destruct Hdoc as (wss & Hwss & Hdoc).
    apply bind_ok in Hdoc. destruct Hdoc as (css & Hcss & Hdoc).
    inversion Hdoc. subst cells.
    rewrite Hws in Ho. cbn [bind] in Ho. rewrite Hwss in Ho.
    apply mapM_ok in Hcss.
    destruct (Forall2_In_l _ _ _ _ Hcss Ho) as (items0 & Hin & Hof).
    simpl in Hof. rewrite Hitems in Hof. inversion Hof. subst items0.
    apply in_concat. eauto.
  - destruct Ho as [<-|[]]. rewrite Hitems in Hdoc. inversion Hdoc. now subst cells.
Qed.

(** C4, as amended.  [determine_keep_output] raises the contradiction
    error exactly on a cell without [metadata.init_cell] whose metadata has a
    [keep_output] key with a false value while ["keep_output"] is among its
    tags, and so does the loop body of [strip_output]; where the value of
    [keep_output] is true there is no error, with the tag or without.
    [strip_output] raises the contradiction error only if such a cell is
    among the cells that the filters let through, and when such a cell is let
    through the call returns no document: it raises the contradiction error,
    or another error that a filter, a cell or the document met before it has
    raised.  The cells as the filters find them are those of the notebook or,
    below [nbformat] 4, of its worksheets. *)
Theorem contradiction_raised_exactly :
  (forall cell default strip,
      determine_keep_output cell default strip = Raise MetadataError
      <-> contradicts cell = true)
  /\ (forall cell args default cell_keys,
         strip_cell args default cell_keys cell = Raise MetadataError
         <-> contradicts cell = true)
  /\ (forall c md v default strip,
         dict_get "metadata" c = Some (VDict md) ->
         dict_get "keep_output" md = Some v ->
         truthy v = true ->
         determine_keep_output (VDict c) default strip <> Raise MetadataError)
  /\ (forall nb args,
         snd (strip_output nb args) = Raise MetadataError ->
         exists o items cell,
           In o (cell_containers nb) /\ cells_of o = Ok items /\ In cell items
           /\ accepts (last_tag args) (build_conditionals args) cell = true
           /\ contradicts cell = true)
  /\ (forall nb args o items cell,
         In o (cell_containers nb) -> cells_of o = Ok items -> In cell items ->
         accepts (last_tag args) (build_conditionals args) cell = true ->
         contradicts cell = true ->
         snd (strip_output nb args) = Raise MetadataError
         \/ snd (strip_output nb args) = Raise GenericError).
Proof.
  split; [|split; [|split; [|split]]].
  - intros cell default strip. apply determine_keep_output_contradiction.
  - intros cell args default cell_keys. apply strip_cell_contradiction.
  - intros c md v default strip Hmd Hkeep Hv H.
    apply determine_keep_output_contradiction in H.
    simpl in H. rewrite Hmd, Hkeep, Hv in H. simpl in H.
    now rewrite andb_false_r in H.
  - intros nb args H. unfold strip_output in H.
    destruct (effective_keep_output nb args) as [keep|e] eqn:Hkeep.
    + simpl in H. apply bind_raise in H. destruct H as [H|(nb1 & Hnb1 & H)];
        [now apply strip_metadata_not_metadata in H|].
      destruct (_cells_metadata_error _ _ _ _ H)
        as (o & items & c & Ho & Hitems & Hc & Hacc & Hbody).
      destruct (strip_metadata_containers _ _ _ _ _ Hnb1 Ho Hitems) as (o0 & Ho0 & Hitems0).
      exists o0, items, c. repeat split; auto.
      now apply strip_cell_contradiction in Hbody.
    + simpl in H. inversion H. subst e.
      now apply effective_keep_output_not_metadata in Hkeep.
  - intros nb args o items cell Ho Hitems Hcell Hacc Hcon.
    destruct (snd (strip_output nb args)) as [nb'|[|]] eqn:H; auto.
    exfalso. unfold strip_output in H.
    destruct (effective_keep_output nb args) as [keep|e] eqn:Hkeep; [|discriminate].
    simpl in H. apply bind_ok in H. destruct H as (nb1 & Hnb1 & H).
    destruct (_cells_exact _ _ (strip_cell_str args keep _) _ _ _ H)
      as (cells & cells' & Hdoc & Hmap & _).
    rewrite (strip_metadata_cells _ _ _ Hnb1) in Hdoc.
    pose proof (containers_document _ _ _ _ _ Hdoc Ho Hitems Hcell) as Hin.
    apply mapM_ok in Hmap.
    assert (Hsurv : In cell (filter (accepts (last_tag args) (build_conditionals args)) cells))
      by (apply filter_In; auto).
    destruct (Forall2_In_l _ _ _ _ Hmap Hsurv) as (cell' & _ & Hbody).
    simpl in Hbody.
    apply (strip_cell_contradiction args keep (subkeys "cell" (extra_keys args))) in Hcon.
    congruence.
Qed.

(** The two cells of the claim, each in a notebook of its own under the
    default configuration: with [keep_output] false and the tag the call
    fails with the contradiction error, with [keep_output] true and the tag
    [determine_keep_output] raises nothing. *)
Lemma contradiction_raised_exactly_witness :
  snd (strip_output
         (notebook [VDict [("metadata", VDict [("keep_output", VBool false);
                                               ("tags", VList [VStr "keep_output"])])]])
         default_args)
  = Raise MetadataError
  /\ determine_keep_output
       (VDict [("metadata", VDict [("keep_output", VBool true);
                                   ("tags", VList [VStr "keep_output"])])])
       None false <> Raise MetadataError
  /\ exists o items cell,
      In o (cell_containers
              (notebook [VDict [("metadata", VDict [("keep_output", VBool false);
                                                    ("tags", VList [VStr "keep_output"])])]]))
      /\ cells_of o = Ok items /\ In cell items
      /\ accepts (last_tag default_args) (build_conditionals default_args) cell = true
      /\ contradicts cell = true.
Proof.
  destruct contradiction_raised_exactly as (_ & _ & Htrue & Honly & Hsurfaced).
  split; [|split].
  - pose proof (Hsurfaced
                  (notebook [VDict [("metadata", VDict [("keep_output", VBool false);
                                                        ("tags", VList [VStr "keep_output"])])]])
                  default_args
                  (notebook [VDict [("metadata", VDict [("keep_output", VBool false);
                                                        ("tags", VList [VStr "keep_output"])])]])
                  [VDict [("metadata", VDict [("keep_output", VBool false);
                                              ("tags", VList [VStr "keep_output"])])]]
                  (VDict [("metadata", VDict [("keep_output", VBool false);
                                              ("tags", VList [VStr "keep_output"])])])
                  (or_introl eq_refl) eq_refl (or_introl eq_refl) eq_refl eq_refl)
      as [H|H].
    + exact H.
    + vm_compute in H. discriminate H.
  - apply (Htrue [("metadata", VDict [("keep_output", VBool true);
                                      ("tags", VList [VStr "keep_output"])])]
                 [("keep_output", VBool true); ("tags", VList [VStr "keep_output"])]
                 (VBool true) None false); reflexivity.
  - apply (Honly (notebook [VDict [("metadata", VDict [("keep_output", VBool false);
                                                       ("tags", VList [VStr "keep_output"])])]])
                 default_args).
    reflexivity.
Defined.

(** A cell that contradicts itself and carries the tag ["remove"]: with
    [drop_tagged_cells = ["remove"]] the filter drops it before
    [determine_keep_output] sees it, and the call returns the notebook
    without the cell. *)
Lemma dropped_cell_raises_nothing :
  contradicts (VDict [("metadata", VDict [("keep_output", VBool false);
                                          ("tags", VList [VStr "keep_output";
                                                          VStr "remove"])])])
  = true
  /\ determine_keep_output
       (VDict [("metadata", VDict [("keep_output", VBool false);
                                   ("tags", VList [VStr "keep_output"; VStr "remove"])])])
       (Some false) false
     = Raise MetadataError
  /\ snd (strip_output
            (notebook [VDict [("metadata", VDict [("keep_output", VBool false);
                                                  ("tags", VList [VStr "keep_output";
                                                                  VStr "remove"])])]])
            (mkStripArgs (Some false) false [] false ["remove"] false 0))
     = Ok (notebook []).
Proof. repeat split; reflexivity. Qed.

(** A cell whose [metadata] is null, before the cell that contradicts
    itself: the call fails on the first one, with another error. *)
Lemma earlier_failure_comes_first :
  snd (strip_output
         (notebook [VDict [("metadata", VNone)];
                    VDict [("metadata", VDict [("keep_output", VBool false);
                                               ("tags", VList [VStr "keep_output"])])]])
         default_args)
  = Raise GenericError.
Proof. reflexivity. Qed.

(** ** A second pass with the extra keys *)
















